(** * dyngoose: the MagicSearch query layer (src/query/search.ts)

    A shallow embedding of the search builder, of the automatic index
    selection, of the request compilation done by [getInput] and of the
    paginated execution ([page], [exec], [minimum], [all]), and of the
    detection of DynamoDB values in src/utils/is.ts, followed by the
    properties of that code.

    The embedding follows search.ts method by method.  Code imported by
    search.ts from modules that are not part of the verified sources (the
    path syntax of lodash, the expression compiler, the projection builder,
    the output aggregator, the schema and its DynamoDB client) appears
    either as a field of the
    [Collaborators] class or as a definition marked "Modelled from the spec". *)

From Stdlib Require Import List String ZArith Bool Lia DecimalString.
Import ListNotations.
Open Scope string_scope.
Open Scope Z_scope.
Open Scope list_scope.

Set Implicit Arguments.
Set Warnings "-register-all".

(* ===================================================================== *)
(** ** JavaScript values *)
(* ===================================================================== *)

(** The dynamically typed values that occur in filters, keys, items and
    thrown exceptions. *)
Inductive JsValue : Type :=
| JUndefined
| JNull
| JBool (b : bool)
| JNum (n : Z)
| JStr (s : string)
| JArr (elements : list JsValue)
| JObj (fields : list (string * JsValue)).

(** A plain object as the list of its own enumerable properties. *)
Definition JsObject (A : Type) : Type := list (string * A).

(** [Object.prototype.hasOwnProperty] on a plain object. *)
Fixpoint hasOwn {A : Type} (o : JsObject A) (key : string) : bool :=
  match o with
  | [] => false
  | (k, _) :: rest => if String.eqb k key then true else hasOwn rest key
  end.

(** Property read on a plain object; [None] stands for [undefined]. *)
Fixpoint getOwn {A : Type} (o : JsObject A) (key : string) : option A :=
  match o with
  | [] => None
  | (k, v) :: rest => if String.eqb k key then Some v else getOwn rest key
  end.

(** The key of the element at a position of an array. *)
Definition indexKey (i : nat) : string :=
  NilZero.string_of_uint (Nat.to_uint i).

(** The elements of an array under their keys, from position [i] on. *)
Fixpoint arrayEntries (i : nat) (elements : list JsValue) : JsObject JsValue :=
  match elements with
  | [] => []
  | x :: rest => (indexKey i, x) :: arrayEntries (S i) rest
  end.

(** The characters of a string under their keys, from position [i] on, each
    as a string of one character. *)
Fixpoint stringEntries (i : nat) (s : string) : JsObject JsValue :=
  match s with
  | EmptyString => []
  | String c rest => (indexKey i, JStr (String c EmptyString)) :: stringEntries (S i) rest
  end.

(** [hasOwnProperty.call(v, key)] together with the value of the property:
    an own property of an object; an element or the length of an array; a
    character or the length of a string; nothing for numbers, booleans,
    [null] and [undefined]. *)
Definition ownProperty (v : JsValue) (key : string) : option JsValue :=
  match v with
  | JObj fields => getOwn fields key
  | JArr elements =>
      if String.eqb key "length" then Some (JNum (Z.of_nat (List.length elements)))
      else getOwn (arrayEntries 0 elements) key
  | JStr s =>
      if String.eqb key "length" then Some (JNum (Z.of_nat (String.length s)))
      else getOwn (stringEntries 0 s) key
  | _ => None
  end.

(** [0-9] *)
Definition isDigit (c : Ascii.ascii) : bool :=
  let n := Ascii.nat_of_ascii c in
  (Nat.leb 48 n && Nat.leb n 57)%bool.

(** The class [\w] of regular expressions: letters, digits and the
    underscore. *)
Definition isWordChar (c : Ascii.ascii) : bool :=
  let n := Ascii.nat_of_ascii c in
  (isDigit c || (Nat.leb 65 n && Nat.leb n 90) || (Nat.leb 97 n && Nat.leb n 122)
   || Nat.eqb n 95)%bool.

(** lodash's [reIsPlainProp], [/^\w*$/]. *)
Fixpoint reIsPlainProp (s : string) : bool :=
  match s with
  | EmptyString => true
  | String c rest => isWordChar c && reIsPlainProp rest
  end.

(** lodash [isArray]. *)
Definition isArray (v : JsValue) : bool :=
  match v with
  | JArr _ => true
  | _ => false
  end.

(** [v[0]]: the first element of an array, [undefined] when there is none. *)
Definition index0 (v : JsValue) : JsValue :=
  match v with
  | JArr (x :: _) => x
  | _ => JUndefined
  end.

(** lodash [includes] on an array of strings: membership by SameValueZero,
    so only a string value can be found. *)
Definition includes (collection : list string) (value : JsValue) : bool :=
  match value with
  | JStr s => existsb (String.eqb s) collection
  | _ => false
  end.

(** [x != null] on an optional field. *)
Definition notNull {A : Type} (x : option A) : bool :=
  match x with
  | Some _ => true
  | None => false
  end.

(* ===================================================================== *)
(** ** Loops with [continue] and [return] *)
(* ===================================================================== *)

(** The outcome of one iteration of a [for ... of] body. *)
Inductive LoopStep (B : Type) : Type :=
| Continue
| Return (result : B).
Arguments Continue {B}.
Arguments Return {B} result.

(** [for (const x of l) { body }; after]: the first iteration that returns
    decides; when none does, control reaches the code after the loop. *)
Fixpoint for_of {A B : Type} (body : A -> LoopStep B) (l : list A) (after : B) : B :=
  match l with
  | [] => after
  | x :: rest =>
      match body x with
      | Return b => b
      | Continue => for_of body rest after
      end
  end.

(* ===================================================================== *)
(** ** Filters (./filters) *)
(* ===================================================================== *)

(** [Filter]: a bare value (equality) or an [[operator, ...operands]] array. *)
Definition Filter : Type := JsValue.

(** [Filters<T>]: an object from attribute names to filters. *)
Definition Filters : Type := JsObject Filter.

(** One element of [ComplexFilters<T>]: a filters object, a nested
    [ComplexFilters] array, or the string ['OR']. *)
Inductive FilterEntry : Type :=
| EFilters (group : Filters)
| ENested (sub : list FilterEntry)
| EOr.

Definition ComplexFilters : Type := list FilterEntry.

(** An element of the filter list as the JavaScript value it is. *)
Fixpoint entryValue (entry : FilterEntry) : JsValue :=
  match entry with
  | EFilters group => JObj group
  | ENested sub => JArr (map entryValue sub)
  | EOr => JStr "OR"
  end.

(* ===================================================================== *)
(** ** Schema and index metadata (../metadata, ../table) *)
(* ===================================================================== *)

(** [Attribute]: search.ts reads only its [name]. *)
Record Attribute : Type := { name : string }.

Inductive Projection : Type := ALL | KEYS_ONLY | INCLUDE.

(** [Metadata.Index.PrimaryKey] *)
Record PrimaryKeyMetadata : Type := {
  pk_hash : Attribute;
  pk_range : option Attribute
}.

(** [Metadata.Index.GlobalSecondaryIndex] *)
Record GlobalSecondaryIndexMetadata : Type := {
  gsi_name : string;
  gsi_hash : Attribute;
  gsi_range : option Attribute;
  gsi_projection : option Projection
}.

(** [Metadata.Index.LocalSecondaryIndex]: no hash of its own. *)
Record LocalSecondaryIndexMetadata : Type := {
  lsi_name : string;
  lsi_range : Attribute;
  lsi_projection : option Projection
}.

(** The values [indexMetadata] takes in [getInput]. *)
Inductive IndexMetadata : Type :=
| IxPrimaryKey (metadata : PrimaryKeyMetadata)
| IxGlobal (metadata : GlobalSecondaryIndexMetadata)
| IxLocal (metadata : LocalSecondaryIndexMetadata).

(** [Object.assign({ hash }, index)] for a local secondary index, typed by
    the source as a [Metadata.Index.GlobalSecondaryIndex]. *)
Definition assignHash (hash : Attribute) (index : LocalSecondaryIndexMetadata)
  : GlobalSecondaryIndexMetadata :=
  {| gsi_name := lsi_name index;
     gsi_hash := hash;
     gsi_range := Some (lsi_range index);
     gsi_projection := lsi_projection index |}.

(** [index.projection === 'INCLUDE' || index.projection === 'KEYS_ONLY'] *)
Definition isIncludeOrKeysOnly (projection : option Projection) : bool :=
  match projection with
  | Some INCLUDE => true
  | Some KEYS_ONLY => true
  | _ => false
  end.

(** [tableClass.schema] *)
Record Schema : Type := {
  schema_name : string;
  primaryKey : PrimaryKeyMetadata;
  globalSecondaryIndexes : list GlobalSecondaryIndexMetadata;
  localSecondaryIndexes : list LocalSecondaryIndexMetadata
}.

(* ===================================================================== *)
(** ** Search options and the builder state *)
(* ===================================================================== *)

Definition Key : Type := JsObject JsValue.

Inductive RangeOrder : Type := ASC | DESC.

(** [Index<T>]: an index object (read through its [metadata]) or a name. *)
Inductive Index : Type :=
| IndexName_ (indexName : string)
| IndexObject (metadata : IndexMetadata).

(** [MagicSearchInput<T>] *)
Record MagicSearchInput : Type := {
  limit : option Z;
  exclusiveStartKey : option Key;
  attributes : option (list string);
  projectionExpression : option string;
  rangeOrder : option RangeOrder;
  consistent : option bool;
  returnOnlyCount : option bool;
  index : option Index
}.

(** The default [input = {}]. *)
Definition emptyInput : MagicSearchInput :=
  {| limit := None; exclusiveStartKey := None; attributes := None;
     projectionExpression := None; rangeOrder := None; consistent := None;
     returnOnlyCount := None; index := None |}.

(** A [MagicSearch<T>] object. *)
Record MagicSearch : Type := {
  tableClass : Schema;
  filters : ComplexFilters;
  input : MagicSearchInput
}.

(* ===================================================================== *)
(** ** Requests, responses and errors *)
(* ===================================================================== *)

Definition AttributeNameMap : Type := JsObject string.
Definition AttributeValueMap : Type := JsObject JsValue.
Definition AttributeMap : Type := JsObject JsValue.

Inductive SelectKind : Type := SPECIFIC_ATTRIBUTES | COUNT.

(** [DynamoDB.ScanInput | DynamoDB.QueryInput] *)
Record Input : Type := {
  TableName : string;
  ConsistentRead : option bool;
  ExpressionAttributeNames : option AttributeNameMap;
  ExpressionAttributeValues : option AttributeValueMap;
  FilterExpression : option string;
  ProjectionExpression : option string;
  Select : option SelectKind;
  ScanIndexForward : option bool;
  Limit : option Z;
  ExclusiveStartKey : option Key;
  IndexName : option string;
  KeyConditionExpression : option string
}.

(** [DynamoDB.ScanOutput | DynamoDB.QueryOutput] *)
Record DynamoOutput : Type := {
  Items : list AttributeMap;
  Count : Z;
  ScannedCount : Z;
  LastEvaluatedKey : option Key
}.

(** What [buildQueryExpression] returns. *)
Record QueryExpression : Type := {
  qe_ExpressionAttributeNames : option AttributeNameMap;
  qe_ExpressionAttributeValues : option AttributeValueMap;
  qe_FilterExpression : option string;
  qe_KeyConditionExpression : option string
}.

(** What [buildProjectionExpression] returns. *)
Record ProjectionResult : Type := {
  pe_ProjectionExpression : option string;
  pe_ExpressionAttributeNames : option AttributeNameMap
}.

(** The two operations of the DynamoDB client. *)
Inductive DynamoCall : Type :=
| DynamoQuery (request : Input)
| DynamoScan (request : Input).

(** The exceptions search.ts raises or lets through. *)
Inductive Error : Type :=
| QueryError (message : string)
| PlainError (message : string)
| HelpfulError (ex : JsValue) (table : Schema) (request : Input)
| SchemaError (message : string).

(** The result of running a piece of the program: a value, an exception, or
    the loop bound of the model was reached before the program finished. *)
Inductive Res (A : Type) : Type :=
| Ok (value : A)
| Throw (e : Error)
| OutOfFuel.
Arguments Ok {A} value.
Arguments Throw {A} e.
Arguments OutOfFuel {A}.

(* ===================================================================== *)
(** ** Collaborators of search.ts *)
(* ===================================================================== *)

(** What search.ts imports from modules outside the verified sources and
    only calls: the path syntax of lodash (the test [reIsDeepProp] for a
    string that holds a dot or a bracket expression, and the parser
    [stringToPath] of such a string into its keys), used by [has] and [get];
    the operator table and the compiler of ./expression, the
    builder of ./projection-expression, the attribute lookup of the schema,
    the item decoder of the table class and the DynamoDB client held by the
    schema.  The compilers and the lookup may throw.  A call to the client
    either rejects with an exception or resolves to an output, and moves the
    store to a new state. *)
Class Collaborators : Type := {
  reIsDeepProp : string -> bool;
  stringToPath : string -> list string;
  keyConditionAllowedOperators : list string;
  buildQueryExpression :
    Schema -> ComplexFilters -> option IndexMetadata -> Res QueryExpression;
  buildProjectionExpression :
    Schema -> list string -> option AttributeNameMap -> Res ProjectionResult;
  getAttributeByPropertyName : Schema -> string -> Res Attribute;
  Document : Type;
  fromDynamo : Schema -> AttributeMap -> bool -> Document;
  Store : Type;
  dynamo : DynamoCall -> Store -> (JsValue + DynamoOutput) * Store
}.

Section Program.

Context {collaborators : Collaborators}.

(* ===================================================================== *)
(** ** Index selection: [checkFilters] and [findAvailableIndex] *)
(* ===================================================================== *)

(** lodash [isKey(name, object)]: the name is one key when it is made of
    word characters, or holds no path syntax, or is a property of the
    object.  (The names the last test is reached with hold a dot or a
    bracket, which no inherited property does, so that it is a test of the
    own properties.) *)
Definition isKey (name : string) (object : JsValue) : bool :=
  reIsPlainProp name || negb (reIsDeepProp name) || notNull (ownProperty object name).

(** lodash [castPath(name, object)] *)
Definition castPath (name : string) (object : JsValue) : list string :=
  if isKey name object then [name] else stringToPath name.

(** lodash [hasPath(object, path, baseHas)]: every key of the path is an own
    property of the value reached so far.  (Its last resort, for an index
    within the length of an array that does not own it, concerns arrays with
    holes; the arrays here have none.) *)
Fixpoint hasPath (object : JsValue) (path : list string) : bool :=
  match path with
  | [] => false
  | [key] => notNull (ownProperty object key)
  | key :: rest =>
      match ownProperty object key with
      | Some x => hasPath x rest
      | None => false
      end
  end.

(** lodash [baseGet(object, path)] along own properties; [undefined] where
    the path ends early.  (A property read also finds inherited
    properties; [checkFilters] reads [get] only where [has] holds, along the
    own properties [has] went through.) *)
Fixpoint getPath (object : JsValue) (path : list string) : JsValue :=
  match path with
  | [] => JUndefined
  | [key] =>
      match ownProperty object key with
      | Some x => x
      | None => JUndefined
      end
  | key :: rest =>
      match ownProperty object key with
      | Some x => getPath x rest
      | None => JUndefined
      end
  end.

(** lodash [has(entry, name)] on an element of the filter list: a filters
    object, a nested array or the string ['OR']. *)
Definition has (entry : FilterEntry) (name : string) : bool :=
  hasPath (entryValue entry) (castPath name (entryValue entry)).

(** lodash [get(entry, name)] *)
Definition get (entry : FilterEntry) (name : string) : Filter :=
  getPath (entryValue entry) (castPath name (entryValue entry)).

(** The test applied to a hash or range filter: an array must start with an
    operator allowed in a key condition; anything else is accepted. *)
Definition operatorRejected (filter : Filter) : bool :=
  if isArray filter
  then negb (includes keyConditionAllowedOperators (index0 filter))
  else false.

(** The body of the loop of [checkFilters], for one element of
    [this.filters]. *)
Definition checkFilters_body (hash : Attribute) (range : option Attribute)
    (filters : FilterEntry) : LoopStep bool :=
  if negb (has filters (name hash)) then Continue
  else
    let hashFilter := get filters (name hash) in
    if operatorRejected hashFilter then Continue
    else
      match range with
      | None => Return true
      | Some range =>
          if negb (has filters (name range)) then Continue
          else
            let rangeFilter := get filters (name range) in
            if operatorRejected rangeFilter then Continue
            else Return true
      end.

(** [MagicSearch.checkFilters] *)
Definition checkFilters (self : MagicSearch) (hash : Attribute)
    (range : option Attribute) : bool :=
  for_of (checkFilters_body hash range) (filters self) false.

(** [MagicSearch.findAvailableIndex]; falling off the end returns
    [undefined]. *)
Definition findAvailableIndex (self : MagicSearch) : option IndexMetadata :=
  let primaryKey := primaryKey (tableClass self) in
  if checkFilters self (pk_hash primaryKey) (pk_range primaryKey)
  then Some (IxPrimaryKey primaryKey)
  else
    for_of
      (fun index =>
         if isIncludeOrKeysOnly (gsi_projection index) then Continue
         else if checkFilters self (gsi_hash index) (gsi_range index)
              then Return (Some (IxGlobal index))
              else Continue)
      (globalSecondaryIndexes (tableClass self))
      (for_of
         (fun index =>
            if isIncludeOrKeysOnly (lsi_projection index) then Continue
            else if checkFilters self (pk_hash primaryKey) (Some (lsi_range index))
                 then Return (Some (IxGlobal (assignHash (pk_hash primaryKey) index)))
                 else Continue)
         (localSecondaryIndexes (tableClass self))
         None).

(* ===================================================================== *)
(** ** The builder methods *)
(* ===================================================================== *)

Definition withFilters (self : MagicSearch) (f : ComplexFilters) : MagicSearch :=
  {| tableClass := tableClass self; filters := f; input := input self |}.

Definition withInput (self : MagicSearch) (i : MagicSearchInput) : MagicSearch :=
  {| tableClass := tableClass self; filters := filters self; input := i |}.

(** [addFilterGroup]: [this.filters.concat(filters)] appends the elements
    of the argument. *)
Definition addFilterGroup (filters' : list Filters) (self : MagicSearch) : MagicSearch :=
  withFilters self (filters self ++ map EFilters filters').

(** The constructor. *)
Definition newMagicSearch (table : Schema) (filters' : option Filters)
    (input' : MagicSearchInput) : MagicSearch :=
  let self := {| tableClass := table; filters := []; input := input' |} in
  match filters' with
  | Some f => addFilterGroup [f] self
  | None => self
  end.

(** [group]: the callback works on a fresh search over the same table; only
    the filters it leaves there are kept, as one nested entry. *)
Definition group (value : MagicSearch -> Res MagicSearch) (self : MagicSearch)
  : Res MagicSearch :=
  let groupedSearch := newMagicSearch (tableClass self) None emptyInput in
  match value groupedSearch with
  | Ok groupedSearch' =>
      Ok (withFilters self (filters self ++ [ENested (filters groupedSearch')]))
  | Throw e => Throw e
  | OutOfFuel => OutOfFuel
  end.

Definition parenthesis (value : MagicSearch -> Res MagicSearch) (self : MagicSearch)
  : Res MagicSearch :=
  group value self.

(** [or] *)
Definition or (self : MagicSearch) : MagicSearch :=
  withFilters self (filters self ++ [EOr]).

(** [and] *)
Definition and (self : MagicSearch) : MagicSearch := self.

(** [limit] *)
Definition setLimit (limit' : Z) (self : MagicSearch) : MagicSearch :=
  let i := input self in
  withInput self
    {| limit := Some limit'; exclusiveStartKey := exclusiveStartKey i;
       attributes := attributes i; projectionExpression := projectionExpression i;
       rangeOrder := rangeOrder i; consistent := consistent i;
       returnOnlyCount := returnOnlyCount i; index := index i |}.

(** [startAt] *)
Definition startAt (exclusiveStartKey' : option Key) (self : MagicSearch) : MagicSearch :=
  let i := input self in
  withInput self
    {| limit := limit i; exclusiveStartKey := exclusiveStartKey';
       attributes := attributes i; projectionExpression := projectionExpression i;
       rangeOrder := rangeOrder i; consistent := consistent i;
       returnOnlyCount := returnOnlyCount i; index := index i |}.

(** [this.input.attributes = (this.input.attributes ?? []).concat(names)] *)
Definition concatAttributes (names : list string) (self : MagicSearch) : MagicSearch :=
  let i := input self in
  let current := match attributes i with Some a => a | None => [] end in
  withInput self
    {| limit := limit i; exclusiveStartKey := exclusiveStartKey i;
       attributes := Some (current ++ names);
       projectionExpression := projectionExpression i;
       rangeOrder := rangeOrder i; consistent := consistent i;
       returnOnlyCount := returnOnlyCount i; index := index i |}.

(** The loop of [properties]: look every property name up, in order. *)
Fixpoint attributeNamesOf (table : Schema) (propertyNames : list string)
  : Res (list string) :=
  match propertyNames with
  | [] => Ok []
  | propertyName :: rest =>
      match getAttributeByPropertyName table propertyName with
      | Ok attr =>
          match attributeNamesOf table rest with
          | Ok names => Ok (name attr :: names)
          | Throw e => Throw e
          | OutOfFuel => OutOfFuel
          end
      | Throw e => Throw e
      | OutOfFuel => OutOfFuel
      end
  end.

(** [properties] *)
Definition properties (propertyNames : list string) (self : MagicSearch)
  : Res MagicSearch :=
  match attributeNamesOf (tableClass self) propertyNames with
  | Ok attributeNames => Ok (concatAttributes attributeNames self)
  | Throw e => Throw e
  | OutOfFuel => OutOfFuel
  end.

(** [attributes] *)
Definition setAttributes (attributeNames : list string) (self : MagicSearch) : MagicSearch :=
  concatAttributes attributeNames self.

(** [count] *)
Definition count (self : MagicSearch) : MagicSearch :=
  let i := input self in
  withInput self
    {| limit := limit i; exclusiveStartKey := exclusiveStartKey i;
       attributes := attributes i; projectionExpression := projectionExpression i;
       rangeOrder := rangeOrder i; consistent := consistent i;
       returnOnlyCount := Some true; index := index i |}.

(** [consistent] *)
Definition setConsistent (consistent' : bool) (self : MagicSearch) : MagicSearch :=
  let i := input self in
  withInput self
    {| limit := limit i; exclusiveStartKey := exclusiveStartKey i;
       attributes := attributes i; projectionExpression := projectionExpression i;
       rangeOrder := rangeOrder i; consistent := Some consistent';
       returnOnlyCount := returnOnlyCount i; index := index i |}.

(** [using]: [null] clears the index. *)
Definition using_ (index' : option Index) (self : MagicSearch) : MagicSearch :=
  let i := input self in
  withInput self
    {| limit := limit i; exclusiveStartKey := exclusiveStartKey i;
       attributes := attributes i; projectionExpression := projectionExpression i;
       rangeOrder := rangeOrder i; consistent := consistent i;
       returnOnlyCount := returnOnlyCount i; index := index' |}.

Inductive Direction : Type := ascending_ | descending_.

(** [sort] *)
Definition sort (direction : Direction) (self : MagicSearch) : MagicSearch :=
  let i := input self in
  withInput self
    {| limit := limit i; exclusiveStartKey := exclusiveStartKey i;
       attributes := attributes i; projectionExpression := projectionExpression i;
       rangeOrder := match direction with
                     | ascending_ => Some ASC
                     | descending_ => Some DESC
                     end;
       consistent := consistent i;
       returnOnlyCount := returnOnlyCount i; index := index i |}.

Definition ascending (self : MagicSearch) : MagicSearch := sort ascending_ self.

Definition descending (self : MagicSearch) : MagicSearch := sort descending_ self.

(* ===================================================================== *)
(** ** Request compilation: [getInput] *)
(* ===================================================================== *)

(** Assignment to (or, with [None], deletion of) one property of a request. *)
Definition set_ConsistentRead (v : option bool) (i : Input) : Input :=
  {| TableName := TableName i;
     ConsistentRead := v;
     ExpressionAttributeNames := ExpressionAttributeNames i;
     ExpressionAttributeValues := ExpressionAttributeValues i;
     FilterExpression := FilterExpression i;
     ProjectionExpression := ProjectionExpression i;
     Select := Select i;
     ScanIndexForward := ScanIndexForward i;
     Limit := Limit i;
     ExclusiveStartKey := ExclusiveStartKey i;
     IndexName := IndexName i;
     KeyConditionExpression := KeyConditionExpression i |}.

Definition set_ExpressionAttributeNames (v : option AttributeNameMap) (i : Input) : Input :=
  {| TableName := TableName i;
     ConsistentRead := ConsistentRead i;
     ExpressionAttributeNames := v;
     ExpressionAttributeValues := ExpressionAttributeValues i;
     FilterExpression := FilterExpression i;
     ProjectionExpression := ProjectionExpression i;
     Select := Select i;
     ScanIndexForward := ScanIndexForward i;
     Limit := Limit i;
     ExclusiveStartKey := ExclusiveStartKey i;
     IndexName := IndexName i;
     KeyConditionExpression := KeyConditionExpression i |}.

Definition set_ProjectionExpression (v : option string) (i : Input) : Input :=
  {| TableName := TableName i;
     ConsistentRead := ConsistentRead i;
     ExpressionAttributeNames := ExpressionAttributeNames i;
     ExpressionAttributeValues := ExpressionAttributeValues i;
     FilterExpression := FilterExpression i;
     ProjectionExpression := v;
     Select := Select i;
     ScanIndexForward := ScanIndexForward i;
     Limit := Limit i;
     ExclusiveStartKey := ExclusiveStartKey i;
     IndexName := IndexName i;
     KeyConditionExpression := KeyConditionExpression i |}.

Definition set_Select (v : option SelectKind) (i : Input) : Input :=
  {| TableName := TableName i;
     ConsistentRead := ConsistentRead i;
     ExpressionAttributeNames := ExpressionAttributeNames i;
     ExpressionAttributeValues := ExpressionAttributeValues i;
     FilterExpression := FilterExpression i;
     ProjectionExpression := ProjectionExpression i;
     Select := v;
     ScanIndexForward := ScanIndexForward i;
     Limit := Limit i;
     ExclusiveStartKey := ExclusiveStartKey i;
     IndexName := IndexName i;
     KeyConditionExpression := KeyConditionExpression i |}.

Definition set_ScanIndexForward (v : option bool) (i : Input) : Input :=
  {| TableName := TableName i;
     ConsistentRead := ConsistentRead i;
     ExpressionAttributeNames := ExpressionAttributeNames i;
     ExpressionAttributeValues := ExpressionAttributeValues i;
     FilterExpression := FilterExpression i;
     ProjectionExpression := ProjectionExpression i;
     Select := Select i;
     ScanIndexForward := v;
     Limit := Limit i;
     ExclusiveStartKey := ExclusiveStartKey i;
     IndexName := IndexName i;
     KeyConditionExpression := KeyConditionExpression i |}.

Definition set_Limit (v : option Z) (i : Input) : Input :=
  {| TableName := TableName i;
     ConsistentRead := ConsistentRead i;
     ExpressionAttributeNames := ExpressionAttributeNames i;
     ExpressionAttributeValues := ExpressionAttributeValues i;
     FilterExpression := FilterExpression i;
     ProjectionExpression := ProjectionExpression i;
     Select := Select i;
     ScanIndexForward := ScanIndexForward i;
     Limit := v;
     ExclusiveStartKey := ExclusiveStartKey i;
     IndexName := IndexName i;
     KeyConditionExpression := KeyConditionExpression i |}.

Definition set_ExclusiveStartKey (v : option Key) (i : Input) : Input :=
  {| TableName := TableName i;
     ConsistentRead := ConsistentRead i;
     ExpressionAttributeNames := ExpressionAttributeNames i;
     ExpressionAttributeValues := ExpressionAttributeValues i;
     FilterExpression := FilterExpression i;
     ProjectionExpression := ProjectionExpression i;
     Select := Select i;
     ScanIndexForward := ScanIndexForward i;
     Limit := Limit i;
     ExclusiveStartKey := v;
     IndexName := IndexName i;
     KeyConditionExpression := KeyConditionExpression i |}.

Definition set_IndexName (v : option string) (i : Input) : Input :=
  {| TableName := TableName i;
     ConsistentRead := ConsistentRead i;
     ExpressionAttributeNames := ExpressionAttributeNames i;
     ExpressionAttributeValues := ExpressionAttributeValues i;
     FilterExpression := FilterExpression i;
     ProjectionExpression := ProjectionExpression i;
     Select := Select i;
     ScanIndexForward := ScanIndexForward i;
     Limit := Limit i;
     ExclusiveStartKey := ExclusiveStartKey i;
     IndexName := v;
     KeyConditionExpression := KeyConditionExpression i |}.

Definition set_KeyConditionExpression (v : option string) (i : Input) : Input :=
  {| TableName := TableName i;
     ConsistentRead := ConsistentRead i;
     ExpressionAttributeNames := ExpressionAttributeNames i;
     ExpressionAttributeValues := ExpressionAttributeValues i;
     FilterExpression := FilterExpression i;
     ProjectionExpression := ProjectionExpression i;
     Select := Select i;
     ScanIndexForward := ScanIndexForward i;
     Limit := Limit i;
     ExclusiveStartKey := ExclusiveStartKey i;
     IndexName := IndexName i;
     KeyConditionExpression := v |}.

(** [(typeof this.input.index.metadata as any).hash === 'undefined']:
    [typeof] binds tighter than the property access, so [.hash] is read from
    the string that [typeof] yields; that is [undefined], which is not the
    string ['undefined'].  The comparison is false for every metadata. *)
Definition typeofMetadataHashIsUndefined (metadata : IndexMetadata) : bool := false.

(** [Object.assign({ hash }, metadata)] in the branch guarded by the test
    above. *)
Definition assignHashTo (hash : Attribute) (metadata : IndexMetadata) : IndexMetadata :=
  match metadata with
  | IxLocal index => IxGlobal (assignHash hash index)
  | other => other
  end.

(** The loop over the global secondary indexes: every index of that name
    overwrites [indexMetadata]. *)
Definition findGlobalByName (indexName : string)
    (indexes : list GlobalSecondaryIndexMetadata) : option IndexMetadata :=
  fold_left
    (fun indexMetadata index =>
       if String.eqb (gsi_name index) indexName then Some (IxGlobal index)
       else indexMetadata)
    indexes None.

(** The loop over the local secondary indexes. *)
Definition findLocalByName (hash : Attribute) (indexName : string)
    (indexes : list LocalSecondaryIndexMetadata) : option IndexMetadata :=
  fold_left
    (fun indexMetadata index =>
       if String.eqb (lsi_name index) indexName
       then Some (IxGlobal (assignHash hash index))
       else indexMetadata)
    indexes None.

Definition nonExistentIndexMessage (table : Schema) (indexName : string) : string :=
  String.append "Attempted to perform "
    (String.append (schema_name table)
       (String.append ".search using non-existent index " indexName)).

(** The first statement of [getInput]: the value of [indexMetadata]. *)
Definition getInput_indexMetadata (self : MagicSearch) : Res (option IndexMetadata) :=
  let schema := tableClass self in
  match index (input self) with
  | Some (IndexName_ indexName) =>
      let indexMetadata := findGlobalByName indexName (globalSecondaryIndexes schema) in
      let indexMetadata :=
        match indexMetadata with
        | None => findLocalByName (pk_hash (primaryKey schema)) indexName
                    (localSecondaryIndexes schema)
        | Some _ => indexMetadata
        end in
      match indexMetadata with
      | None => Throw (QueryError (nonExistentIndexMessage schema indexName))
      | Some _ => Ok indexMetadata
      end
  | Some (IndexObject metadata) =>
      if typeofMetadataHashIsUndefined metadata
      then Ok (Some (assignHashTo (pk_hash (primaryKey schema)) metadata))
      else Ok (Some metadata)
  | None =>
      Ok (findAvailableIndex self)
  end.

(** [typeof indexMetadata.name === 'string']: the primary key has no name. *)
Definition indexNameOf (metadata : IndexMetadata) : option string :=
  match metadata with
  | IxPrimaryKey _ => None
  | IxGlobal index => Some (gsi_name index)
  | IxLocal index => Some (lsi_name index)
  end.

(** The projection step of [getInput]. *)
Definition getInput_projection (self : MagicSearch) (input' : Input) : Res Input :=
  match projectionExpression (input self) with
  | Some expression => Ok (set_ProjectionExpression (Some expression) input')
  | None =>
      match attributes (input self) with
      | Some attributes' =>
          match buildProjectionExpression (tableClass self) attributes'
                  (ExpressionAttributeNames input') with
          | Ok expression =>
              Ok (set_ExpressionAttributeNames (pe_ExpressionAttributeNames expression)
                    (set_ProjectionExpression (pe_ProjectionExpression expression)
                       (set_Select (Some SPECIFIC_ATTRIBUTES) input')))
          | Throw e => Throw e
          | OutOfFuel => OutOfFuel
          end
      | None => Ok input'
      end
  end.

(** The statements of [getInput] from the sort direction to the end. *)
Definition getInput_options (self : MagicSearch) (indexMetadata : option IndexMetadata)
    (query : QueryExpression) (input' : Input) : Input :=
  let options := input self in
  let input' :=
    match rangeOrder options with
    | Some DESC => set_ScanIndexForward (Some false) input'
    | _ => input'
    end in
  let input' :=
    match limit options with
    | Some l => set_Limit (Some l) input'
    | None => input'
    end in
  let input' :=
    match exclusiveStartKey options with
    | Some k => set_ExclusiveStartKey (Some k) input'
    | None => input'
    end in
  let input' :=
    match consistent options with
    | Some c => set_ConsistentRead (Some c) input'
    | None => input'
    end in
  let input' :=
    match indexMetadata with
    | Some metadata =>
        match indexNameOf metadata with
        | Some n => set_IndexName (Some n) input'
        | None => input'
        end
    | None => input'
    end in
  let input' :=
    match returnOnlyCount options with
    | Some true =>
        let input' := set_Select (Some COUNT) input' in
        if notNull (ProjectionExpression input')
        then set_ProjectionExpression None input'
        else input'
    | _ => input'
    end in
  match qe_KeyConditionExpression query with
  | Some expression => set_KeyConditionExpression (Some expression) input'
  | None => input'
  end.

(** The object literal [getInput] starts from. *)
Definition initialRequest (self : MagicSearch) (query : QueryExpression) : Input :=
  {| TableName := schema_name (tableClass self);
     ConsistentRead := Some false;
     ExpressionAttributeNames := qe_ExpressionAttributeNames query;
     ExpressionAttributeValues := qe_ExpressionAttributeValues query;
     FilterExpression := qe_FilterExpression query;
     ProjectionExpression := None;
     Select := None;
     ScanIndexForward := None;
     Limit := None;
     ExclusiveStartKey := None;
     IndexName := None;
     KeyConditionExpression := None |}.

(** [MagicSearch.getInput] *)
Definition getInput (self : MagicSearch) : Res Input :=
  match getInput_indexMetadata self with
  | Ok indexMetadata =>
      match buildQueryExpression (tableClass self) (filters self) indexMetadata with
      | Ok query =>
          let input' := initialRequest self query in
          match getInput_projection self input' with
          | Ok input' => Ok (getInput_options self indexMetadata query input')
          | Throw e => Throw e
          | OutOfFuel => OutOfFuel
          end
      | Throw e => Throw e
      | OutOfFuel => OutOfFuel
      end
  | Throw e => Throw e
  | OutOfFuel => OutOfFuel
  end.

(* ===================================================================== *)
(** ** Execution: [page], [exec], [minimum], [all] *)
(* ===================================================================== *)

(** A page of results ([QueryOutput<T>]). *)
Record QueryOutput : Type := {
  qo_items : list Document;
  qo_count : Z;
  qo_scannedCount : Z;
  qo_lastEvaluatedKey : option Key
}.

(** Modelled from the spec: [QueryOutput.fromDynamoOutput] (./output) is not
    among the verified sources.  A page result holds the items, the count,
    the scanned count and the optional continuation token of the response;
    each raw item is decoded, tolerating absent attributes when the request
    carried a projection. *)
Definition fromDynamoOutput (table : Schema) (output : DynamoOutput)
    (hasProjection : bool) : QueryOutput :=
  {| qo_items := map (fun item => fromDynamo table item hasProjection) (Items output);
     qo_count := Count output;
     qo_scannedCount := ScannedCount output;
     qo_lastEvaluatedKey := LastEvaluatedKey output |}.

(** The continuation token of the last page of a sequence. *)
Fixpoint lastKey (outputs : list QueryOutput) : option Key :=
  match outputs with
  | [] => None
  | [output] => qo_lastEvaluatedKey output
  | _ :: rest => lastKey rest
  end.

(** Modelled from the spec: [QueryOutput.fromSeveralOutputs] (./output) is
    not among the verified sources.  Items are concatenated in page order,
    counts and scanned counts are summed, and the continuation token is the
    one of the last page. *)
Definition fromSeveralOutputs (table : Schema) (outputs : list QueryOutput) : QueryOutput :=
  {| qo_items := List.concat (map qo_items outputs);
     qo_count := fold_right Z.add 0 (map qo_count outputs);
     qo_scannedCount := fold_right Z.add 0 (map qo_scannedCount outputs);
     qo_lastEvaluatedKey := lastKey outputs |}.

(** The world outside the program: the state of the store, and the calls
    made to the DynamoDB client so far, oldest first. *)
Record World : Type := {
  store : Store;
  log : list DynamoCall
}.

(** A computation that may call the client. *)
Definition M (A : Type) : Type := World -> Res A * World.

(** [await this.tableClass.schema.dynamo.query(input).promise()] and its
    scan counterpart: one call, recorded in the log. *)
Definition callDynamo (call : DynamoCall) (w : World)
  : (JsValue + DynamoOutput) * World :=
  let (response, store') := dynamo call (store w) in
  (response, {| store := store'; log := log w ++ [call] |}).

Definition scanDirectionMessage : string :=
  "Cannot use specify a sort direction, range order, or use ScanIndexForward on a scan operation. Try specifying the index being used.".

(** [MagicSearch.page].  The request object is mutated in the scan branch
    ([delete input.ScanIndexForward]) and is shared with the caller's loop,
    so it is returned next to the page. *)
Definition page (self : MagicSearch) (input' : Input) : M (QueryOutput * Input) :=
  fun w =>
    let hasProjection := negb (notNull (ProjectionExpression input')) in
    if notNull (KeyConditionExpression input') then
      match callDynamo (DynamoQuery input') w with
      | (inr output, w') =>
          (Ok (fromDynamoOutput (tableClass self) output (negb hasProjection), input'), w')
      | (inl ex, w') =>
          (Throw (HelpfulError ex (tableClass self) input'), w')
      end
    else
      match ScanIndexForward input' with
      | Some false => (Throw (PlainError scanDirectionMessage), w)
      | _ =>
          let input' := set_ScanIndexForward None input' in
          match callDynamo (DynamoScan input') w with
          | (inr output, w') =>
              (Ok (fromDynamoOutput (tableClass self) output (negb hasProjection), input'), w')
          | (inl ex, w') =>
              (Throw (HelpfulError ex (tableClass self) input'), w')
          end
      end.

(** [MagicSearch.exec]; [search] is its deprecated alias. *)
Definition exec (self : MagicSearch) : M QueryOutput :=
  fun w =>
    match getInput self with
    | Ok input' =>
        match page self input' w with
        | (Ok (output, _), w') => (Ok output, w')
        | (Throw e, w') => (Throw e, w')
        | (OutOfFuel, w') => (OutOfFuel, w')
        end
    | Throw e => (Throw e, w)
    | OutOfFuel => (OutOfFuel, w)
    end.

Definition search (self : MagicSearch) : M QueryOutput := exec self.

(** [page == null || page.lastEvaluatedKey != null] *)
Definition morePages (page' : option QueryOutput) : bool :=
  match page' with
  | None => true
  | Some p => notNull (qo_lastEvaluatedKey p)
  end.

(** [if (page?.lastEvaluatedKey != null) input.ExclusiveStartKey = page.lastEvaluatedKey] *)
Definition carryKey (page' : option QueryOutput) (input' : Input) : Input :=
  match page' with
  | Some p =>
      match qo_lastEvaluatedKey p with
      | Some key => set_ExclusiveStartKey (Some key) input'
      | None => input'
      end
  | None => input'
  end.

(** The [while] loop of [minimum]; [fuel] bounds the number of iterations. *)
Fixpoint minimum_loop (fuel : nat) (self : MagicSearch) (minimum : Z)
    (input' : Input) (outputs : list QueryOutput) (page' : option QueryOutput)
    (count' : Z) : M (list QueryOutput) :=
  fun w =>
    if morePages page' then
      match fuel with
      | O => (OutOfFuel, w)
      | S fuel' =>
          let input' := carryKey page' input' in
          match page self input' w with
          | (Ok (p, input'), w') =>
              let count' := count' + qo_count p in
              let outputs := outputs ++ [p] in
              if (count' >=? minimum) || negb (notNull (qo_lastEvaluatedKey p))
              then (Ok outputs, w')
              else minimum_loop fuel' self minimum input' outputs (Some p) count' w'
          | (Throw e, w') => (Throw e, w')
          | (OutOfFuel, w') => (OutOfFuel, w')
          end
      end
    else (Ok outputs, w).

(** [MagicSearch.minimum] *)
Definition minimum (fuel : nat) (self : MagicSearch) (minimum' : Z) : M QueryOutput :=
  fun w =>
    match getInput self with
    | Ok input' =>
        match minimum_loop fuel self minimum' input' [] None 0 w with
        | (Ok outputs, w') => (Ok (fromSeveralOutputs (tableClass self) outputs), w')
        | (Throw e, w') => (Throw e, w')
        | (OutOfFuel, w') => (OutOfFuel, w')
        end
    | Throw e => (Throw e, w)
    | OutOfFuel => (OutOfFuel, w)
    end.

(** The [while] loop of [all]. *)
Fixpoint all_loop (fuel : nat) (self : MagicSearch) (input' : Input)
    (outputs : list QueryOutput) (page' : option QueryOutput) : M (list QueryOutput) :=
  fun w =>
    if morePages page' then
      match fuel with
      | O => (OutOfFuel, w)
      | S fuel' =>
          let input' := carryKey page' input' in
          match page self input' w with
          | (Ok (p, input'), w') =>
              all_loop fuel' self input' (outputs ++ [p]) (Some p) w'
          | (Throw e, w') => (Throw e, w')
          | (OutOfFuel, w') => (OutOfFuel, w')
          end
      end
    else (Ok outputs, w).

(** [MagicSearch.all] *)
Definition all (fuel : nat) (self : MagicSearch) : M QueryOutput :=
  fun w =>
    match getInput self with
    | Ok input' =>
        match all_loop fuel self input' [] None w with
        | (Ok outputs, w') => (Ok (fromSeveralOutputs (tableClass self) outputs), w')
        | (Throw e, w') => (Throw e, w')
        | (OutOfFuel, w') => (OutOfFuel, w')
        end
    | Throw e => (Throw e, w)
    | OutOfFuel => (OutOfFuel, w)
    end.

(* ===================================================================== *)
(** ** Chains of builder calls *)
(* ===================================================================== *)

(** Modelled from the spec: the [Condition] class (./condition) returned by
    [filter] and [where] is not among the verified sources.  Completing a
    condition on an attribute path adds one group that holds the condition
    under the path joined with dots ([attributePropertyPath.join('.')] in
    search.ts); a bare value stands for equality. *)
Definition filter (attributePropertyPath : list string) (condition : Filter)
    (self : MagicSearch) : MagicSearch :=
  addFilterGroup [[(String.concat "." attributePropertyPath, condition)]] self.

Definition where_ (attributePropertyPath : list string) (condition : Filter)
    (self : MagicSearch) : MagicSearch :=
  filter attributePropertyPath condition self.

(** One call of a chain; the callback of [group] and [parenthesis] is itself
    a chain of calls on the child builder. *)
Inductive BuilderCall : Type :=
| CallAddFilterGroup (filters' : list Filters)
| CallFilter (attributePropertyPath : list string) (condition : Filter)
| CallWhere (attributePropertyPath : list string) (condition : Filter)
| CallGroup (callback : list BuilderCall)
| CallParenthesis (callback : list BuilderCall)
| CallOr
| CallAnd
| CallLimit (limit' : Z)
| CallStartAt (exclusiveStartKey' : option Key)
| CallProperties (propertyNames : list string)
| CallAttributes (attributeNames : list string)
| CallCount
| CallConsistent (consistent' : bool)
| CallUsing (index' : option Index)
| CallSort (direction : Direction)
| CallAscending
| CallDescending.

(** The effect of one call on the builder. *)
Fixpoint applyCall (call : BuilderCall) (self : MagicSearch) {struct call}
  : Res MagicSearch :=
  let callback :=
    fix callback (calls : list BuilderCall) (s : MagicSearch) {struct calls}
      : Res MagicSearch :=
      match calls with
      | [] => Ok s
      | c :: rest =>
          match applyCall c s with
          | Ok s' => callback rest s'
          | Throw e => Throw e
          | OutOfFuel => OutOfFuel
          end
      end in
  match call with
  | CallAddFilterGroup filters' => Ok (addFilterGroup filters' self)
  | CallFilter path condition => Ok (filter path condition self)
  | CallWhere path condition => Ok (where_ path condition self)
  | CallGroup calls => group (callback calls) self
  | CallParenthesis calls => parenthesis (callback calls) self
  | CallOr => Ok (or self)
  | CallAnd => Ok (and self)
  | CallLimit limit' => Ok (setLimit limit' self)
  | CallStartAt key => Ok (startAt key self)
  | CallProperties names => properties names self
  | CallAttributes names => Ok (setAttributes names self)
  | CallCount => Ok (count self)
  | CallConsistent c => Ok (setConsistent c self)
  | CallUsing index' => Ok (using_ index' self)
  | CallSort direction => Ok (sort direction self)
  | CallAscending => Ok (ascending self)
  | CallDescending => Ok (descending self)
  end.

(** A chain of calls, left to right; an exception ends it. *)
Fixpoint chain (calls : list BuilderCall) (self : MagicSearch) : Res MagicSearch :=
  match calls with
  | [] => Ok self
  | c :: rest =>
      match applyCall c self with
      | Ok self' => chain rest self'
      | Throw e => Throw e
      | OutOfFuel => OutOfFuel
      end
  end.

(** The request compiled from the builder a chain leaves. *)
Definition compiledRequest (calls : list BuilderCall) (self : MagicSearch) : Res Input :=
  match chain calls self with
  | Ok self' => getInput self'
  | Throw e => Throw e
  | OutOfFuel => OutOfFuel
  end.

(** [calls'] is [calls] with one [and()] inserted, at any position of the
    chain or of the chain of a callback, at any depth. *)
Inductive InsertAnd : list BuilderCall -> list BuilderCall -> Prop :=
| InsertAnd_here (calls : list BuilderCall) :
    InsertAnd calls (CallAnd :: calls)
| InsertAnd_later (c : BuilderCall) (calls calls' : list BuilderCall) :
    InsertAnd calls calls' ->
    InsertAnd (c :: calls) (c :: calls')
| InsertAnd_group (callback callback' rest : list BuilderCall) :
    InsertAnd callback callback' ->
    InsertAnd (CallGroup callback :: rest) (CallGroup callback' :: rest)
| InsertAnd_parenthesis (callback callback' rest : list BuilderCall) :
    InsertAnd callback callback' ->
    InsertAnd (CallParenthesis callback :: rest) (CallParenthesis callback' :: rest).

(* ===================================================================== *)
(** ** Vocabulary for the statements about paging *)
(* ===================================================================== *)

(** [page] raises the scan-direction error on this request. *)
Definition rejectedOnScan (input' : Input) : bool :=
  negb (notNull (KeyConditionExpression input')) &&
  match ScanIndexForward input' with
  | Some false => true
  | _ => false
  end.

(** The request object as [page] leaves it. *)
Definition sentRequest (input' : Input) : Input :=
  if notNull (KeyConditionExpression input') then input'
  else set_ScanIndexForward None input'.

(** The call [page] makes for a request it does not reject. *)
Definition clientCall (input' : Input) : DynamoCall :=
  if notNull (KeyConditionExpression input') then DynamoQuery input'
  else DynamoScan (sentRequest input').

(** The request of a call. *)
Definition requestOf (call : DynamoCall) : Input :=
  match call with
  | DynamoQuery request => request
  | DynamoScan request => request
  end.

(** The request of the iteration that follows a page. *)
Definition nextRequest (input' : Input) (output : DynamoOutput) : Input :=
  match LastEvaluatedKey output with
  | Some key => set_ExclusiveStartKey (Some key) (sentRequest input')
  | None => sentRequest input'
  end.

(** The store, asked [input'] and then each time the request that follows
    the page it has just returned, resolves to [pages], in this order. *)
Inductive Serves : Store -> Input -> list DynamoOutput -> Store -> Prop :=
| Serves_nil (st : Store) (input' : Input) :
    Serves st input' [] st
| Serves_cons (st st' st'' : Store) (input' : Input) (output : DynamoOutput)
    (rest : list DynamoOutput) :
    dynamo (clientCall input') st = (inr output, st') ->
    Serves st' (nextRequest input' output) rest st'' ->
    Serves st input' (output :: rest) st''.

(** The calls that fetch [pages], starting from [input']. *)
Fixpoint callsFor (input' : Input) (pages : list DynamoOutput) : list DynamoCall :=
  match pages with
  | [] => []
  | output :: rest => clientCall input' :: callsFor (nextRequest input' output) rest
  end.

(** Every call after the first starts at the continuation token of the page
    before it. *)
Fixpoint tokensCarried (pages : list DynamoOutput) (calls : list DynamoCall) : Prop :=
  match pages, calls with
  | output :: ((_ :: _) as pages'), _ :: ((call :: _) as calls') =>
      LastEvaluatedKey output <> None /\
      ExclusiveStartKey (requestOf call) = LastEvaluatedKey output /\
      tokensCarried pages' calls'
  | [_], [_] => True
  | [], [] => True
  | _, _ => False
  end.

(** The pages as [page] hands them to the loops. *)
Definition decoded (table : Schema) (input' : Input) (pages : list DynamoOutput)
  : list QueryOutput :=
  map (fun output => fromDynamoOutput table output (notNull (ProjectionExpression input')))
      pages.

(** The stopping rule of [minimum], in the words of the specification:
    starting from an accumulated count, the pages but the last each leave the
    count below the minimum and carry a continuation token, and the last one
    brings the count to the minimum or carries no token. *)
Inductive StopsAfter (minimum' : Z) : Z -> list DynamoOutput -> Prop :=
| StopsAfter_last (count' : Z) (output : DynamoOutput) :
    count' + Count output >= minimum' \/ LastEvaluatedKey output = None ->
    StopsAfter minimum' count' [output]
| StopsAfter_more (count' : Z) (output : DynamoOutput) (rest : list DynamoOutput) :
    count' + Count output < minimum' ->
    LastEvaluatedKey output <> None ->
    StopsAfter minimum' (count' + Count output) rest ->
    StopsAfter minimum' count' (output :: rest).

(** The stopping rule of [all]: every page but the last carries a
    continuation token, and the last one carries none. *)
Inductive Exhausts : list DynamoOutput -> Prop :=
| Exhausts_last (output : DynamoOutput) :
    LastEvaluatedKey output = None ->
    Exhausts [output]
| Exhausts_more (output : DynamoOutput) (rest : list DynamoOutput) :
    LastEvaluatedKey output <> None ->
    Exhausts rest ->
    Exhausts (output :: rest).

(** The store serves [pages], each with a continuation token, and rejects
    the request that follows them with [ex]. *)
Inductive ServesThenFails (ex : JsValue)
  : Store -> Input -> list DynamoOutput -> Store -> Prop :=
| Fails_now (st st' : Store) (input' : Input) :
    dynamo (clientCall input') st = (inl ex, st') ->
    ServesThenFails ex st input' [] st'
| Fails_later (st st' st'' : Store) (input' : Input) (output : DynamoOutput)
    (rest : list DynamoOutput) :
    dynamo (clientCall input') st = (inr output, st') ->
    LastEvaluatedKey output <> None ->
    ServesThenFails ex st' (nextRequest input' output) rest st'' ->
    ServesThenFails ex st input' (output :: rest) st''.

(** The request on which the store fails, after [pages]. *)
Fixpoint failingRequest (input' : Input) (pages : list DynamoOutput) : Input :=
  match pages with
  | [] => input'
  | output :: rest => failingRequest (nextRequest input' output) rest
  end.

(** The accumulated count stays below the minimum on every page. *)
Fixpoint staysBelow (minimum' : Z) (count' : Z) (pages : list DynamoOutput) : Prop :=
  match pages with
  | [] => True
  | output :: rest =>
      count' + Count output < minimum' /\
      staysBelow minimum' (count' + Count output) rest
  end.

(* ===================================================================== *)
(** ** Vocabulary for the statements about index selection *)
(* ===================================================================== *)

(** An element of the filter list passes the test [checkFilters] makes for
    an attribute: [has] finds the name of the attribute in it, and what [get]
    reads there is not an array that starts with an operator outside the
    allowed ones. *)
Definition entryEligible (entry : FilterEntry) (attribute : Attribute) : bool :=
  has entry (name attribute) &&
  negb (operatorRejected (get entry (name attribute))).

(** A group holds a condition on the attribute that may serve in a key
    condition: the attribute is found in the group and its filter is a bare
    value or an array that starts with an allowed operator. *)
Definition keyEligible (group : Filters) (attribute : Attribute) : bool :=
  entryEligible (EFilters group) attribute.

(** A group qualifies an index with the given hash and optional range. *)
Definition groupQualifies (hash : Attribute) (range : option Attribute)
    (group : Filters) : bool :=
  keyEligible group hash &&
  match range with
  | None => true
  | Some range' => keyEligible group range'
  end.

(** An element of the filter list lets [checkFilters] return for an index
    with the given hash and optional range. *)
Definition entryQualifies (hash : Attribute) (range : option Attribute)
    (entry : FilterEntry) : bool :=
  entryEligible entry hash &&
  match range with
  | None => true
  | Some range' => entryEligible entry range'
  end.

(** The first character is a digit, as in every index key of an array or a
    string. *)
Definition startsWithDigit (s : string) : bool :=
  match s with
  | EmptyString => false
  | String c _ => isDigit c
  end.

(** An attribute name that lodash reads as one key and that is no own
    property of a string or an array: not [length], not an index. *)
Definition ordinaryName (attributeName : string) : bool :=
  (reIsPlainProp attributeName || negb (reIsDeepProp attributeName)) &&
  negb (String.eqb attributeName "length") &&
  negb (startsWithDigit attributeName).

Definition ordinaryAttribute (attribute : Attribute) : bool :=
  ordinaryName (name attribute).

Definition ordinaryRange (range : option Attribute) : bool :=
  match range with
  | Some range' => ordinaryAttribute range'
  | None => true
  end.

(** Every key attribute of the catalog has an ordinary name. *)
Definition ordinaryKeys (table : Schema) : bool :=
  ordinaryAttribute (pk_hash (primaryKey table)) &&
  ordinaryRange (pk_range (primaryKey table)) &&
  forallb (fun index' => ordinaryAttribute (gsi_hash index') &&
                         ordinaryRange (gsi_range index'))
          (globalSecondaryIndexes table) &&
  forallb (fun index' => ordinaryAttribute (lsi_range index'))
          (localSecondaryIndexes table).

(** A candidate of the second round: a global secondary index that is not
    skipped and passes the check with its own hash and range. *)
Definition globalMatches (self : MagicSearch) (index' : GlobalSecondaryIndexMetadata)
  : bool :=
  negb (isIncludeOrKeysOnly (gsi_projection index')) &&
  checkFilters self (gsi_hash index') (gsi_range index').

(** A candidate of the third round: a local secondary index that is not
    skipped and passes the check with the hash of the table and its own
    range. *)
Definition localMatches (self : MagicSearch) (index' : LocalSecondaryIndexMetadata)
  : bool :=
  negb (isIncludeOrKeysOnly (lsi_projection index')) &&
  checkFilters self (pk_hash (primaryKey (tableClass self))) (Some (lsi_range index')).


End Program.

(* ===================================================================== *)
(** ** A concrete table, store and set of collaborators *)
(* ===================================================================== *)

(** A stand-in for lodash's [reIsDeepProp], exact on strings without
    brackets: such a string holds path syntax when it holds a dot. *)
Fixpoint sampleIsDeepProp (s : string) : bool :=
  match s with
  | EmptyString => false
  | String c rest => Ascii.eqb c (Ascii.ascii_of_nat 46) || sampleIsDeepProp rest
  end.

(** The pieces of a string between its dots, the piece being read in
    [piece]. *)
Fixpoint splitAtDots (piece : string) (s : string) : list string :=
  match s with
  | EmptyString => [piece]
  | String c rest =>
      if Ascii.eqb c (Ascii.ascii_of_nat 46) then piece :: splitAtDots EmptyString rest
      else splitAtDots (String.append piece (String c EmptyString)) rest
  end.

(** A stand-in for lodash's [stringToPath], exact on strings without
    brackets: the keys are the pieces between the dots. *)
Definition sampleStringToPath (s : string) : list string :=
  splitAtDots EmptyString s.

(** Modelled from the spec: [keyConditionAllowedOperators] (./expression) is
    not among the verified sources.  The key-condition-eligible operators are
    equality, the ordering comparisons, prefix match and range between. *)
Definition specAllowedOperators : list string :=
  ["="; "<"; "<="; ">"; ">="; "beginsWith"; "between"].

(** Modelled from the spec: [buildQueryExpression] (./expression) is not
    among the verified sources.  Only the presence of its outputs is
    modelled: without a selected index the key condition is absent and the
    filters compile to a filter expression; with an index a key condition is
    produced. *)
Definition specBuildQueryExpression (schema : Schema) (filters' : ComplexFilters)
    (indexMetadata : option IndexMetadata) : Res QueryExpression :=
  Ok {| qe_ExpressionAttributeNames := Some [("#a0", "a0")];
        qe_ExpressionAttributeValues := Some [(":v0", JStr "v0")];
        qe_FilterExpression :=
          match indexMetadata with
          | Some _ => None
          | None => Some "(#a0 = :v0)"
          end;
        qe_KeyConditionExpression :=
          match indexMetadata with
          | Some _ => Some "#a0 = :v0"
          | None => None
          end |}.

(** Modelled from the spec: [buildProjectionExpression]
    (./projection-expression) is not among the verified sources.  The
    projection lists the requested attributes and keeps the name
    placeholders it was given. *)
Definition specBuildProjectionExpression (schema : Schema) (attributes' : list string)
    (names : option AttributeNameMap) : Res ProjectionResult :=
  Ok {| pe_ProjectionExpression := Some (String.concat "," attributes');
        pe_ExpressionAttributeNames := names |}.

(** The items [first .. first + n - 1] of the sample table. *)
Fixpoint sampleItems (n : nat) (first : Z) : list AttributeMap :=
  match n with
  | O => []
  | S n' => [("id", JNum first)] :: sampleItems n' (first + 1)
  end.

(** The position a request starts at; [None] when its start key is not one
    the sample table hands out. *)
Definition startPosition (request : Input) : option Z :=
  match ExclusiveStartKey request with
  | None => Some 0
  | Some [(_, JNum position)] => Some position
  | Some _ => None
  end.

(** The page of 10 items of the sample table that starts at a position; the
    table holds 30 items. *)
Definition samplePage (position : Z) : DynamoOutput :=
  {| Items := sampleItems 10 position;
     Count := 10;
     ScannedCount := 10;
     LastEvaluatedKey :=
       if position + 10 <? 30 then Some [("id", JNum (position + 10))]
       else None |}.

(** A table of 30 items read 10 at a time.  The state of the store is the
    position from which on the client rejects requests, if any. *)
Definition sampleDynamo (call : DynamoCall) (failFrom : option Z)
  : (JsValue + DynamoOutput) * option Z :=
  let request :=
    match call with
    | DynamoQuery r => r
    | DynamoScan r => r
    end in
  match startPosition request with
  | None => (inl (JStr "ValidationException"), failFrom)
  | Some position =>
      if match failFrom with
         | Some f => f <=? position
         | None => false
         end
      then (inl (JStr "ProvisionedThroughputExceededException"), failFrom)
      else (inr (samplePage position), failFrom)
  end.

#[export] Instance sampleCollaborators : Collaborators := {|
  reIsDeepProp := sampleIsDeepProp;
  stringToPath := sampleStringToPath;
  keyConditionAllowedOperators := specAllowedOperators;
  buildQueryExpression := specBuildQueryExpression;
  buildProjectionExpression := specBuildProjectionExpression;
  getAttributeByPropertyName := fun _ propertyName => Ok {| name := propertyName |};
  Document := AttributeMap;
  fromDynamo := fun _ item _ => item;
  Store := option Z;
  dynamo := sampleDynamo
|}.

Definition byStatus : GlobalSecondaryIndexMetadata :=
  {| gsi_name := "byStatus"; gsi_hash := {| name := "status" |};
     gsi_range := None; gsi_projection := Some KEYS_ONLY |}.

Definition byEmail : GlobalSecondaryIndexMetadata :=
  {| gsi_name := "byEmail"; gsi_hash := {| name := "email" |};
     gsi_range := None; gsi_projection := Some ALL |}.

Definition byCreated : LocalSecondaryIndexMetadata :=
  {| lsi_name := "byCreated"; lsi_range := {| name := "createdAt" |};
     lsi_projection := Some ALL |}.

Definition byKind : LocalSecondaryIndexMetadata :=
  {| lsi_name := "byKind"; lsi_range := {| name := "kind" |};
     lsi_projection := Some ALL |}.

(** A table with hash [userId] and no range, a global secondary index
    [byEmail] on [email], a keys-only one [byStatus] on [status], and a local
    secondary index [byCreated] on [createdAt]. *)
Definition sampleSchema : Schema :=
  {| schema_name := "users";
     primaryKey := {| pk_hash := {| name := "userId" |}; pk_range := None |};
     globalSecondaryIndexes := [byStatus; byEmail];
     localSecondaryIndexes := [byCreated] |}.

(** A table with hash [tenant] and range [day], and a local secondary index
    [byKind] on [kind]. *)
Definition rangedSchema : Schema :=
  {| schema_name := "events";
     primaryKey := {| pk_hash := {| name := "tenant" |};
                      pk_range := Some {| name := "day" |} |};
     globalSecondaryIndexes := [];
     localSecondaryIndexes := [byKind] |}.

(** A global secondary index whose hash attribute is named [length]. *)
Definition byLength : GlobalSecondaryIndexMetadata :=
  {| gsi_name := "byLength"; gsi_hash := {| name := "length" |};
     gsi_range := None; gsi_projection := Some ALL |}.

(** A table with hash [postId] and no range, and the global secondary index
    [byLength] on [length]. *)
Definition postsSchema : Schema :=
  {| schema_name := "posts";
     primaryKey := {| pk_hash := {| name := "postId" |}; pk_range := None |};
     globalSecondaryIndexes := [byLength];
     localSecondaryIndexes := [] |}.

Definition sampleWorld : World := {| store := None; log := [] |}.

(** [new MagicSearch(users, { userId: 'u1' })] and its likes. *)
Definition userIdSearch : MagicSearch :=
  newMagicSearch sampleSchema (Some [("userId", JStr "u1")]) emptyInput.

Definition emailSearch : MagicSearch :=
  newMagicSearch sampleSchema (Some [("email", JStr "a@b.com")]) emptyInput.

Definition statusSearch : MagicSearch :=
  newMagicSearch sampleSchema (Some [("status", JStr "active")]) emptyInput.

(** [new MagicSearch(events, { tenant: 't', kind: 'k' })] *)
Definition kindSearch : MagicSearch :=
  newMagicSearch rangedSchema (Some [("tenant", JStr "t"); ("kind", JStr "k")]) emptyInput.



(** [new MagicSearch(posts)] *)
Definition postsSearch : MagicSearch := newMagicSearch postsSchema None emptyInput.

(** The filter tree of [postsSearch.group(g => g.filter('title').eq('x'))]:
    one nested sub-group and no top-level group. *)
Definition groupedTitleFilters : ComplexFilters :=
  [ENested [EFilters [("title", JArr [JStr "="; JStr "x"])]]].

(** The request [userIdSearch] compiles to, with the sample compiler. *)
Definition userIdRequest : Input :=
  {| TableName := "users";
     ConsistentRead := Some false;
     ExpressionAttributeNames := Some [("#a0", "a0")];
     ExpressionAttributeValues := Some [(":v0", JStr "v0")];
     FilterExpression := None;
     ProjectionExpression := None;
     Select := None;
     ScanIndexForward := None;
     Limit := None;
     ExclusiveStartKey := None;
     IndexName := None;
     KeyConditionExpression := Some "#a0 = :v0" |}.

(** The request [statusSearch] compiles to, with the sample compiler. *)
Definition statusRequest : Input :=
  {| TableName := "users";
     ConsistentRead := Some false;
     ExpressionAttributeNames := Some [("#a0", "a0")];
     ExpressionAttributeValues := Some [(":v0", JStr "v0")];
     FilterExpression := Some "(#a0 = :v0)";
     ProjectionExpression := None;
     Select := None;
     ScanIndexForward := None;
     Limit := None;
     ExclusiveStartKey := None;
     IndexName := None;
     KeyConditionExpression := None |}.

(* ===================================================================== *)
(** ** More vocabulary for the statements about search.ts *)
(* ===================================================================== *)

(** The calls that build the filter tree. *)
Definition buildsFilters (call : BuilderCall) : bool :=
  match call with
  | CallAddFilterGroup _ | CallFilter _ _ | CallWhere _ _ | CallGroup _
  | CallParenthesis _ | CallOr | CallAnd => true
  | _ => false
  end.

(** The hash attribute an index descriptor is queried by; a bare local
    secondary index has none of its own. *)
Definition hashOf (metadata : IndexMetadata) : option Attribute :=
  match metadata with
  | IxPrimaryKey pk => Some (pk_hash pk)
  | IxGlobal index' => Some (gsi_hash index')
  | IxLocal _ => None
  end.

(** The range attribute of an index descriptor. *)
Definition rangeOf (metadata : IndexMetadata) : option Attribute :=
  match metadata with
  | IxPrimaryKey pk => pk_range pk
  | IxGlobal index' => gsi_range index'
  | IxLocal index' => Some (lsi_range index')
  end.

Section MoreVocabulary.

Context {collaborators : Collaborators}.



End MoreVocabulary.

(* ===================================================================== *)
(** ** Detection of DynamoDB values (src/utils/is.ts) *)
(* ===================================================================== *)

(** The outcome of an expression of is.ts: a value, or the TypeError that
    JavaScript raises when a property of [null] or [undefined] is read. *)
Inductive JsResult (A : Type) : Type :=
| Returned (value : A)
| TypeError.
Arguments Returned {A} value.
Arguments TypeError {A}.

(** [typeof v] *)
Definition typeof (v : JsValue) : string :=
  match v with
  | JUndefined => "undefined"
  | JNull => "object"
  | JBool _ => "boolean"
  | JNum _ => "number"
  | JStr _ => "string"
  | JArr _ => "object"
  | JObj _ => "object"
  end.

(** [Object.keys(v)]: the own enumerable keys, in the order in which the
    fields of an object are listed here; the indices for an array; a
    TypeError for [null] and [undefined]; nothing for the other primitives
    that is.ts can pass (is.ts passes only values whose [typeof] is
    ['object']). *)
Definition objectKeys (v : JsValue) : JsResult (list string) :=
  match v with
  | JUndefined => TypeError
  | JNull => TypeError
  | JObj fields => Returned (map fst fields)
  | JArr elements => Returned (map fst (arrayEntries 0 elements))
  | _ => Returned []
  end.

(** [v[key]] and [v.key]: an own property of an object, an element or the
    length of an array, a TypeError on [null] and [undefined]; [undefined]
    when there is no such property. *)
Definition member (v : JsValue) (key : string) : JsResult JsValue :=
  match v with
  | JUndefined => TypeError
  | JNull => TypeError
  | JObj fields =>
      Returned (match getOwn fields key with
                | Some x => x
                | None => JUndefined
                end)
  | JArr elements =>
      if String.eqb key "length" then Returned (JNum (Z.of_nat (List.length elements)))
      else Returned (match getOwn (arrayEntries 0 elements) key with
                     | Some x => x
                     | None => JUndefined
                     end)
  | _ => Returned JUndefined
  end.

(** [a || b] on expressions that may throw: [b] is evaluated only when [a]
    returned false. *)
Definition orElse (a b : JsResult bool) : JsResult bool :=
  match a with
  | Returned true => Returned true
  | Returned false => b
  | TypeError => TypeError
  end.

(** [typeof obj.key === type] *)
Definition typeofMemberIs (obj : JsValue) (key type : string) : JsResult bool :=
  match member obj key with
  | Returned x => Returned (String.eqb (typeof x) type)
  | TypeError => TypeError
  end.

(** [typeof obj.key !== 'undefined'] *)
Definition memberIsDefined (obj : JsValue) (key : string) : JsResult bool :=
  match member obj key with
  | Returned x => Returned (negb (String.eqb (typeof x) "undefined"))
  | TypeError => TypeError
  end.

(** [isArray(obj.key)] *)
Definition memberIsArray (obj : JsValue) (key : string) : JsResult bool :=
  match member obj key with
  | Returned x => Returned (isArray x)
  | TypeError => TypeError
  end.

(** [isDynamoAttributeValue] *)
Definition isDynamoAttributeValue (obj : JsValue) : JsResult bool :=
  if String.eqb (typeof obj) "object" then
    orElse (typeofMemberIs obj "S" "string")
   (orElse (typeofMemberIs obj "N" "string")
   (orElse (typeofMemberIs obj "BOOL" "boolean")
   (orElse (memberIsArray obj "SS")
   (orElse (memberIsArray obj "NS")
   (orElse (memberIsArray obj "BS")
   (orElse (memberIsArray obj "L")
   (orElse (memberIsDefined obj "B")
   (orElse (memberIsDefined obj "M")
           (typeofMemberIs obj "NULL" "boolean")))))))))
  else Returned false.

(** [isDynamoAttributeMap] *)
Definition isDynamoAttributeMap (obj : JsValue) : JsResult bool :=
  if String.eqb (typeof obj) "object" then
    match objectKeys obj with
    | TypeError => TypeError
    | Returned keys =>
        match keys with
        | key0 :: _ =>
            match member obj key0 with
            | TypeError => TypeError
            | Returned first =>
                if String.eqb (typeof first) "object"
                then isDynamoAttributeValue first
                else Returned false
            end
        | [] => Returned false
        end
    end
  else Returned false.

(** The ten keys under which [isDynamoAttributeValue] looks for a type. *)
Definition typeKeys : list string :=
  ["S"; "N"; "BOOL"; "SS"; "NS"; "BS"; "L"; "B"; "M"; "NULL"].

(* ===================================================================== *)
(** ** A store that never runs out of pages *)
(* ===================================================================== *)

(** Every call resolves to an empty page with a continuation token; the
    state of the store counts the calls. *)
Definition endlessDynamo (call : DynamoCall) (calls : Z)
  : (JsValue + DynamoOutput) * Z :=
  (inr {| Items := []; Count := 0; ScannedCount := 0;
          LastEvaluatedKey := Some [("id", JNum calls)] |},
   calls + 1).

Definition endlessCollaborators : Collaborators := {|
  reIsDeepProp := sampleIsDeepProp;
  stringToPath := sampleStringToPath;
  keyConditionAllowedOperators := specAllowedOperators;
  buildQueryExpression := specBuildQueryExpression;
  buildProjectionExpression := specBuildProjectionExpression;
  getAttributeByPropertyName := fun _ propertyName => Ok {| name := propertyName |};
  Document := AttributeMap;
  fromDynamo := fun _ item _ => item;
  Store := Z;
  dynamo := endlessDynamo
|}.

(* ===================================================================== *)
(** * Properties *)
(* ===================================================================== *)

Section Properties.

Context {collaborators : Collaborators}.

Lemma checkFilters_body_decides (hash : Attribute) (range : option Attribute)
    (entry : FilterEntry) :
  checkFilters_body hash range entry =
  if entryQualifies hash range entry then Return true else Continue.
Proof.
  unfold checkFilters_body, entryQualifies, entryEligible.
  destruct (has entry (name hash)); simpl; [ | reflexivity ].
  destruct (operatorRejected (get entry (name hash))); simpl; [ reflexivity | ].
  destruct range as [range | ]; [ | reflexivity ].
  destruct (has entry (name range)); simpl; [ | reflexivity ].
  destruct (operatorRejected _); reflexivity.
Qed.

Lemma for_of_existsb {A : Type} (test : A -> bool) (l : list A) :
  for_of (fun x => if test x then Return true else Continue) l false = existsb test l.
Proof.
  induction l as [ | x rest IH ]; simpl; [ reflexivity | ].
  destruct (test x); simpl; [ reflexivity | exact IH ].
Qed.

Lemma for_of_ext {A B : Type} (f g : A -> LoopStep B) (l : list A) (after : B) :
  (forall x, f x = g x) -> for_of f l after = for_of g l after.
Proof.
  intros Hfg. induction l as [ | x rest IH ]; simpl; [ reflexivity | ].
  rewrite Hfg, IH. reflexivity.
Qed.

Lemma checkFilters_existsb (self : MagicSearch) (hash : Attribute)
    (range : option Attribute) :
  checkFilters self hash range = existsb (entryQualifies hash range) (filters self).
Proof.
  unfold checkFilters.
  rewrite (for_of_ext _ _ _ _ (checkFilters_body_decides hash range)).
  apply for_of_existsb.
Qed.

Lemma getOwn_hasOwn {A : Type} (o : JsObject A) (key : string) :
  hasOwn o key = notNull (getOwn o key).
Proof.
  induction o as [ | [k v] rest IH ]; simpl; [ reflexivity | ].
  destruct (String.eqb k key); [ reflexivity | exact IH ].
Qed.

Lemma checkFilters_true_entry (self : MagicSearch) (hash : Attribute)
    (range : option Attribute) :
  checkFilters self hash range = true <->
  exists entry, In entry (filters self) /\ entryQualifies hash range entry = true.
Proof. rewrite checkFilters_existsb. apply existsb_exists. Qed.

Lemma indexKey_starts_with_digit (i : nat) (key : string) :
  startsWithDigit key = false -> String.eqb (indexKey i) key = false.
Proof.
  intros Hkey. destruct (String.eqb (indexKey i) key) eqn:Heq; [ | reflexivity ].
  apply String.eqb_eq in Heq. subst key. unfold indexKey in Hkey.
  destruct (Nat.to_uint i); discriminate Hkey.
Qed.

Lemma getOwn_arrayEntries_ordinary (elements : list JsValue) (key : string) :
  startsWithDigit key = false -> forall i, getOwn (arrayEntries i elements) key = None.
Proof.
  intros Hkey. induction elements as [ | x rest IH ]; intros i; simpl.
  - reflexivity.
  - rewrite (@indexKey_starts_with_digit i key Hkey). apply IH.
Qed.

Lemma getOwn_stringEntries_ordinary (s : string) (key : string) :
  startsWithDigit key = false -> forall i, getOwn (stringEntries i s) key = None.
Proof.
  intros Hkey. induction s as [ | c rest IH ]; intros i; simpl.
  - reflexivity.
  - rewrite (@indexKey_starts_with_digit i key Hkey). apply IH.
Qed.

(** For an ordinary name [has] is the own-key test on a filters object and
    fails on a nested array and on the ['OR'] string. *)
Lemma has_ordinary (attributeName : string) (entry : FilterEntry) :
  ordinaryName attributeName = true ->
  has entry attributeName =
  match entry with
  | EFilters group => hasOwn group attributeName
  | ENested _ => false
  | EOr => false
  end.
Proof.
  unfold ordinaryName. intros Hname.
  apply andb_true_iff in Hname. destruct Hname as [Hname Hdigit].
  apply andb_true_iff in Hname. destruct Hname as [Hkey Hlength].
  apply negb_true_iff in Hdigit. apply negb_true_iff in Hlength.
  unfold has, castPath, isKey. rewrite Hkey.
  destruct entry as [group | sub | ]; cbn [orb hasPath entryValue ownProperty].
  - symmetry. apply getOwn_hasOwn.
  - rewrite Hlength, getOwn_arrayEntries_ordinary by exact Hdigit. reflexivity.
  - rewrite Hlength, getOwn_stringEntries_ordinary by exact Hdigit. reflexivity.
Qed.

Lemma entryQualifies_ordinary (hash : Attribute) (range : option Attribute)
    (entry : FilterEntry) :
  ordinaryAttribute hash = true ->
  entryQualifies hash range entry = true ->
  exists group, entry = EFilters group /\ groupQualifies hash range group = true.
Proof.
  intros Hhash Hq. destruct entry as [group | sub | ].
  - exists group. split; [ reflexivity | exact Hq ].
  - unfold entryQualifies, entryEligible in Hq.
    rewrite (@has_ordinary (name hash) (ENested sub) Hhash) in Hq. discriminate.
  - unfold entryQualifies, entryEligible in Hq.
    rewrite (@has_ordinary (name hash) EOr Hhash) in Hq. discriminate.
Qed.

Lemma checkFilters_true_iff (self : MagicSearch) (hash : Attribute)
    (range : option Attribute) :
  ordinaryAttribute hash = true ->
  (checkFilters self hash range = true <->
   exists group, In (EFilters group) (filters self) /\
                 groupQualifies hash range group = true).
Proof.
  intros Hhash. rewrite checkFilters_true_entry. split.
  - intros [entry [Hin Hq]].
    destruct (@entryQualifies_ordinary hash range entry Hhash Hq) as [group [-> Hgroup]].
    exists group. split; assumption.
  - intros [group [Hin Hq]]. exists (EFilters group). split; assumption.
Qed.


Lemma for_of_all_continue {A B : Type} (body : A -> LoopStep B) (l : list A) (after : B) :
  (forall x, In x l -> body x = Continue) -> for_of body l after = after.
Proof.
  induction l as [ | x rest IH ]; simpl; intros Hall; [ reflexivity | ].
  rewrite (Hall x (or_introl eq_refl)). apply IH.
  intros y Hy. apply Hall. right. exact Hy.
Qed.

Lemma for_of_first_return {A B : Type} (body : A -> LoopStep B)
    (before : list A) (x : A) (rest : list A) (after b : B) :
  (forall y, In y before -> body y = Continue) ->
  body x = Return b ->
  for_of body (before ++ x :: rest) after = b.
Proof.
  induction before as [ | y before IH ]; simpl; intros Hall Hx.
  - rewrite Hx. reflexivity.
  - rewrite (Hall y (or_introl eq_refl)). apply IH; [ | exact Hx ].
    intros z Hz. apply Hall. right. exact Hz.
Qed.

Lemma groupQualifies_true (hash : Attribute) (range : option Attribute)
    (group : Filters) :
  groupQualifies hash range group = true <->
  keyEligible group hash = true /\
  (forall range', range = Some range' -> keyEligible group range' = true).
Proof.
  unfold groupQualifies. rewrite andb_true_iff. split.
  - intros [Hh Hr]. split; [ exact Hh | ].
    intros range' ->. exact Hr.
  - intros [Hh Hr]. split; [ exact Hh | ].
    destruct range as [range' | ]; [ apply Hr | ]; reflexivity.
Qed.


Lemma findAvailableIndex_checks (self self' : MagicSearch) :
  tableClass self' = tableClass self ->
  (forall hash range, checkFilters self' hash range = checkFilters self hash range) ->
  findAvailableIndex self' = findAvailableIndex self.
Proof.
  intros Htable Hcheck. unfold findAvailableIndex.
  rewrite Htable, Hcheck.
  destruct (checkFilters self _ _); [ reflexivity | ].
  etransitivity.
  - apply for_of_ext. intros index'. rewrite Hcheck. reflexivity.
  - simpl. f_equal. apply for_of_ext. intros index'. rewrite Hcheck. reflexivity.
Qed.


Lemma ordinaryKeys_primary (table : Schema) :
  ordinaryKeys table = true ->
  ordinaryAttribute (pk_hash (primaryKey table)) = true.
Proof.
  unfold ordinaryKeys. intros H.
  apply andb_prop in H. destruct H as [H _].
  apply andb_prop in H. destruct H as [H _].
  apply andb_prop in H. destruct H as [H _]. exact H.
Qed.

Lemma ordinaryKeys_global (table : Schema) (index' : GlobalSecondaryIndexMetadata) :
  ordinaryKeys table = true ->
  In index' (globalSecondaryIndexes table) ->
  ordinaryAttribute (gsi_hash index') = true.
Proof.
  unfold ordinaryKeys. intros H Hin.
  apply andb_prop in H. destruct H as [H _].
  apply andb_prop in H. destruct H as [_ H].
  rewrite forallb_forall in H. specialize (H index' Hin).
  apply andb_prop in H. destruct H as [H _]. exact H.
Qed.


(** *** The request compiled by [getInput] *)

Lemma getInput_inversion (self : MagicSearch) (request : Input) :
  getInput self = Ok request ->
  exists indexMetadata query request',
    getInput_indexMetadata self = Ok indexMetadata /\
    buildQueryExpression (tableClass self) (filters self) indexMetadata = Ok query /\
    getInput_projection self (initialRequest self query) = Ok request' /\
    request = getInput_options self indexMetadata query request'.
Proof.
  unfold getInput. intros H.
  destruct (getInput_indexMetadata self) as [indexMetadata | e | ]; try discriminate.
  destruct (buildQueryExpression _ _ _) as [query | e | ] eqn:Hq; try discriminate.
  destruct (getInput_projection _ _) as [request' | e | ] eqn:Hp; try discriminate.
  injection H as <-. exists indexMetadata, query, request'.
  split; [ reflexivity | ]. split; [ exact Hq | ]. split; [ exact Hp | reflexivity ].
Qed.

Lemma getInput_projection_keeps (self : MagicSearch) (request request' : Input) :
  getInput_projection self request = Ok request' ->
  KeyConditionExpression request' = KeyConditionExpression request /\
  IndexName request' = IndexName request /\
  ScanIndexForward request' = ScanIndexForward request.
Proof.
  unfold getInput_projection. intros H.
  destruct (projectionExpression (input self)).
  - injection H as <-. repeat split.
  - destruct (attributes (input self)).
    + destruct (buildProjectionExpression _ _ _); try discriminate.
      injection H as <-. repeat split.
    + injection H as <-. repeat split.
Qed.

Ltac destruct_options self :=
  unfold getInput_options;
  destruct (rangeOrder (input self)) as [ [ | ] | ];
  destruct (limit (input self));
  destruct (exclusiveStartKey (input self));
  destruct (consistent (input self)).

Lemma getInput_options_KeyConditionExpression (self : MagicSearch)
    (indexMetadata : option IndexMetadata) (query : QueryExpression) (request : Input) :
  KeyConditionExpression (getInput_options self indexMetadata query request) =
  match qe_KeyConditionExpression query with
  | Some expression => Some expression
  | None => KeyConditionExpression request
  end.
Proof.
  destruct_options self;
    destruct indexMetadata as [ metadata | ];
    try destruct (indexNameOf metadata);
    destruct (returnOnlyCount (input self)) as [ [ | ] | ];
    destruct (qe_KeyConditionExpression query);
    simpl; try reflexivity;
    destruct (ProjectionExpression request); reflexivity.
Qed.

Lemma getInput_options_IndexName (self : MagicSearch)
    (indexMetadata : option IndexMetadata) (query : QueryExpression) (request : Input) :
  IndexName (getInput_options self indexMetadata query request) =
  match indexMetadata with
  | Some metadata =>
      match indexNameOf metadata with
      | Some n => Some n
      | None => IndexName request
      end
  | None => IndexName request
  end.
Proof.
  destruct_options self;
    destruct indexMetadata as [ metadata | ];
    try destruct (indexNameOf metadata);
    destruct (returnOnlyCount (input self)) as [ [ | ] | ];
    destruct (qe_KeyConditionExpression query);
    simpl; try reflexivity;
    destruct (ProjectionExpression request); reflexivity.
Qed.

Lemma getInput_options_ScanIndexForward (self : MagicSearch)
    (indexMetadata : option IndexMetadata) (query : QueryExpression) (request : Input) :
  ScanIndexForward (getInput_options self indexMetadata query request) =
  match rangeOrder (input self) with
  | Some DESC => Some false
  | _ => ScanIndexForward request
  end.
Proof.
  destruct_options self;
    destruct indexMetadata as [ metadata | ];
    try destruct (indexNameOf metadata);
    destruct (returnOnlyCount (input self)) as [ [ | ] | ];
    destruct (qe_KeyConditionExpression query);
    simpl; try reflexivity;
    destruct (ProjectionExpression request); reflexivity.
Qed.

Lemma getInput_options_count (self : MagicSearch)
    (indexMetadata : option IndexMetadata) (query : QueryExpression) (request : Input) :
  returnOnlyCount (input self) = Some true ->
  Select (getInput_options self indexMetadata query request) = Some COUNT /\
  ProjectionExpression (getInput_options self indexMetadata query request) = None.
Proof.
  intros Hcount. unfold getInput_options. rewrite Hcount.
  destruct (rangeOrder (input self)) as [ [ | ] | ];
  destruct (limit (input self));
  destruct (exclusiveStartKey (input self));
  destruct (consistent (input self));
    destruct indexMetadata as [ metadata | ];
    try destruct (indexNameOf metadata);
    destruct (qe_KeyConditionExpression query);
    destruct request as [tn cr ean eav fe [pe | ] sel sif lim esk ixn kce];
    simpl; split; reflexivity.
Qed.

(** C1. Automatic index selection tries the primary key first, then the
    global secondary indexes in declaration order, skipping those projected
    INCLUDE or KEYS_ONLY, then the local secondary indexes in declaration
    order, skipping the same projections and checking the hash of the table
    with the range of the index; the first candidate that matches is
    returned, a local index as a descriptor made of the table hash and its
    own range and name; when no candidate matches no index is returned, and
    the request compiled without an index carries no key condition, so that
    it is sent as a scan. *)
Theorem findAvailableIndex_priority (self : MagicSearch) :
  let table := tableClass self in
  let pk := primaryKey table in
  (checkFilters self (pk_hash pk) (pk_range pk) = true ->
   findAvailableIndex self = Some (IxPrimaryKey pk))
  /\
  (forall before index' after,
     checkFilters self (pk_hash pk) (pk_range pk) = false ->
     globalSecondaryIndexes table = before ++ index' :: after ->
     (forall i, In i before -> globalMatches self i = false) ->
     globalMatches self index' = true ->
     findAvailableIndex self = Some (IxGlobal index'))
  /\
  (forall before index' after,
     checkFilters self (pk_hash pk) (pk_range pk) = false ->
     (forall i, In i (globalSecondaryIndexes table) -> globalMatches self i = false) ->
     localSecondaryIndexes table = before ++ index' :: after ->
     (forall i, In i before -> localMatches self i = false) ->
     localMatches self index' = true ->
     findAvailableIndex self = Some (IxGlobal (assignHash (pk_hash pk) index')) /\
     gsi_hash (assignHash (pk_hash pk) index') = pk_hash pk /\
     gsi_range (assignHash (pk_hash pk) index') = Some (lsi_range index') /\
     gsi_name (assignHash (pk_hash pk) index') = lsi_name index')
  /\
  (checkFilters self (pk_hash pk) (pk_range pk) = false ->
   (forall i, In i (globalSecondaryIndexes table) -> globalMatches self i = false) ->
   (forall i, In i (localSecondaryIndexes table) -> localMatches self i = false) ->
   findAvailableIndex self = None /\
   (index (input self) = None ->
    (forall query, buildQueryExpression table (filters self) None = Ok query ->
                   qe_KeyConditionExpression query = None) ->
    forall request, getInput self = Ok request ->
      KeyConditionExpression request = None /\
      IndexName request = None /\
      clientCall request = DynamoScan (sentRequest request))).
Proof.
  intros table pk.
  assert (Hglobal : forall i, globalMatches self i = false ->
            (if isIncludeOrKeysOnly (gsi_projection i) then @Continue (option IndexMetadata)
             else if checkFilters self (gsi_hash i) (gsi_range i)
                  then Return (Some (IxGlobal i)) else Continue) = Continue).
  { intros i Hi. unfold globalMatches in Hi.
    destruct (isIncludeOrKeysOnly (gsi_projection i)); [ reflexivity | ].
    simpl in Hi. rewrite Hi. reflexivity. }
  assert (Hlocal : forall i, localMatches self i = false ->
            (if isIncludeOrKeysOnly (lsi_projection i) then @Continue (option IndexMetadata)
             else if checkFilters self (pk_hash pk) (Some (lsi_range i))
                  then Return (Some (IxGlobal (assignHash (pk_hash pk) i)))
                  else Continue) = Continue).
  { intros i Hi. unfold localMatches in Hi. fold table in Hi. fold pk in Hi.
    destruct (isIncludeOrKeysOnly (lsi_projection i)); [ reflexivity | ].
    simpl in Hi. rewrite Hi. reflexivity. }
  assert (Hnone : checkFilters self (pk_hash pk) (pk_range pk) = false ->
            (forall i, In i (globalSecondaryIndexes table) -> globalMatches self i = false) ->
            (forall i, In i (localSecondaryIndexes table) -> localMatches self i = false) ->
            findAvailableIndex self = None).
  { intros Hpk Hg Hl. unfold findAvailableIndex. fold table. fold pk. rewrite Hpk.
    rewrite for_of_all_continue by (intros y Hy; apply Hglobal, Hg, Hy).
    apply for_of_all_continue. intros y Hy. apply Hlocal, Hl, Hy. }
  split; [ | split; [ | split ] ].
  - intros Hpk. unfold findAvailableIndex. fold table. fold pk.
    rewrite Hpk. reflexivity.
  - intros before index' after Hpk Hsplit Hbefore Hmatch.
    unfold findAvailableIndex. fold table. fold pk. rewrite Hpk, Hsplit.
    apply for_of_first_return.
    + intros y Hy. apply Hglobal, Hbefore, Hy.
    + unfold globalMatches in Hmatch. apply andb_true_iff in Hmatch.
      destruct Hmatch as [Hproj Hcheck]. apply negb_true_iff in Hproj.
      rewrite Hproj, Hcheck. reflexivity.
  - intros before index' after Hpk Hg Hsplit Hbefore Hmatch.
    split; [ | repeat split ].
    unfold findAvailableIndex. fold table. fold pk. rewrite Hpk.
    rewrite for_of_all_continue by (intros y Hy; apply Hglobal, Hg, Hy).
    rewrite Hsplit. apply for_of_first_return.
    + intros y Hy. apply Hlocal, Hbefore, Hy.
    + unfold localMatches in Hmatch. fold table in Hmatch. fold pk in Hmatch.
      apply andb_true_iff in Hmatch.
      destruct Hmatch as [Hproj Hcheck]. apply negb_true_iff in Hproj.
      rewrite Hproj, Hcheck. reflexivity.
  - intros Hpk Hg Hl. split; [ apply Hnone; assumption | ].
    intros Hauto Hcompiler request Hrequest.
    destruct (getInput_inversion _ Hrequest)
      as [indexMetadata [query [request' [Hindex [Hquery [Hprojection ->]]]]]].
    unfold getInput_indexMetadata in Hindex. rewrite Hauto in Hindex.
    rewrite (Hnone Hpk Hg Hl) in Hindex. injection Hindex as <-.
    apply Hcompiler in Hquery.
    destruct (getInput_projection_keeps _ _ Hprojection) as [Hkey [Hname _]].
    assert (Hk : KeyConditionExpression (getInput_options self None query request') = None).
    { rewrite getInput_options_KeyConditionExpression, Hquery, Hkey. reflexivity. }
    split; [ exact Hk | ]. split.
    + rewrite getInput_options_IndexName, Hname. reflexivity.
    + unfold clientCall. rewrite Hk. reflexivity.
Qed.


(** C10 (the code at the failing input).  On the table [posts], whose global
    secondary index [byLength] has the hash attribute [length],
    [postsSearch.group(g => g.filter('title').eq('x'))] has no top-level
    group at all, only a nested sub-group, and yet the check accepts the
    hash [length] (also together with a range attribute named [0]) and the
    automatic selection returns [byLength]; the same happens on the tree of
    [postsSearch.or()], which holds nothing but the ['OR'] marker.  Without
    the nested entry no index is selected. *)
Theorem nested_group_selects_length_index :
  group (fun g => Ok (filter ["title"] (JArr [JStr "="; JStr "x"]) g)) postsSearch =
    Ok (withFilters postsSearch groupedTitleFilters) /\
  (forall entry, In entry groupedTitleFilters -> exists sub, entry = ENested sub) /\
  checkFilters (withFilters postsSearch groupedTitleFilters) {| name := "length" |} None = true /\
  checkFilters (withFilters postsSearch groupedTitleFilters)
    {| name := "length" |} (Some {| name := "0" |}) = true /\
  findAvailableIndex (withFilters postsSearch groupedTitleFilters) = Some (IxGlobal byLength) /\
  filters (or postsSearch) = [EOr] /\
  findAvailableIndex (or postsSearch) = Some (IxGlobal byLength) /\
  findAvailableIndex postsSearch = None.
Proof.
  split; [ reflexivity | ].
  split; [ intros entry [<- | []]; eexists; reflexivity | ].
  split; [ reflexivity | ]. split; [ reflexivity | ]. split; [ reflexivity | ].
  split; [ reflexivity | ]. split; reflexivity.
Qed.


(** *** Explicit indexes *)

Lemma findGlobalByName_cases (indexName : string)
    (indexes : list GlobalSecondaryIndexMetadata) (start : option IndexMetadata) :
  let found :=
    fold_left
      (fun indexMetadata index' =>
         if String.eqb (gsi_name index') indexName then Some (IxGlobal index')
         else indexMetadata)
      indexes start in
  (found = start /\ forall i, In i indexes -> gsi_name i <> indexName) \/
  (exists i, In i indexes /\ gsi_name i = indexName /\ found = Some (IxGlobal i)).
Proof.
  revert start. induction indexes as [ | index' rest IH ]; intros start; simpl.
  - left. split; [ reflexivity | intros i [] ].
  - destruct (String.eqb (gsi_name index') indexName) eqn:Hname.
    + apply String.eqb_eq in Hname.
      destruct (IH (Some (IxGlobal index'))) as [[Hfound Hrest] | [i [Hin [Hi Hfound]]]].
      * right. exists index'. split; [ left; reflexivity | ]. split; assumption.
      * right. exists i. split; [ right; exact Hin | ]. split; assumption.
    + apply String.eqb_neq in Hname.
      destruct (IH start) as [[Hfound Hrest] | [i [Hin [Hi Hfound]]]].
      * left. split; [ exact Hfound | ].
        intros i [<- | Hin]; [ exact Hname | apply Hrest, Hin ].
      * right. exists i. split; [ right; exact Hin | ]. split; assumption.
Qed.

Lemma findLocalByName_cases (hash : Attribute) (indexName : string)
    (indexes : list LocalSecondaryIndexMetadata) (start : option IndexMetadata) :
  let found :=
    fold_left
      (fun indexMetadata index' =>
         if String.eqb (lsi_name index') indexName
         then Some (IxGlobal (assignHash hash index'))
         else indexMetadata)
      indexes start in
  (found = start /\ forall i, In i indexes -> lsi_name i <> indexName) \/
  (exists i, In i indexes /\ lsi_name i = indexName /\
             found = Some (IxGlobal (assignHash hash i))).
Proof.
  revert start. induction indexes as [ | index' rest IH ]; intros start; simpl.
  - left. split; [ reflexivity | intros i [] ].
  - destruct (String.eqb (lsi_name index') indexName) eqn:Hname.
    + apply String.eqb_eq in Hname.
      destruct (IH (Some (IxGlobal (assignHash hash index'))))
        as [[Hfound Hrest] | [i [Hin [Hi Hfound]]]].
      * right. exists index'. split; [ left; reflexivity | ]. split; assumption.
      * right. exists i. split; [ right; exact Hin | ]. split; assumption.
    + apply String.eqb_neq in Hname.
      destruct (IH start) as [[Hfound Hrest] | [i [Hin [Hi Hfound]]]].
      * left. split; [ exact Hfound | ].
        intros i [<- | Hin]; [ exact Hname | apply Hrest, Hin ].
      * right. exists i. split; [ right; exact Hin | ]. split; assumption.
Qed.

Lemma getInput_indexMetadata_by_name (self : MagicSearch) (indexName : string) :
  index (input self) = Some (IndexName_ indexName) ->
  getInput_indexMetadata self =
  match findGlobalByName indexName (globalSecondaryIndexes (tableClass self)) with
  | Some metadata => Ok (Some metadata)
  | None =>
      match findLocalByName (pk_hash (primaryKey (tableClass self))) indexName
              (localSecondaryIndexes (tableClass self)) with
      | Some metadata => Ok (Some metadata)
      | None => Throw (QueryError (nonExistentIndexMessage (tableClass self) indexName))
      end
  end.
Proof.
  intros Hindex. unfold getInput_indexMetadata. rewrite Hindex.
  destruct (findGlobalByName _ _); [ reflexivity | ].
  destruct (findLocalByName _ _ _); reflexivity.
Qed.

(** C6. When the caller supplies an index, the resolved index does not
    depend on the filter tree, so automatic selection has no part in it.  A
    name resolves to a global secondary index of that name when there is
    one; otherwise to a local secondary index of that name, as a descriptor
    carrying the primary hash of the table; a name that matches neither
    makes [getInput] throw the non-existent-index error.  An index object
    resolves to its own metadata. *)
Theorem explicit_index_resolution (self : MagicSearch) (explicit : Index) :
  index (input self) = Some explicit ->
  let table := tableClass self in
  (forall filters',
     getInput_indexMetadata (withFilters self filters') = getInput_indexMetadata self)
  /\
  (forall indexName, explicit = IndexName_ indexName ->
     ((exists i, In i (globalSecondaryIndexes table) /\ gsi_name i = indexName) ->
      exists i, In i (globalSecondaryIndexes table) /\ gsi_name i = indexName /\
                getInput_indexMetadata self = Ok (Some (IxGlobal i)))
     /\
     ((forall i, In i (globalSecondaryIndexes table) -> gsi_name i <> indexName) ->
      (exists i, In i (localSecondaryIndexes table) /\ lsi_name i = indexName) ->
      exists i, In i (localSecondaryIndexes table) /\ lsi_name i = indexName /\
                getInput_indexMetadata self =
                Ok (Some (IxGlobal (assignHash (pk_hash (primaryKey table)) i))) /\
                gsi_hash (assignHash (pk_hash (primaryKey table)) i) =
                pk_hash (primaryKey table))
     /\
     ((forall i, In i (globalSecondaryIndexes table) -> gsi_name i <> indexName) ->
      (forall i, In i (localSecondaryIndexes table) -> lsi_name i <> indexName) ->
      getInput_indexMetadata self =
        Throw (QueryError (nonExistentIndexMessage table indexName)) /\
      getInput self = Throw (QueryError (nonExistentIndexMessage table indexName))))
  /\
  (forall metadata, explicit = IndexObject metadata ->
     getInput_indexMetadata self = Ok (Some metadata)).
Proof.
  intros Hindex table. split; [ | split ].
  - intros filters'. unfold getInput_indexMetadata. simpl.
    rewrite Hindex. reflexivity.
  - intros indexName ->.
    pose proof (getInput_indexMetadata_by_name self Hindex) as Hresolve.
    fold table in Hresolve.
    pose proof (findGlobalByName_cases indexName (globalSecondaryIndexes table) None)
      as Hg.
    pose proof (findLocalByName_cases (pk_hash (primaryKey table)) indexName
                  (localSecondaryIndexes table) None) as Hl.
    simpl in Hg, Hl. fold (findGlobalByName indexName (globalSecondaryIndexes table)) in Hg.
    fold (findLocalByName (pk_hash (primaryKey table)) indexName
            (localSecondaryIndexes table)) in Hl.
    split; [ | split ].
    + intros [i [Hin Hname]].
      destruct Hg as [[_ Hnone] | [j [Hj [Hjname Hfound]]]].
      * exfalso. exact (Hnone i Hin Hname).
      * exists j. rewrite Hfound in Hresolve. repeat split; assumption.
    + intros Hnone [i [Hin Hname]].
      destruct Hg as [[Hfound _] | [j [Hj [Hjname _]]]].
      * rewrite Hfound in Hresolve.
        destruct Hl as [[_ Hnone'] | [j [Hj [Hjname Hfound']]]].
        -- exfalso. exact (Hnone' i Hin Hname).
        -- exists j. rewrite Hfound' in Hresolve. repeat split; assumption.
      * exfalso. exact (Hnone j Hj Hjname).
    + intros Hnone Hnone'.
      destruct Hg as [[Hfound _] | [j [Hj [Hjname _]]]];
        [ | exfalso; exact (Hnone j Hj Hjname) ].
      destruct Hl as [[Hfound' _] | [j [Hj [Hjname _]]]];
        [ | exfalso; exact (Hnone' j Hj Hjname) ].
      rewrite Hfound, Hfound' in Hresolve.
      split; [ exact Hresolve | ].
      unfold getInput. rewrite Hresolve. reflexivity.
  - intros metadata ->. unfold getInput_indexMetadata. rewrite Hindex.
    reflexivity.
Qed.

(** *** Count-only requests *)

(** C8. A search that asks for the count only compiles to a request that
    selects COUNT and carries no projection expression, whatever projection
    was requested; and [count()] asks for the count only, changing the
    compiled request in nothing but these two fields. *)
Theorem count_discards_projection (self : MagicSearch) :
  (forall request,
     returnOnlyCount (input self) = Some true ->
     getInput self = Ok request ->
     Select request = Some COUNT /\ ProjectionExpression request = None)
  /\
  returnOnlyCount (input (count self)) = Some true
  /\
  (forall request,
     getInput self = Ok request ->
     getInput (count self) =
     Ok (set_ProjectionExpression None (set_Select (Some COUNT) request))).
Proof.
  split; [ | split ].
  - intros request Hcount Hrequest.
    destruct (getInput_inversion _ Hrequest)
      as [indexMetadata [query [request' [_ [_ [_ ->]]]]]].
    apply getInput_options_count. exact Hcount.
  - reflexivity.
  - intros request Hrequest.
    destruct (getInput_inversion _ Hrequest)
      as [indexMetadata [query [request' [Hindex [Hquery [Hprojection ->]]]]]].
    unfold getInput.
    change (getInput_indexMetadata (count self)) with (getInput_indexMetadata self).
    rewrite Hindex.
    change (buildQueryExpression (tableClass (count self)) (filters (count self)))
      with (buildQueryExpression (tableClass self) (filters self)).
    rewrite Hquery.
    change (getInput_projection (count self) (initialRequest (count self) query))
      with (getInput_projection self (initialRequest self query)).
    rewrite Hprojection. f_equal.
    unfold getInput_options. simpl.
    destruct (rangeOrder (input self)) as [ [ | ] | ];
      destruct (limit (input self));
      destruct (exclusiveStartKey (input self));
      destruct (consistent (input self));
      destruct indexMetadata as [ metadata | ];
      try destruct (indexNameOf metadata);
      destruct (returnOnlyCount (input self)) as [ [ | ] | ];
      destruct (qe_KeyConditionExpression query);
      destruct request' as [tn cr ean eav fe [pe | ] sel sif lim esk ixn kce];
      reflexivity.
Qed.

(** *** One fetch *)

Lemma page_query (self : MagicSearch) (request : Input) (w : World) :
  KeyConditionExpression request <> None ->
  page self request w =
  match dynamo (DynamoQuery request) (store w) with
  | (inr output, store') =>
      (Ok (fromDynamoOutput (tableClass self) output
             (notNull (ProjectionExpression request)), request),
       {| store := store'; log := log w ++ [DynamoQuery request] |})
  | (inl ex, store') =>
      (Throw (HelpfulError ex (tableClass self) request),
       {| store := store'; log := log w ++ [DynamoQuery request] |})
  end.
Proof.
  intros Hkey. unfold page, callDynamo.
  destruct (KeyConditionExpression request); [ | contradiction ]. simpl.
  destruct (dynamo _ _) as [[ex | output] store']; [ reflexivity | ].
  rewrite negb_involutive. reflexivity.
Qed.

Lemma page_scan (self : MagicSearch) (request : Input) (w : World) :
  KeyConditionExpression request = None ->
  ScanIndexForward request <> Some false ->
  page self request w =
  match dynamo (DynamoScan (set_ScanIndexForward None request)) (store w) with
  | (inr output, store') =>
      (Ok (fromDynamoOutput (tableClass self) output
             (notNull (ProjectionExpression request)),
           set_ScanIndexForward None request),
       {| store := store';
          log := log w ++ [DynamoScan (set_ScanIndexForward None request)] |})
  | (inl ex, store') =>
      (Throw (HelpfulError ex (tableClass self) (set_ScanIndexForward None request)),
       {| store := store';
          log := log w ++ [DynamoScan (set_ScanIndexForward None request)] |})
  end.
Proof.
  intros Hkey Hdirection. unfold page, callDynamo. rewrite Hkey. simpl.
  destruct (ScanIndexForward request) as [ [ | ] | ];
    try (exfalso; apply Hdirection; reflexivity);
    destruct (dynamo _ _) as [[ex | output] store']; try reflexivity;
    rewrite negb_involutive; reflexivity.
Qed.

Lemma page_rejects (self : MagicSearch) (request : Input) (w : World) :
  KeyConditionExpression request = None ->
  ScanIndexForward request = Some false ->
  page self request w = (Throw (PlainError scanDirectionMessage), w).
Proof.
  intros Hkey Hdirection. unfold page. rewrite Hkey, Hdirection. reflexivity.
Qed.

(** The outcome of [page] on a request it does not reject, by the answer of
    the store. *)
Lemma page_sent (self : MagicSearch) (request : Input) (w : World) :
  rejectedOnScan request = false ->
  page self request w =
  match dynamo (clientCall request) (store w) with
  | (inr output, store') =>
      (Ok (fromDynamoOutput (tableClass self) output
             (notNull (ProjectionExpression request)),
           sentRequest request),
       {| store := store'; log := log w ++ [clientCall request] |})
  | (inl ex, store') =>
      (Throw (HelpfulError ex (tableClass self) (sentRequest request)),
       {| store := store'; log := log w ++ [clientCall request] |})
  end.
Proof.
  unfold rejectedOnScan, clientCall, sentRequest. intros Hok.
  destruct (KeyConditionExpression request) as [expression | ] eqn:Hkey; simpl in *.
  - rewrite page_query by (rewrite Hkey; discriminate). reflexivity.
  - rewrite page_scan; [ reflexivity | exact Hkey | ].
    intros Hfalse. rewrite Hfalse in Hok. discriminate.
Qed.

(** *** Sort direction on a scan *)

(** C5 (amended). When the compiled request carries no key condition, a
    descending sort request makes [exec], [minimum] and [all] throw the
    scan-direction error with no call made to the store; [descending()] is
    such a request.  An ascending request, or none, puts no direction flag in
    the request, and the scan is sent. *)
Theorem descending_scan_is_rejected (self : MagicSearch) (request : Input) (w : World) :
  getInput self = Ok request ->
  KeyConditionExpression request = None ->
  (rangeOrder (input self) = Some DESC ->
   exec self w = (Throw (PlainError scanDirectionMessage), w) /\
   (forall fuel n, minimum (S fuel) self n w = (Throw (PlainError scanDirectionMessage), w)) /\
   (forall fuel, all (S fuel) self w = (Throw (PlainError scanDirectionMessage), w)))
  /\
  rangeOrder (input (descending self)) = Some DESC
  /\
  (rangeOrder (input self) <> Some DESC ->
   ScanIndexForward request = None /\
   exists result store',
     exec self w =
     (result, {| store := store'; log := log w ++ [DynamoScan request] |}) /\
     result <> Throw (PlainError scanDirectionMessage)).
Proof.
  intros Hrequest Hkey.
  destruct (getInput_inversion _ Hrequest)
    as [indexMetadata [query [request' [Hindex [Hquery [Hprojection Heq]]]]]].
  assert (Hdirection : ScanIndexForward request =
                       match rangeOrder (input self) with
                       | Some DESC => Some false
                       | _ => None
                       end).
  { rewrite Heq, getInput_options_ScanIndexForward.
    destruct (getInput_projection_keeps _ _ Hprojection) as [_ [_ ->]].
    destruct (rangeOrder (input self)) as [ [ | ] | ]; reflexivity. }
  split; [ | split ].
  - intros Hdesc. rewrite Hdesc in Hdirection.
    pose proof (page_rejects self request w Hkey Hdirection) as Hpage.
    split; [ | split ].
    + unfold exec. rewrite Hrequest, Hpage. reflexivity.
    + intros fuel n. unfold minimum. rewrite Hrequest. simpl.
      rewrite Hpage. reflexivity.
    + intros fuel. unfold all. rewrite Hrequest. simpl.
      rewrite Hpage. reflexivity.
  - reflexivity.
  - intros Hnot.
    assert (Hnone : ScanIndexForward request = None).
    { rewrite Hdirection. destruct (rangeOrder (input self)) as [ [ | ] | ];
        try reflexivity. exfalso. apply Hnot. reflexivity. }
    split; [ exact Hnone | ].
    assert (Hsame : set_ScanIndexForward None request = request).
    { destruct request. simpl in Hnone. subst. reflexivity. }
    unfold exec. rewrite Hrequest.
    rewrite page_scan by (try assumption; rewrite Hnone; discriminate).
    rewrite Hsame.
    destruct (dynamo (DynamoScan request) (store w)) as [[ex | output] store'].
    + eexists. exists store'. split; [ reflexivity | discriminate ].
    + eexists. exists store'. split; [ reflexivity | discriminate ].
Qed.

(** *** [and()] *)

Lemma applyCall_group (callback : list BuilderCall) (self : MagicSearch) :
  applyCall (CallGroup callback) self = group (chain callback) self.
Proof. reflexivity. Qed.

Lemma applyCall_parenthesis (callback : list BuilderCall) (self : MagicSearch) :
  applyCall (CallParenthesis callback) self = parenthesis (chain callback) self.
Proof. reflexivity. Qed.

(** C9. [and()] returns the builder it was called on, with the same filter
    tree and the same options; a chain of builder calls with an [and()]
    inserted anywhere, also inside the callback of a group, leaves the same
    builder and therefore compiles to the same request as the chain without
    it. *)
Theorem and_is_noop :
  (forall self : MagicSearch,
     and self = self /\
     filters (and self) = filters self /\
     input (and self) = input self)
  /\
  (forall calls calls', InsertAnd calls calls' ->
     forall self : MagicSearch,
       chain calls' self = chain calls self /\
       compiledRequest calls' self = compiledRequest calls self).
Proof.
  split.
  - intros self. repeat split.
  - assert (Hchain : forall calls calls', InsertAnd calls calls' ->
              forall self : MagicSearch, chain calls' self = chain calls self).
    { intros calls calls' Hinsert.
      induction Hinsert as [ calls | c calls calls' _ IH
                           | callback callback' rest _ IH
                           | callback callback' rest _ IH ]; intros self.
      - reflexivity.
      - simpl. destruct (applyCall c self); [ apply IH | reflexivity | reflexivity ].
      - change (chain (CallGroup callback' :: rest) self)
          with (match applyCall (CallGroup callback') self with
                | Ok self' => chain rest self'
                | Throw e => Throw e
                | OutOfFuel => OutOfFuel
                end).
        change (chain (CallGroup callback :: rest) self)
          with (match applyCall (CallGroup callback) self with
                | Ok self' => chain rest self'
                | Throw e => Throw e
                | OutOfFuel => OutOfFuel
                end).
        rewrite !applyCall_group. unfold group. rewrite IH. reflexivity.
      - change (chain (CallParenthesis callback' :: rest) self)
          with (match applyCall (CallParenthesis callback') self with
                | Ok self' => chain rest self'
                | Throw e => Throw e
                | OutOfFuel => OutOfFuel
                end).
        change (chain (CallParenthesis callback :: rest) self)
          with (match applyCall (CallParenthesis callback) self with
                | Ok self' => chain rest self'
                | Throw e => Throw e
                | OutOfFuel => OutOfFuel
                end).
        rewrite !applyCall_parenthesis. unfold parenthesis, group.
        rewrite IH. reflexivity. }
    intros calls calls' Hinsert self. split; [ apply Hchain, Hinsert | ].
    unfold compiledRequest. rewrite (Hchain _ _ Hinsert). reflexivity.
Qed.

(** *** Paging *)

Lemma sentRequest_facts (request : Input) :
  KeyConditionExpression (sentRequest request) = KeyConditionExpression request /\
  ProjectionExpression (sentRequest request) = ProjectionExpression request /\
  ExclusiveStartKey (sentRequest request) = ExclusiveStartKey request /\
  rejectedOnScan (sentRequest request) = false.
Proof.
  unfold sentRequest, rejectedOnScan.
  destruct (KeyConditionExpression request) eqn:Hkey; simpl; rewrite ?Hkey;
    repeat split; reflexivity.
Qed.

Lemma nextRequest_facts (request : Input) (output : DynamoOutput) :
  KeyConditionExpression (nextRequest request output) = KeyConditionExpression request /\
  ProjectionExpression (nextRequest request output) = ProjectionExpression request /\
  rejectedOnScan (nextRequest request output) = false.
Proof.
  destruct (sentRequest_facts request) as [Hkey [Hprojection [_ Hok]]].
  unfold nextRequest. destruct (LastEvaluatedKey output).
  - unfold rejectedOnScan in *. simpl. rewrite Hkey in *. rewrite Hprojection.
    repeat split. exact Hok.
  - repeat split; assumption.
Qed.

Lemma requestOf_clientCall (request : Input) :
  requestOf (clientCall request) = sentRequest request.
Proof.
  unfold clientCall, sentRequest.
  destruct (notNull (KeyConditionExpression request)); reflexivity.
Qed.

Lemma start_of_nextRequest (request : Input) (output : DynamoOutput) (key : Key) :
  LastEvaluatedKey output = Some key ->
  ExclusiveStartKey (requestOf (clientCall (nextRequest request output))) = Some key.
Proof.
  intros Hkey. rewrite requestOf_clientCall.
  destruct (sentRequest_facts (nextRequest request output)) as [_ [_ [-> _]]].
  unfold nextRequest. rewrite Hkey. reflexivity.
Qed.

Lemma carryKey_after (table : Schema) (request : Input) (output : DynamoOutput)
    (hasProjection : bool) :
  carryKey (Some (fromDynamoOutput table output hasProjection)) (sentRequest request) =
  nextRequest request output.
Proof. reflexivity. Qed.

Lemma decoded_projection (table : Schema) (request request' : Input)
    (pages : list DynamoOutput) :
  ProjectionExpression request = ProjectionExpression request' ->
  decoded table request pages = decoded table request' pages.
Proof. unfold decoded. intros ->. reflexivity. Qed.

Lemma all_loop_done (fuel : nat) (self : MagicSearch) (request : Input)
    (outputs : list QueryOutput) (previous : option QueryOutput) (w : World) :
  morePages previous = false ->
  all_loop fuel self request outputs previous w = (Ok outputs, w).
Proof. intros Hdone. destruct fuel; simpl; rewrite Hdone; reflexivity. Qed.

Lemma all_loop_exhausts (self : MagicSearch) (pages : list DynamoOutput) :
  Exhausts pages ->
  forall fuel request outputs previous st st' l,
    (List.length pages <= fuel)%nat ->
    morePages previous = true ->
    rejectedOnScan (carryKey previous request) = false ->
    Serves st (carryKey previous request) pages st' ->
    all_loop fuel self request outputs previous {| store := st; log := l |} =
    (Ok (outputs ++ decoded (tableClass self) (carryKey previous request) pages),
     {| store := st'; log := l ++ callsFor (carryKey previous request) pages |}).
Proof.
  induction 1 as [ output Hlast | output rest Hmore _ IH ];
    intros fuel request outputs previous st st' l Hfuel Hprevious Hok Hserves;
    (destruct fuel as [ | fuel ]; [ simpl in Hfuel; lia | ]);
    inversion Hserves as [ | ? st1 ? ? ? ? Hcall Hrest ]; subst;
    simpl; rewrite Hprevious, (page_sent self _ _ Hok); simpl; rewrite Hcall.
  - inversion Hrest; subst.
    rewrite all_loop_done by (simpl; rewrite Hlast; reflexivity).
    reflexivity.
  - destruct (nextRequest_facts (carryKey previous request) output)
      as [_ [Hprojection Hok']].
    rewrite (IH fuel (sentRequest (carryKey previous request)) _ _ st1 st'
               (l ++ [clientCall (carryKey previous request)])).
    + rewrite carryKey_after.
      rewrite (decoded_projection _ _ _ _ Hprojection).
      rewrite <- !app_assoc. reflexivity.
    + simpl in Hfuel. lia.
    + simpl. destruct (LastEvaluatedKey output); [ reflexivity | contradiction ].
    + rewrite carryKey_after. exact Hok'.
    + rewrite carryKey_after. exact Hrest.
Qed.

Lemma minimum_loop_stops (self : MagicSearch) (n : Z) (pages : list DynamoOutput)
    (count' : Z) :
  StopsAfter n count' pages ->
  forall fuel request outputs previous st st' l,
    (List.length pages <= fuel)%nat ->
    morePages previous = true ->
    rejectedOnScan (carryKey previous request) = false ->
    Serves st (carryKey previous request) pages st' ->
    minimum_loop fuel self n request outputs previous count' {| store := st; log := l |} =
    (Ok (outputs ++ decoded (tableClass self) (carryKey previous request) pages),
     {| store := st'; log := l ++ callsFor (carryKey previous request) pages |}).
Proof.
  induction 1 as [ count' output Hlast | count' output rest Hbelow Hmore _ IH ];
    intros fuel request outputs previous st st' l Hfuel Hprevious Hok Hserves;
    (destruct fuel as [ | fuel ]; [ simpl in Hfuel; lia | ]);
    inversion Hserves as [ | ? st1 ? ? ? ? Hcall Hrest ]; subst;
    simpl; rewrite Hprevious, (page_sent self _ _ Hok); simpl; rewrite Hcall.
  - inversion Hrest; subst.
    assert (Hbreak : (count' + Count output >=? n)
                     || negb (notNull (LastEvaluatedKey output)) = true).
    { destruct Hlast as [Hcount | Htoken].
      - apply orb_true_iff. left. apply Z.geb_le. lia.
      - rewrite Htoken. apply orb_true_r. }
    match goal with
    | |- (if ?c then _ else _) = _ => replace c with true by (symmetry; exact Hbreak)
    end.
    reflexivity.
  - assert (Hgo : (count' + Count output >=? n)
                  || negb (notNull (LastEvaluatedKey output)) = false).
    { apply orb_false_iff. split.
      - destruct (count' + Count output >=? n) eqn:Hge; [ | reflexivity ].
        apply Z.geb_le in Hge. lia.
      - destruct (LastEvaluatedKey output); [ reflexivity | contradiction ]. }
    match goal with
    | |- (if ?c then _ else _) = _ => replace c with false by (symmetry; exact Hgo)
    end.
    destruct (nextRequest_facts (carryKey previous request) output)
      as [_ [Hprojection Hok']].
    rewrite (IH fuel (sentRequest (carryKey previous request)) _ _ st1 st'
               (l ++ [clientCall (carryKey previous request)])).
    + rewrite carryKey_after.
      rewrite (decoded_projection _ _ _ _ Hprojection).
      rewrite <- !app_assoc. reflexivity.
    + simpl in Hfuel. lia.
    + simpl. destruct (LastEvaluatedKey output); [ reflexivity | contradiction ].
    + rewrite carryKey_after. exact Hok'.
    + rewrite carryKey_after. exact Hrest.
Qed.

Lemma tokensCarried_exhausts (pages : list DynamoOutput) :
  Exhausts pages ->
  forall request, tokensCarried pages (callsFor request pages).
Proof.
  induction 1 as [ output Hlast | output rest Hmore Hrest IH ]; intros request.
  - exact I.
  - destruct rest as [ | output' rest' ]; [ inversion Hrest | ].
    specialize (IH (nextRequest request output)).
    change (callsFor request (output :: output' :: rest'))
      with (clientCall request :: callsFor (nextRequest request output) (output' :: rest')).
    remember (callsFor (nextRequest request output) (output' :: rest')) as calls eqn:Hc.
    simpl in Hc. subst calls.
    split; [ exact Hmore | ]. split; [ | exact IH ].
    destruct (LastEvaluatedKey output) as [ key | ] eqn:Hkey; [ | contradiction ].
    apply start_of_nextRequest. exact Hkey.
Qed.

Lemma tokensCarried_stops (n : Z) (pages : list DynamoOutput) (count' : Z) :
  StopsAfter n count' pages ->
  forall request, tokensCarried pages (callsFor request pages).
Proof.
  induction 1 as [ count' output Hlast | count' output rest Hbelow Hmore Hrest IH ];
    intros request.
  - exact I.
  - destruct rest as [ | output' rest' ]; [ inversion Hrest | ].
    specialize (IH (nextRequest request output)).
    change (callsFor request (output :: output' :: rest'))
      with (clientCall request :: callsFor (nextRequest request output) (output' :: rest')).
    remember (callsFor (nextRequest request output) (output' :: rest')) as calls eqn:Hc.
    simpl in Hc. subst calls.
    split; [ exact Hmore | ]. split; [ | exact IH ].
    destruct (LastEvaluatedKey output) as [ key | ] eqn:Hkey; [ | contradiction ].
    apply start_of_nextRequest. exact Hkey.
Qed.

Lemma lastKey_app (outputs : list QueryOutput) (output : QueryOutput) :
  lastKey (outputs ++ [output]) = qo_lastEvaluatedKey output.
Proof.
  induction outputs as [ | first rest IH ]; [ reflexivity | ].
  simpl. destruct (rest ++ [output]) eqn:Hrest; [ | exact IH ].
  destruct rest; discriminate.
Qed.

Lemma lastKey_exhausts (table : Schema) (request : Input) (pages : list DynamoOutput) :
  Exhausts pages -> lastKey (decoded table request pages) = None.
Proof.
  induction 1 as [ output Hlast | output rest Hmore Hrest IH ].
  - exact Hlast.
  - destruct rest as [ | output' rest' ]; [ inversion Hrest | exact IH ].
Qed.

Lemma items_decoded (table : Schema) (request : Input) (pages : list DynamoOutput) :
  qo_items (fromSeveralOutputs table (decoded table request pages)) =
  List.concat
    (map (fun output =>
            map (fun item => fromDynamo table item (notNull (ProjectionExpression request)))
                (Items output))
         pages).
Proof. unfold fromSeveralOutputs, decoded. simpl. rewrite map_map. reflexivity. Qed.

Lemma length_callsFor (request : Input) (pages : list DynamoOutput) :
  List.length (callsFor request pages) = List.length pages.
Proof.
  revert request. induction pages as [ | output rest IH ]; intros request;
    [ reflexivity | ].
  simpl. rewrite IH. reflexivity.
Qed.

Lemma Serves_prefix (pages rest : list DynamoOutput) :
  forall st request st',
    Serves st request (pages ++ rest) st' ->
    exists st'', Serves st request pages st''.
Proof.
  induction pages as [ | output pages IH ]; intros st request st' Hserves.
  - exists st. constructor.
  - inversion Hserves as [ | ? st1 ? ? ? ? Hcall Hrest ]; subst.
    destruct (IH _ _ _ Hrest) as [st'' Hpages].
    exists st''. econstructor; eassumption.
Qed.

Lemma StopsAfter_of_exhausts (n : Z) (pages : list DynamoOutput) :
  Exhausts pages ->
  forall count', exists fetched rest,
    pages = fetched ++ rest /\ StopsAfter n count' fetched.
Proof.
  induction 1 as [ output Hlast | output pages Hmore _ IH ]; intros count'.
  - exists [output], []. split; [ reflexivity | ].
    constructor. right. exact Hlast.
  - destruct (Z_lt_ge_dec (count' + Count output) n) as [Hbelow | Henough].
    + destruct (IH (count' + Count output)) as [fetched [rest [-> Hstops]]].
      exists (output :: fetched), rest. split; [ reflexivity | ].
      apply StopsAfter_more; assumption.
    + exists [output], pages. split; [ reflexivity | ].
      constructor. left. exact Henough.
Qed.

(** C4. When the store serves k pages of which all but the last carry a
    continuation token, [all()] fetches the k pages, each request after the
    first starting at the token of the page before it, and returns their
    items concatenated in page order with no continuation token. *)
Theorem all_fetches_every_page (self : MagicSearch) (request : Input)
    (pages : list DynamoOutput) (st st' : Store) (l : list DynamoCall) :
  getInput self = Ok request ->
  rejectedOnScan request = false ->
  Serves st request pages st' ->
  Exhausts pages ->
  forall fuel, (List.length pages <= fuel)%nat ->
  exists result,
    all fuel self {| store := st; log := l |} =
      (Ok result, {| store := st'; log := l ++ callsFor request pages |}) /\
    result = fromSeveralOutputs (tableClass self) (decoded (tableClass self) request pages) /\
    qo_items result =
      List.concat
        (map (fun output =>
                map (fun item =>
                       fromDynamo (tableClass self) item
                         (notNull (ProjectionExpression request)))
                    (Items output))
             pages) /\
    qo_lastEvaluatedKey result = None /\
    List.length (callsFor request pages) = List.length pages /\
    tokensCarried pages (callsFor request pages).
Proof.
  intros Hrequest Hok Hserves Hexhausts fuel Hfuel.
  exists (fromSeveralOutputs (tableClass self) (decoded (tableClass self) request pages)).
  split; [ | split; [ reflexivity | split; [ apply items_decoded | split; [ | split ] ] ] ].
  - unfold all. rewrite Hrequest.
    pose proof (@all_loop_exhausts self pages Hexhausts fuel request [] None st st' l
                  Hfuel eq_refl Hok Hserves) as Hloop.
    simpl in Hloop. rewrite Hloop. reflexivity.
  - apply lastKey_exhausts. exact Hexhausts.
  - apply length_callsFor.
  - apply tokensCarried_exhausts. exact Hexhausts.
Qed.

(** C3. [minimum(n)] fetches pages, each request after the first starting
    at the token of the page before it, adds up their counts, and stops at
    the first page that brings the sum to [n] or carries no token: it returns
    exactly the pages up to that one, merged.  Whenever the store serves a
    sequence of pages that ends with a page without token, such a stopping
    page exists and [minimum(n)] returns.  With three pages of 10 items of
    which the first two carry tokens, [minimum(25)] makes three calls and
    returns 30 items and no token. *)
Theorem minimum_fetches_until_enough (self : MagicSearch) (n : Z) (request : Input)
    (st : Store) (l : list DynamoCall) :
  getInput self = Ok request ->
  rejectedOnScan request = false ->
  (forall fetched st',
     Serves st request fetched st' ->
     StopsAfter n 0 fetched ->
     forall fuel, (List.length fetched <= fuel)%nat ->
       minimum fuel self n {| store := st; log := l |} =
         (Ok (fromSeveralOutputs (tableClass self)
                (decoded (tableClass self) request fetched)),
          {| store := st'; log := l ++ callsFor request fetched |}) /\
       List.length (callsFor request fetched) = List.length fetched /\
       tokensCarried fetched (callsFor request fetched))
  /\
  (forall pages st',
     Serves st request pages st' ->
     Exhausts pages ->
     exists fetched rest st'',
       pages = fetched ++ rest /\
       StopsAfter n 0 fetched /\
       forall fuel, (List.length pages <= fuel)%nat ->
         minimum fuel self n {| store := st; log := l |} =
           (Ok (fromSeveralOutputs (tableClass self)
                  (decoded (tableClass self) request fetched)),
            {| store := st''; log := l ++ callsFor request fetched |}))
  /\
  (forall page1 page2 page3 st',
     Serves st request [page1; page2; page3] st' ->
     Count page1 = 10 -> Count page2 = 10 -> Count page3 = 10 ->
     List.length (Items page1) = 10%nat ->
     List.length (Items page2) = 10%nat ->
     List.length (Items page3) = 10%nat ->
     LastEvaluatedKey page1 <> None ->
     LastEvaluatedKey page2 <> None ->
     LastEvaluatedKey page3 = None ->
     forall fuel, (3 <= fuel)%nat ->
     exists result,
       minimum fuel self 25 {| store := st; log := l |} =
         (Ok result,
          {| store := st'; log := l ++ callsFor request [page1; page2; page3] |}) /\
       List.length (qo_items result) = 30%nat /\
       qo_lastEvaluatedKey result = None /\
       List.length (callsFor request [page1; page2; page3]) = 3%nat).
Proof.
  intros Hrequest Hok.
  assert (Hmain : forall m fetched st',
            Serves st request fetched st' ->
            StopsAfter m 0 fetched ->
            forall fuel, (List.length fetched <= fuel)%nat ->
              minimum fuel self m {| store := st; log := l |} =
                (Ok (fromSeveralOutputs (tableClass self)
                       (decoded (tableClass self) request fetched)),
                 {| store := st'; log := l ++ callsFor request fetched |})).
  { intros m fetched st' Hserves Hstops fuel Hfuel.
    unfold minimum. rewrite Hrequest.
    pose proof (@minimum_loop_stops self m fetched 0 Hstops fuel request [] None st st' l
                  Hfuel eq_refl Hok Hserves) as Hloop.
    simpl in Hloop. rewrite Hloop. reflexivity. }
  split; [ | split ].
  - intros fetched st' Hserves Hstops fuel Hfuel.
    split; [ apply Hmain; assumption | ].
    split; [ apply length_callsFor | ].
    apply (tokensCarried_stops Hstops).
  - intros pages st' Hserves Hexhausts.
    destruct (StopsAfter_of_exhausts n Hexhausts 0) as [fetched [rest [-> Hstops]]].
    destruct (Serves_prefix _ _ Hserves) as [st'' Hfetched].
    exists fetched, rest, st''. split; [ reflexivity | ]. split; [ exact Hstops | ].
    intros fuel Hfuel. apply Hmain; try assumption.
    rewrite length_app in Hfuel. lia.
  - intros page1 page2 page3 st' Hserves Hc1 Hc2 Hc3 Hi1 Hi2 Hi3 Ht1 Ht2 Ht3 fuel Hfuel.
    assert (Hstops : StopsAfter 25 0 [page1; page2; page3]).
    { apply StopsAfter_more; [ lia | exact Ht1 | ].
      apply StopsAfter_more; [ lia | exact Ht2 | ].
      apply StopsAfter_last. left. lia. }
    eexists. split; [ apply (Hmain 25 _ _ Hserves Hstops); exact Hfuel | ].
    split; [ | split ].
    + rewrite items_decoded. simpl.
      rewrite !length_app, !length_map, Hi1, Hi2, Hi3. reflexivity.
    + exact Ht3.
    + reflexivity.
Qed.

Lemma all_loop_fails (self : MagicSearch) (ex : JsValue) (pages : list DynamoOutput)
    (st : Store) (current : Input) (st' : Store) :
  ServesThenFails ex st current pages st' ->
  forall fuel request outputs previous l,
    (List.length pages < fuel)%nat ->
    morePages previous = true ->
    carryKey previous request = current ->
    rejectedOnScan current = false ->
    all_loop fuel self request outputs previous {| store := st; log := l |} =
    (Throw (HelpfulError ex (tableClass self) (sentRequest (failingRequest current pages))),
     {| store := st';
        log := l ++ callsFor current pages ++ [clientCall (failingRequest current pages)] |}).
Proof.
  induction 1 as [ st st' current Hcall
                 | st st1 st' current output rest Hcall Hmore _ IH ];
    intros fuel request outputs previous l Hfuel Hprevious Hcurrent Hok;
    (destruct fuel as [ | fuel ]; [ simpl in Hfuel; lia | ]);
    simpl; rewrite Hprevious, Hcurrent, (page_sent self _ _ Hok); simpl; rewrite Hcall.
  - reflexivity.
  - destruct (nextRequest_facts current output) as [_ [_ Hok']].
    rewrite (IH fuel (sentRequest current) _ _ (l ++ [clientCall current]));
      try assumption.
    + rewrite <- !app_assoc. reflexivity.
    + simpl in Hfuel. lia.
    + simpl. destruct (LastEvaluatedKey output); [ reflexivity | contradiction ].
    + apply carryKey_after.
Qed.

Lemma minimum_loop_fails (self : MagicSearch) (n : Z) (ex : JsValue)
    (pages : list DynamoOutput) (st : Store) (current : Input) (st' : Store) :
  ServesThenFails ex st current pages st' ->
  forall fuel request outputs previous count' l,
    staysBelow n count' pages ->
    (List.length pages < fuel)%nat ->
    morePages previous = true ->
    carryKey previous request = current ->
    rejectedOnScan current = false ->
    minimum_loop fuel self n request outputs previous count' {| store := st; log := l |} =
    (Throw (HelpfulError ex (tableClass self) (sentRequest (failingRequest current pages))),
     {| store := st';
        log := l ++ callsFor current pages ++ [clientCall (failingRequest current pages)] |}).
Proof.
  induction 1 as [ st st' current Hcall
                 | st st1 st' current output rest Hcall Hmore _ IH ];
    intros fuel request outputs previous count' l Hbelow Hfuel Hprevious Hcurrent Hok;
    (destruct fuel as [ | fuel ]; [ simpl in Hfuel; lia | ]);
    simpl; rewrite Hprevious, Hcurrent, (page_sent self _ _ Hok); simpl; rewrite Hcall.
  - reflexivity.
  - destruct Hbelow as [Hlt Hbelow].
    assert (Hgo : (count' + Count output >=? n)
                  || negb (notNull (LastEvaluatedKey output)) = false).
    { apply orb_false_iff. split.
      - destruct (count' + Count output >=? n) eqn:Hge; [ | reflexivity ].
        apply Z.geb_le in Hge. lia.
      - destruct (LastEvaluatedKey output); [ reflexivity | contradiction ]. }
    match goal with
    | |- (if ?c then _ else _) = _ => replace c with false by (symmetry; exact Hgo)
    end.
    destruct (nextRequest_facts current output) as [_ [_ Hok']].
    rewrite (IH fuel (sentRequest current) _ _ _ (l ++ [clientCall current]));
      try assumption.
    + rewrite <- !app_assoc. reflexivity.
    + simpl in Hfuel. lia.
    + simpl. destruct (LastEvaluatedKey output); [ reflexivity | contradiction ].
    + apply carryKey_after.
Qed.

(** C7 (amended). A fetch of a request with a key condition makes one query
    call; a fetch of a request without key condition makes one scan call,
    unless the request carries the descending flag, in which case the
    scan-direction error is thrown and no call is made.  When the call fails,
    the fetch throws the error wrapped with the table and the request that
    was sent.  In [exec], [minimum] and [all] a failing call ends the whole
    operation with that wrapped error and no result, whatever pages were
    fetched before, and the failing call is the last call made. *)
Theorem fetch_dispatch_and_failure (self : MagicSearch) :
  (forall request w,
     KeyConditionExpression request <> None ->
     page self request w =
     match dynamo (DynamoQuery request) (store w) with
     | (inr output, store') =>
         (Ok (fromDynamoOutput (tableClass self) output
                (notNull (ProjectionExpression request)), request),
          {| store := store'; log := log w ++ [DynamoQuery request] |})
     | (inl ex, store') =>
         (Throw (HelpfulError ex (tableClass self) request),
          {| store := store'; log := log w ++ [DynamoQuery request] |})
     end)
  /\
  (forall request w,
     KeyConditionExpression request = None ->
     ScanIndexForward request <> Some false ->
     page self request w =
     match dynamo (DynamoScan (set_ScanIndexForward None request)) (store w) with
     | (inr output, store') =>
         (Ok (fromDynamoOutput (tableClass self) output
                (notNull (ProjectionExpression request)),
              set_ScanIndexForward None request),
          {| store := store';
             log := log w ++ [DynamoScan (set_ScanIndexForward None request)] |})
     | (inl ex, store') =>
         (Throw (HelpfulError ex (tableClass self) (set_ScanIndexForward None request)),
          {| store := store';
             log := log w ++ [DynamoScan (set_ScanIndexForward None request)] |})
     end)
  /\
  (forall request w,
     KeyConditionExpression request = None ->
     ScanIndexForward request = Some false ->
     page self request w = (Throw (PlainError scanDirectionMessage), w))
  /\
  (forall request pages ex st st' l,
     getInput self = Ok request ->
     rejectedOnScan request = false ->
     ServesThenFails ex st request pages st' ->
     let failed : Res QueryOutput * World :=
       (Throw (HelpfulError ex (tableClass self)
                 (sentRequest (failingRequest request pages))),
        {| store := st';
           log := l ++ callsFor request pages ++
                  [clientCall (failingRequest request pages)] |}) in
     (forall fuel, (List.length pages < fuel)%nat ->
        all fuel self {| store := st; log := l |} = failed) /\
     (forall n fuel, staysBelow n 0 pages -> (List.length pages < fuel)%nat ->
        minimum fuel self n {| store := st; log := l |} = failed) /\
     (pages = [] -> exec self {| store := st; log := l |} = failed)).
Proof.
  split; [ | split; [ | split ] ].
  - intros request w. apply page_query.
  - intros request w. apply page_scan.
  - intros request w. apply page_rejects.
  - intros request pages ex st st' l Hrequest Hok Hfails failed.
    split; [ | split ].
    + intros fuel Hfuel. unfold all. rewrite Hrequest.
      pose proof (@all_loop_fails self ex pages st request st' Hfails fuel request []
                    None l Hfuel eq_refl eq_refl Hok) as Hloop.
      rewrite Hloop. reflexivity.
    + intros n fuel Hbelow Hfuel. unfold minimum. rewrite Hrequest.
      pose proof (@minimum_loop_fails self n ex pages st request st' Hfails fuel request
                    [] None 0 l Hbelow Hfuel eq_refl eq_refl Hok) as Hloop.
      rewrite Hloop. reflexivity.
    + intros ->. inversion Hfails as [ ? ? ? Hcall | ]; subst.
      unfold exec. rewrite Hrequest, (page_sent self _ _ Hok). simpl.
      rewrite Hcall. reflexivity.
Qed.

End Properties.

(* ===================================================================== *)
(** * The properties on the sample table *)
(* ===================================================================== *)

Lemma findAvailableIndex_priority_witness :
  findAvailableIndex userIdSearch = Some (IxPrimaryKey (primaryKey sampleSchema)) /\
  findAvailableIndex emailSearch = Some (IxGlobal byEmail) /\
  findAvailableIndex kindSearch =
    Some (IxGlobal (assignHash (pk_hash (primaryKey rangedSchema)) byKind)) /\
  findAvailableIndex statusSearch = None /\
  (forall request, getInput statusSearch = Ok request ->
     KeyConditionExpression request = None /\
     IndexName request = None /\
     clientCall request = DynamoScan (sentRequest request)).
Proof.
  split; [ | split; [ | split; [ | split ] ] ].
  - apply (proj1 (@findAvailableIndex_priority sampleCollaborators userIdSearch)).
    reflexivity.
  - destruct (@findAvailableIndex_priority sampleCollaborators emailSearch)
      as [_ [Hglobal _]].
    apply (Hglobal [byStatus] byEmail []); try reflexivity.
    intros i [<- | []]. reflexivity.
  - destruct (@findAvailableIndex_priority sampleCollaborators kindSearch)
      as [_ [_ [Hlocal _]]].
    apply (Hlocal [] byKind []); try reflexivity; intros i [].
  - destruct (@findAvailableIndex_priority sampleCollaborators statusSearch)
      as [_ [_ [_ Hnone]]].
    apply Hnone; try reflexivity.
    + intros i [<- | [<- | []]]; reflexivity.
    + intros i [<- | []]; reflexivity.
  - destruct (@findAvailableIndex_priority sampleCollaborators statusSearch)
      as [_ [_ [_ Hnone]]].
    apply Hnone; try reflexivity.
    + intros i [<- | [<- | []]]; reflexivity.
    + intros i [<- | []]; reflexivity.
    + intros query Hquery. injection Hquery as <-. reflexivity.
Defined.




Lemma sample_pages_served :
  Serves (None : @Store sampleCollaborators) statusRequest
    [samplePage 0; samplePage 10; samplePage 20] None.
Proof.
  apply Serves_cons with (st' := None); [ reflexivity | ].
  apply Serves_cons with (st' := None); [ reflexivity | ].
  apply Serves_cons with (st' := None); [ reflexivity | ].
  apply Serves_nil.
Defined.

Lemma sample_pages_exhaust :
  Exhausts [samplePage 0; samplePage 10; samplePage 20].
Proof.
  apply Exhausts_more; [ discriminate | ].
  apply Exhausts_more; [ discriminate | ].
  apply Exhausts_last. reflexivity.
Defined.

Lemma sample_pages_stop :
  StopsAfter 25 0 [samplePage 0; samplePage 10; samplePage 20].
Proof.
  apply StopsAfter_more; [ reflexivity | discriminate | ].
  apply StopsAfter_more; [ reflexivity | discriminate | ].
  apply StopsAfter_last. left. discriminate.
Defined.

Lemma minimum_fetches_until_enough_witness :
  (exists result,
     minimum 3 statusSearch 25 sampleWorld =
       (Ok result,
        {| store := None;
           log := callsFor statusRequest [samplePage 0; samplePage 10; samplePage 20] |}) /\
     List.length (qo_items result) = 30%nat /\
     qo_lastEvaluatedKey result = None /\
     List.length (callsFor statusRequest [samplePage 0; samplePage 10; samplePage 20]) = 3%nat) /\
  (minimum 3 statusSearch 25 sampleWorld =
     (Ok (fromSeveralOutputs sampleSchema
            (decoded sampleSchema statusRequest
               [samplePage 0; samplePage 10; samplePage 20])),
      {| store := None;
         log := [] ++ callsFor statusRequest [samplePage 0; samplePage 10; samplePage 20] |}) /\
   List.length (callsFor statusRequest [samplePage 0; samplePage 10; samplePage 20]) =
     List.length [samplePage 0; samplePage 10; samplePage 20] /\
   tokensCarried [samplePage 0; samplePage 10; samplePage 20]
     (callsFor statusRequest [samplePage 0; samplePage 10; samplePage 20])) /\
  (exists fetched rest st'',
     [samplePage 0; samplePage 10; samplePage 20] = fetched ++ rest /\
     StopsAfter 15 0 fetched /\
     forall fuel, (3 <= fuel)%nat ->
       minimum fuel statusSearch 15 sampleWorld =
         (Ok (fromSeveralOutputs sampleSchema (decoded sampleSchema statusRequest fetched)),
          {| store := st''; log := [] ++ callsFor statusRequest fetched |})).
Proof.
  split; [ | split ].
  - destruct (@minimum_fetches_until_enough sampleCollaborators statusSearch 25
                statusRequest None [] eq_refl eq_refl) as [_ [_ Hscenario]].
    apply (Hscenario (samplePage 0) (samplePage 10) (samplePage 20) None
             sample_pages_served);
      try reflexivity; try discriminate.
  - destruct (@minimum_fetches_until_enough sampleCollaborators statusSearch 25
                statusRequest None [] eq_refl eq_refl) as [Hfetched _].
    apply (Hfetched [samplePage 0; samplePage 10; samplePage 20] None
             sample_pages_served sample_pages_stop 3%nat).
    apply le_n.
  - destruct (@minimum_fetches_until_enough sampleCollaborators statusSearch 15
                statusRequest None [] eq_refl eq_refl) as [_ [Hevery _]].
    apply (Hevery [samplePage 0; samplePage 10; samplePage 20] None
             sample_pages_served sample_pages_exhaust).
Defined.

Lemma all_fetches_every_page_witness :
  exists result,
    all 3 statusSearch sampleWorld =
      (Ok result,
       {| store := None;
          log := callsFor statusRequest [samplePage 0; samplePage 10; samplePage 20] |}) /\
    qo_items result = sampleItems 30 0 /\
    qo_lastEvaluatedKey result = None.
Proof.
  destruct (@all_fetches_every_page sampleCollaborators statusSearch statusRequest
              [samplePage 0; samplePage 10; samplePage 20] None None []
              eq_refl eq_refl sample_pages_served sample_pages_exhaust 3%nat (le_n 3))
    as [result [Hall [_ [Hitems [Hkey _]]]]].
  exists result. split; [ exact Hall | ]. split; [ exact Hitems | exact Hkey ].
Defined.

Lemma descending_scan_is_rejected_witness :
  (exec (descending statusSearch) sampleWorld =
     (Throw (PlainError scanDirectionMessage), sampleWorld) /\
   (forall fuel n, minimum (S fuel) (descending statusSearch) n sampleWorld =
                   (Throw (PlainError scanDirectionMessage), sampleWorld)) /\
   (forall fuel, all (S fuel) (descending statusSearch) sampleWorld =
                 (Throw (PlainError scanDirectionMessage), sampleWorld))) /\
  (ScanIndexForward statusRequest = None /\
   exists result store',
     exec (ascending statusSearch) sampleWorld =
       (result, {| store := store'; log := log sampleWorld ++ [DynamoScan statusRequest] |}) /\
     result <> Throw (PlainError scanDirectionMessage)).
Proof.
  split.
  - destruct (@descending_scan_is_rejected sampleCollaborators (descending statusSearch)
                (set_ScanIndexForward (Some false) statusRequest) sampleWorld
                eq_refl eq_refl) as [Hdescending _].
    apply Hdescending. reflexivity.
  - destruct (@descending_scan_is_rejected sampleCollaborators (ascending statusSearch)
                statusRequest sampleWorld eq_refl eq_refl) as [_ [_ Hother]].
    apply Hother. discriminate.
Defined.

(** [ascending()] on a search that compiles to a scan: an explicit sort
    direction, no key condition, no error; the scan is sent. *)
Lemma ascending_scan_is_sent :
  rangeOrder (input (ascending statusSearch)) = Some ASC /\
  getInput (ascending statusSearch) = Ok statusRequest /\
  KeyConditionExpression statusRequest = None /\
  exec (ascending statusSearch) sampleWorld =
    (Ok (fromDynamoOutput sampleSchema (samplePage 0) false),
     {| store := None; log := [DynamoScan statusRequest] |}) /\
  ~ (forall (self : MagicSearch) (request : Input) (w : World),
       getInput self = Ok request ->
       KeyConditionExpression request = None ->
       rangeOrder (input self) <> None ->
       exists e, fst (exec self w) = Throw e).
Proof.
  split; [ reflexivity | ]. split; [ reflexivity | ]. split; [ reflexivity | ].
  split; [ reflexivity | ].
  intros Hclaim.
  destruct (Hclaim (ascending statusSearch) statusRequest sampleWorld eq_refl eq_refl)
    as [e He].
  - discriminate.
  - discriminate He.
Qed.

Lemma explicit_index_resolution_witness :
  getInput_indexMetadata (using_ (Some (IndexName_ "byEmail")) userIdSearch) =
    Ok (Some (IxGlobal byEmail)) /\
  (exists i, In i (localSecondaryIndexes sampleSchema) /\ lsi_name i = "byCreated" /\
     getInput_indexMetadata (using_ (Some (IndexName_ "byCreated")) userIdSearch) =
       Ok (Some (IxGlobal (assignHash {| name := "userId" |} i))) /\
     gsi_hash (assignHash {| name := "userId" |} i) = {| name := "userId" |}) /\
  getInput (using_ (Some (IndexName_ "byDate")) userIdSearch) =
    Throw (QueryError "Attempted to perform users.search using non-existent index byDate") /\
  findAvailableIndex (using_ (Some (IndexName_ "byEmail")) userIdSearch) =
    Some (IxPrimaryKey (primaryKey sampleSchema)) /\
  getInput_indexMetadata (using_ (Some (IndexObject (IxLocal byCreated))) userIdSearch) =
    Ok (Some (IxLocal byCreated)) /\
  getInput_indexMetadata
    (withFilters (using_ (Some (IndexName_ "byEmail")) userIdSearch) []) =
  getInput_indexMetadata (using_ (Some (IndexName_ "byEmail")) userIdSearch).
Proof.
  split; [ | split; [ | split; [ | split; [ | split ] ] ] ].
  - destruct (@explicit_index_resolution sampleCollaborators
                (using_ (Some (IndexName_ "byEmail")) userIdSearch)
                (IndexName_ "byEmail") eq_refl) as [_ [Hname _]].
    destruct (Hname "byEmail" eq_refl) as [Hglobal _].
    destruct Hglobal as [i [Hin [Hi Hresolved]]].
    + exists byEmail. split; [ right; left; reflexivity | reflexivity ].
    + rewrite Hresolved. destruct Hin as [<- | [<- | []]].
      * discriminate Hi.
      * reflexivity.
  - destruct (@explicit_index_resolution sampleCollaborators
                (using_ (Some (IndexName_ "byCreated")) userIdSearch)
                (IndexName_ "byCreated") eq_refl) as [_ [Hname _]].
    destruct (Hname "byCreated" eq_refl) as [_ [Hlocal _]].
    apply Hlocal.
    + intros i [<- | [<- | []]]; discriminate.
    + exists byCreated. split; [ left; reflexivity | reflexivity ].
  - destruct (@explicit_index_resolution sampleCollaborators
                (using_ (Some (IndexName_ "byDate")) userIdSearch)
                (IndexName_ "byDate") eq_refl) as [_ [Hname _]].
    destruct (Hname "byDate" eq_refl) as [_ [_ Hneither]].
    apply Hneither.
    + intros i [<- | [<- | []]]; discriminate.
    + intros i [<- | []]; discriminate.
  - reflexivity.
  - destruct (@explicit_index_resolution sampleCollaborators
                (using_ (Some (IndexObject (IxLocal byCreated))) userIdSearch)
                (IndexObject (IxLocal byCreated)) eq_refl) as [_ [_ Hobject]].
    apply Hobject. reflexivity.
  - destruct (@explicit_index_resolution sampleCollaborators
                (using_ (Some (IndexName_ "byEmail")) userIdSearch)
                (IndexName_ "byEmail") eq_refl) as [Hsame _].
    apply Hsame.
Defined.

Lemma sample_pages_then_failure :
  ServesThenFails (JStr "ProvisionedThroughputExceededException")
    (Some 20 : @Store sampleCollaborators) statusRequest
    [samplePage 0; samplePage 10] (Some 20).
Proof.
  apply Fails_later with (st' := Some 20); [ reflexivity | discriminate | ].
  apply Fails_later with (st' := Some 20); [ reflexivity | discriminate | ].
  apply Fails_now. reflexivity.
Defined.

Lemma fetch_dispatch_and_failure_witness :
  (all 3 statusSearch {| store := Some 20; log := [] |} =
     (Throw (HelpfulError (JStr "ProvisionedThroughputExceededException") sampleSchema
               (set_ExclusiveStartKey (Some [("id", JNum 20)]) statusRequest)),
      {| store := Some 20;
         log := [DynamoScan statusRequest;
                 DynamoScan (set_ExclusiveStartKey (Some [("id", JNum 10)]) statusRequest);
                 DynamoScan (set_ExclusiveStartKey (Some [("id", JNum 20)]) statusRequest)] |}) /\
   minimum 3 statusSearch 25 {| store := Some 20; log := [] |} =
     all 3 statusSearch {| store := Some 20; log := [] |}) /\
  exec statusSearch {| store := Some 0; log := [] |} =
    (Throw (HelpfulError (JStr "ProvisionedThroughputExceededException") sampleSchema
              statusRequest),
     {| store := Some 0; log := [DynamoScan statusRequest] |}) /\
  page statusSearch (set_ScanIndexForward (Some false) statusRequest) sampleWorld =
    (Throw (PlainError scanDirectionMessage), sampleWorld) /\
  page userIdSearch userIdRequest sampleWorld =
    (Ok (fromDynamoOutput sampleSchema (samplePage 0) false, userIdRequest),
     {| store := None; log := [DynamoQuery userIdRequest] |}) /\
  page statusSearch statusRequest sampleWorld =
    (Ok (fromDynamoOutput sampleSchema (samplePage 0) false, statusRequest),
     {| store := None; log := [DynamoScan statusRequest] |}).
Proof.
  destruct (@fetch_dispatch_and_failure sampleCollaborators statusSearch)
    as [_ [Hscan [Hrejected Hfailure]]].
  split; [ | split; [ | split; [ | split ] ] ].
  - destruct (Hfailure statusRequest [samplePage 0; samplePage 10]
                (JStr "ProvisionedThroughputExceededException") (Some 20) (Some 20) []
                eq_refl eq_refl sample_pages_then_failure) as [Hall [Hminimum _]].
    split.
    + apply (Hall 3%nat). apply le_n.
    + rewrite (Hall 3%nat (le_n 3)). apply (Hminimum 25 3%nat).
      * repeat split.
      * apply le_n.
  - destruct (Hfailure statusRequest []
                (JStr "ProvisionedThroughputExceededException") (Some 0) (Some 0) []
                eq_refl eq_refl) as [_ [_ Hexec]].
    + apply Fails_now. reflexivity.
    + apply Hexec. reflexivity.
  - apply Hrejected; reflexivity.
  - destruct (@fetch_dispatch_and_failure sampleCollaborators userIdSearch)
      as [Hquery _].
    rewrite (Hquery userIdRequest sampleWorld); [ reflexivity | discriminate ].
  - rewrite (Hscan statusRequest sampleWorld); [ reflexivity | reflexivity | discriminate ].
Defined.

(** A request without key condition that carries the descending flag: the
    fetch sends no scan. *)
Lemma flagged_scan_is_not_sent :
  KeyConditionExpression (set_ScanIndexForward (Some false) statusRequest) = None /\
  getInput (descending statusSearch) = Ok (set_ScanIndexForward (Some false) statusRequest) /\
  page (descending statusSearch) (set_ScanIndexForward (Some false) statusRequest)
    sampleWorld =
    (Throw (PlainError scanDirectionMessage), sampleWorld) /\
  log sampleWorld = [] /\
  ~ (forall (self : MagicSearch) (request : Input) (w : World),
       KeyConditionExpression request = None ->
       exists sent, log (snd (page self request w)) = log w ++ [DynamoScan sent]).
Proof.
  split; [ reflexivity | ]. split; [ reflexivity | ]. split; [ reflexivity | ].
  split; [ reflexivity | ].
  intros Hclaim.
  destruct (Hclaim (descending statusSearch)
              (set_ScanIndexForward (Some false) statusRequest) sampleWorld eq_refl)
    as [sent Hsent].
  discriminate Hsent.
Qed.

Lemma count_discards_projection_witness :
  getInput (count (setAttributes ["email"] statusSearch)) =
    Ok (set_ExpressionAttributeNames (Some [("#a0", "a0")])
          (set_Select (Some COUNT) statusRequest)) /\
  ProjectionExpression
    (set_ExpressionAttributeNames (Some [("#a0", "a0")])
       (set_Select (Some COUNT) statusRequest)) = None.
Proof.
  destruct (@count_discards_projection sampleCollaborators
              (setAttributes ["email"] statusSearch)) as [_ [_ Hcount]].
  destruct (@count_discards_projection sampleCollaborators
              (count (setAttributes ["email"] statusSearch))) as [Hflag _].
  split.
  - rewrite (Hcount _ eq_refl). reflexivity.
  - apply (Hflag _ eq_refl eq_refl).
Defined.

Lemma and_is_noop_witness :
  chain [CallFilter ["status"] (JStr "active"); CallAnd; CallGroup [CallAnd; CallOr];
         CallDescending] (newMagicSearch sampleSchema None emptyInput) =
  chain [CallFilter ["status"] (JStr "active"); CallGroup [CallOr];
         CallDescending] (newMagicSearch sampleSchema None emptyInput).
Proof.
  destruct (@and_is_noop sampleCollaborators) as [_ Hinsert].
  transitivity
    (chain [CallFilter ["status"] (JStr "active"); CallAnd; CallGroup [CallOr];
            CallDescending] (newMagicSearch sampleSchema None emptyInput)).
  - apply Hinsert. apply InsertAnd_later. apply InsertAnd_later.
    apply InsertAnd_group. apply InsertAnd_here.
  - apply Hinsert. apply InsertAnd_later. apply InsertAnd_here.
Defined.

(* ===================================================================== *)
(** * Further properties of search.ts *)
(* ===================================================================== *)

Section Builder.

Context {collaborators : Collaborators}.

Lemma applyCall_extends (call : BuilderCall) (self self' : MagicSearch) :
  applyCall call self = Ok self' ->
  tableClass self' = tableClass self /\
  exists added, filters self' = filters self ++ added.
Proof.
  destruct call; try rewrite applyCall_group; try rewrite applyCall_parenthesis;
    simpl; unfold properties, parenthesis, group; intros H;
    repeat match type of H with
           | match ?x with _ => _ end = _ => destruct x; try discriminate
           end;
    injection H as <-; simpl; split; try reflexivity;
    try (eexists; reflexivity);
    exists []; rewrite app_nil_r; reflexivity.
Qed.

(** X1. A chain of builder calls that completes keeps the table of the
    builder and only appends to its filter list: the entries that were there
    stay, in place and unchanged. *)
Theorem chain_extends_filters (calls : list BuilderCall) (self self' : MagicSearch) :
  chain calls self = Ok self' ->
  tableClass self' = tableClass self /\
  exists added, filters self' = filters self ++ added.
Proof.
  revert self. induction calls as [ | call rest IH ]; intros self Hchain.
  - injection Hchain as <-. split; [ reflexivity | ].
    exists []. rewrite app_nil_r. reflexivity.
  - simpl in Hchain. destruct (applyCall call self) as [middle | e | ] eqn:Hcall;
      try discriminate.
    destruct (applyCall_extends _ _ Hcall) as [Htable [added Hadded]].
    destruct (IH _ Hchain) as [Htable' [added' Hadded']].
    split; [ congruence | ].
    exists (added ++ added'). rewrite Hadded', Hadded, app_assoc. reflexivity.
Qed.

(** X2. The two halves of the builder do not interfere: a call that builds
    the filter tree ([addFilterGroup], [filter], [where], [group],
    [parenthesis], [or], [and]) leaves the request options as they were, and
    every other call ([limit], [startAt], [properties], [attributes],
    [count], [consistent], [using], [sort], [ascending], [descending])
    leaves the filter tree as it was. *)
Theorem builder_calls_frame (call : BuilderCall) (self self' : MagicSearch) :
  applyCall call self = Ok self' ->
  (buildsFilters call = true -> input self' = input self) /\
  (buildsFilters call = false -> filters self' = filters self).
Proof.
  destruct call; try rewrite applyCall_group; try rewrite applyCall_parenthesis;
    simpl; unfold properties, parenthesis, group; intros H;
    repeat match type of H with
           | match ?x with _ => _ end = _ => destruct x; try discriminate
           end;
    injection H as <-; split; intros Hkind; try discriminate Hkind; reflexivity.
Qed.

(** X4. Attribute names accumulate over calls: [attributes] appends to the
    names given before (starting the list when there was none), two calls
    amount to one call with both lists, and [properties] amounts to
    [attributes] on the attribute names the schema gives for the property
    names; when the schema knows none of a property name, [properties]
    throws and nothing is recorded. *)
Theorem attributes_accumulate (self : MagicSearch) (names names' : list string) :
  attributes (input (setAttributes names self)) =
    Some (match attributes (input self) with
          | Some before => before ++ names
          | None => names
          end) /\
  setAttributes names' (setAttributes names self) = setAttributes (names ++ names') self /\
  (forall attributeNames,
     attributeNamesOf (tableClass self) names = Ok attributeNames ->
     properties names self = Ok (setAttributes attributeNames self)) /\
  (forall e,
     attributeNamesOf (tableClass self) names = Throw e ->
     properties names self = Throw e).
Proof.
  split; [ | split; [ | split ] ].
  - unfold setAttributes, concatAttributes. simpl.
    destruct (attributes (input self)); reflexivity.
  - unfold setAttributes, concatAttributes, withInput. simpl.
    destruct (attributes (input self)); rewrite <- app_assoc; reflexivity.
  - intros attributeNames Hnames. unfold properties. rewrite Hnames. reflexivity.
  - intros e Hthrow. unfold properties. rewrite Hthrow. reflexivity.
Qed.

End Builder.

Section Selection.

Context {collaborators : Collaborators}.

Lemma for_of_inversion {A B : Type} (body : A -> LoopStep B) (l : list A) (after b : B) :
  for_of body l after = b ->
  (exists x, In x l /\ body x = Return b) \/ b = after.
Proof.
  induction l as [ | x rest IH ]; simpl; intros H.
  - right. symmetry. exact H.
  - destruct (body x) as [ | b' ] eqn:Hx.
    + destruct (IH H) as [[y [Hin Hy]] | Hafter].
      * left. exists y. split; [ right; exact Hin | exact Hy ].
      * right. exact Hafter.
    + subst b'. left. exists x. split; [ left; reflexivity | exact Hx ].
Qed.

Lemma checkFilters_app (self : MagicSearch) (added : ComplexFilters)
    (hash : Attribute) (range : option Attribute) :
  checkFilters self hash range = true ->
  checkFilters (withFilters self (filters self ++ added)) hash range = true.
Proof.
  rewrite !checkFilters_existsb. simpl. rewrite existsb_app.
  intros ->. reflexivity.
Qed.

Lemma findAvailableIndex_cases (self : MagicSearch) (metadata : IndexMetadata) :
  findAvailableIndex self = Some metadata ->
  let pk := primaryKey (tableClass self) in
  (metadata = IxPrimaryKey pk /\
   checkFilters self (pk_hash pk) (pk_range pk) = true) \/
  (exists index', metadata = IxGlobal index' /\
     In index' (globalSecondaryIndexes (tableClass self)) /\
     globalMatches self index' = true) \/
  (exists index', metadata = IxGlobal (assignHash (pk_hash pk) index') /\
     In index' (localSecondaryIndexes (tableClass self)) /\
     localMatches self index' = true).
Proof.
  intros Hfound pk. unfold findAvailableIndex in Hfound. fold pk in Hfound.
  destruct (checkFilters self (pk_hash pk) (pk_range pk)) eqn:Hpk.
  - injection Hfound as <-. left. split; reflexivity.
  - right. apply for_of_inversion in Hfound.
    destruct Hfound as [[index' [Hin Hbody]] | Hlocal].
    + left. exists index'. unfold globalMatches.
      destruct (isIncludeOrKeysOnly (gsi_projection index')); [ discriminate | ].
      destruct (checkFilters self (gsi_hash index') (gsi_range index'));
        [ | discriminate ].
      injection Hbody as <-. repeat split. exact Hin.
    + right. symmetry in Hlocal. apply for_of_inversion in Hlocal.
      destruct Hlocal as [[index' [Hin Hbody]] | Hnone]; [ | discriminate ].
      exists index'. unfold localMatches. fold pk.
      destruct (isIncludeOrKeysOnly (lsi_projection index')); [ discriminate | ].
      destruct (checkFilters self (pk_hash pk) (Some (lsi_range index')));
        [ | discriminate ].
      injection Hbody as <-. repeat split. exact Hin.
Qed.

(** X5. Automatic selection only returns an index the filters can use: the
    result is the primary key, a global secondary index of the catalog, or a
    local secondary index of the catalog under the hash of the table, never
    one projected INCLUDE or KEYS_ONLY; and, when the key attributes of the
    catalog have ordinary names, some single top-level group holds an
    eligible condition on its hash attribute and, when it has a range
    attribute, on its range attribute.  With an empty filter tree no index is
    returned. *)
Theorem findAvailableIndex_sound (self : MagicSearch) :
  (forall metadata, findAvailableIndex self = Some metadata ->
     let pk := primaryKey (tableClass self) in
     (metadata = IxPrimaryKey pk \/
      (exists index', metadata = IxGlobal index' /\
         In index' (globalSecondaryIndexes (tableClass self)) /\
         isIncludeOrKeysOnly (gsi_projection index') = false) \/
      (exists index', metadata = IxGlobal (assignHash (pk_hash pk) index') /\
         In index' (localSecondaryIndexes (tableClass self)) /\
         isIncludeOrKeysOnly (lsi_projection index') = false)) /\
     (ordinaryKeys (tableClass self) = true ->
      exists hash group,
        hashOf metadata = Some hash /\
        In (EFilters group) (filters self) /\
        keyEligible group hash = true /\
        (forall range, rangeOf metadata = Some range -> keyEligible group range = true)))
  /\
  (filters self = [] -> findAvailableIndex self = None).
Proof.
  split.
  - intros metadata Hfound pk.
    destruct (findAvailableIndex_cases _ Hfound)
      as [[-> Hcheck] | [[index' [-> [Hin Hmatch]]] | [index' [-> [Hin Hmatch]]]]];
      fold pk in Hcheck || fold pk; fold pk.
    + split; [ left; reflexivity | ]. intros Hkeys.
      pose proof (ordinaryKeys_primary _ Hkeys) as Hpk. fold pk in Hpk.
      apply (@checkFilters_true_iff _ _ _ (pk_range pk) Hpk) in Hcheck.
      destruct Hcheck as [group [Hg Hq]].
      apply groupQualifies_true in Hq. destruct Hq as [Hh Hr].
      exists (pk_hash pk), group. repeat split; assumption.
    + unfold globalMatches in Hmatch. apply andb_true_iff in Hmatch.
      destruct Hmatch as [Hproj Hcheck]. apply negb_true_iff in Hproj.
      split; [ right; left; exists index'; repeat split; assumption | ].
      intros Hkeys.
      apply (@checkFilters_true_iff _ _ _ (gsi_range index')
               (ordinaryKeys_global _ _ Hkeys Hin)) in Hcheck.
      destruct Hcheck as [group [Hg Hq]].
      apply groupQualifies_true in Hq. destruct Hq as [Hh Hr].
      exists (gsi_hash index'), group. repeat split; assumption.
    + unfold localMatches in Hmatch. fold pk in Hmatch.
      apply andb_true_iff in Hmatch.
      destruct Hmatch as [Hproj Hcheck]. apply negb_true_iff in Hproj.
      split; [ right; right; exists index'; repeat split; assumption | ].
      intros Hkeys.
      pose proof (ordinaryKeys_primary _ Hkeys) as Hpk. fold pk in Hpk.
      apply (@checkFilters_true_iff _ _ _ (Some (lsi_range index')) Hpk) in Hcheck.
      destruct Hcheck as [group [Hg Hq]].
      apply groupQualifies_true in Hq. destruct Hq as [Hh Hr].
      exists (pk_hash pk), group. repeat split; assumption.
  - intros Hempty. destruct (findAvailableIndex self) as [metadata | ] eqn:Hfound;
      [ | reflexivity ].
    exfalso.
    assert (Hfalse : forall hash range, checkFilters self hash range = false).
    { intros hash range. rewrite checkFilters_existsb, Hempty. reflexivity. }
    destruct (findAvailableIndex_cases _ Hfound)
      as [[_ Hcheck] | [[index' [_ [_ Hmatch]]] | [index' [_ [_ Hmatch]]]]].
    + rewrite Hfalse in Hcheck. discriminate.
    + unfold globalMatches in Hmatch. rewrite Hfalse, andb_false_r in Hmatch.
      discriminate.
    + unfold localMatches in Hmatch. rewrite Hfalse, andb_false_r in Hmatch.
      discriminate.
Qed.

Lemma for_of_eq_None {A B : Type} (body : A -> LoopStep (option B)) (l : list A)
    (after : option B) :
  (forall x, body x <> Return None) ->
  for_of body l after = None ->
  (forall x, In x l -> body x = Continue) /\ after = None.
Proof.
  intros Hsome. induction l as [ | x rest IH ]; simpl; intros H.
  - split; [ intros x [] | exact H ].
  - destruct (body x) as [ | b ] eqn:Hx.
    + destruct (IH H) as [Hrest Hafter]. split; [ | exact Hafter ].
      intros y [<- | Hy]; [ exact Hx | apply Hrest, Hy ].
    + subst b. exfalso. exact (Hsome x Hx).
Qed.

Lemma findAvailableIndex_None_iff (self : MagicSearch) :
  let pk := primaryKey (tableClass self) in
  findAvailableIndex self = None <->
  checkFilters self (pk_hash pk) (pk_range pk) = false /\
  (forall index', In index' (globalSecondaryIndexes (tableClass self)) ->
                  globalMatches self index' = false) /\
  (forall index', In index' (localSecondaryIndexes (tableClass self)) ->
                  localMatches self index' = false).
Proof.
  intros pk. unfold findAvailableIndex, globalMatches, localMatches. fold pk. split.
  - intros Hnone.
    destruct (checkFilters self (pk_hash pk) (pk_range pk)); [ discriminate | ].
    split; [ reflexivity | ].
    apply for_of_eq_None in Hnone.
    + destruct Hnone as [Hglobal Hlocal]. apply for_of_eq_None in Hlocal.
      * destruct Hlocal as [Hlocal _]. split.
        -- intros index' Hin. specialize (Hglobal index' Hin).
           destruct (isIncludeOrKeysOnly (gsi_projection index')); [ reflexivity | ].
           destruct (checkFilters self (gsi_hash index') (gsi_range index'));
             [ discriminate | reflexivity ].
        -- intros index' Hin. specialize (Hlocal index' Hin).
           destruct (isIncludeOrKeysOnly (lsi_projection index')); [ reflexivity | ].
           destruct (checkFilters self (pk_hash pk) (Some (lsi_range index')));
             [ discriminate | reflexivity ].
      * intros index'.
        destruct (isIncludeOrKeysOnly (lsi_projection index')); [ discriminate | ].
        destruct (checkFilters self (pk_hash pk) (Some (lsi_range index')));
          discriminate.
    + intros index'.
      destruct (isIncludeOrKeysOnly (gsi_projection index')); [ discriminate | ].
      destruct (checkFilters self (gsi_hash index') (gsi_range index'));
        discriminate.
  - intros [Hpk [Hglobal Hlocal]]. rewrite Hpk.
    rewrite for_of_all_continue.
    + apply for_of_all_continue. intros index' Hin. specialize (Hlocal index' Hin).
      destruct (isIncludeOrKeysOnly (lsi_projection index')); [ reflexivity | ].
      simpl in Hlocal. rewrite Hlocal. reflexivity.
    + intros index' Hin. specialize (Hglobal index' Hin).
      destruct (isIncludeOrKeysOnly (gsi_projection index')); [ reflexivity | ].
      simpl in Hglobal. rewrite Hglobal. reflexivity.
Qed.

Lemma checkFilters_false_before (self : MagicSearch) (added : ComplexFilters)
    (hash : Attribute) (range : option Attribute) :
  checkFilters (withFilters self (filters self ++ added)) hash range = false ->
  checkFilters self hash range = false.
Proof.
  intros Hafter. destruct (checkFilters self hash range) eqn:Hbefore; [ | reflexivity ].
  rewrite (checkFilters_app self added _ _ Hbefore) in Hafter. discriminate.
Qed.

(** X6. Further builder calls never take an index away: after any chain of
    calls that completes, every index check that passed still passes, a
    builder for which automatic selection chose the primary key still gets
    the primary key, and a builder for which it found some index still gets
    one. *)
Theorem selection_survives_chain (calls : list BuilderCall) (self self' : MagicSearch) :
  chain calls self = Ok self' ->
  (forall hash range,
     checkFilters self hash range = true -> checkFilters self' hash range = true) /\
  (forall pk, findAvailableIndex self = Some (IxPrimaryKey pk) ->
              findAvailableIndex self' = Some (IxPrimaryKey pk)) /\
  (findAvailableIndex self <> None -> findAvailableIndex self' <> None).
Proof.
  intros Hchain.
  destruct (chain_extends_filters _ _ Hchain) as [Htable [added Hadded]].
  assert (Hsame : forall hash range,
            checkFilters self' hash range =
            checkFilters (withFilters self (filters self ++ added)) hash range).
  { intros hash range. rewrite !checkFilters_existsb, Hadded. reflexivity. }
  assert (Hkeeps : forall hash range,
            checkFilters self hash range = true -> checkFilters self' hash range = true).
  { intros hash range Hcheck. rewrite Hsame. apply checkFilters_app. exact Hcheck. }
  split; [ exact Hkeeps | ]. split.
  - intros pk Hfound.
    destruct (findAvailableIndex_cases _ Hfound)
      as [[Hpk Hcheck] | [[index' [Heq _]] | [index' [Heq _]]]]; try discriminate.
    injection Hpk as ->.
    unfold findAvailableIndex. rewrite Htable, (Hkeeps _ _ Hcheck). reflexivity.
  - intros Hsome Hnone. apply Hsome.
    apply findAvailableIndex_None_iff in Hnone. rewrite Htable in Hnone.
    destruct Hnone as [Hpk [Hglobal Hlocal]].
    apply findAvailableIndex_None_iff. split; [ | split ].
    + apply checkFilters_false_before with (added := added). rewrite <- Hsame.
      exact Hpk.
    + intros index' Hin. specialize (Hglobal index' Hin). unfold globalMatches in *.
      destruct (isIncludeOrKeysOnly (gsi_projection index')); [ reflexivity | ].
      simpl in *. apply checkFilters_false_before with (added := added).
      rewrite <- Hsame. exact Hglobal.
    + intros index' Hin. specialize (Hlocal index' Hin). unfold localMatches in *.
      rewrite Htable in Hlocal.
      destruct (isIncludeOrKeysOnly (lsi_projection index')); [ reflexivity | ].
      simpl in *. apply checkFilters_false_before with (added := added).
      rewrite <- Hsame. exact Hlocal.
Qed.

End Selection.

Section Compilation.

Context {collaborators : Collaborators}.

Lemma getInput_projection_keeps_options (self : MagicSearch) (request request' : Input) :
  getInput_projection self request = Ok request' ->
  TableName request' = TableName request /\
  ConsistentRead request' = ConsistentRead request /\
  Limit request' = Limit request /\
  ExclusiveStartKey request' = ExclusiveStartKey request.
Proof.
  unfold getInput_projection. intros H.
  destruct (projectionExpression (input self)).
  - injection H as <-. repeat split.
  - destruct (attributes (input self)).
    + destruct (buildProjectionExpression _ _ _); try discriminate.
      injection H as <-. repeat split.
    + injection H as <-. repeat split.
Qed.

Lemma getInput_options_passes (self : MagicSearch)
    (indexMetadata : option IndexMetadata) (query : QueryExpression) (request : Input) :
  TableName (getInput_options self indexMetadata query request) = TableName request /\
  ConsistentRead (getInput_options self indexMetadata query request) =
    match consistent (input self) with
    | Some c => Some c
    | None => ConsistentRead request
    end /\
  Limit (getInput_options self indexMetadata query request) =
    match limit (input self) with
    | Some l => Some l
    | None => Limit request
    end /\
  ExclusiveStartKey (getInput_options self indexMetadata query request) =
    match exclusiveStartKey (input self) with
    | Some k => Some k
    | None => ExclusiveStartKey request
    end.
Proof.
  unfold getInput_options.
  destruct (rangeOrder (input self)) as [ [ | ] | ];
    destruct (limit (input self));
    destruct (exclusiveStartKey (input self));
    destruct (consistent (input self));
    destruct indexMetadata as [ metadata | ];
    try destruct (indexNameOf metadata);
    destruct (returnOnlyCount (input self)) as [ [ | ] | ];
    destruct (qe_KeyConditionExpression query);
    destruct request as [tn cr ean eav fe [pe | ] sel sif lim esk ixn kce];
    repeat split.
Qed.

(** X7. The request [getInput] compiles always names the table of the
    schema and always carries a consistency flag, false unless
    [consistent] was set; the limit and the start key of the options pass
    through unchanged; the direction flag is false for a descending order and
    absent otherwise, never true. *)
Theorem getInput_passes_options (self : MagicSearch) (request : Input) :
  getInput self = Ok request ->
  TableName request = schema_name (tableClass self) /\
  ConsistentRead request =
    Some (match consistent (input self) with
          | Some c => c
          | None => false
          end) /\
  Limit request = limit (input self) /\
  ExclusiveStartKey request = exclusiveStartKey (input self) /\
  ScanIndexForward request =
    match rangeOrder (input self) with
    | Some DESC => Some false
    | _ => None
    end /\
  ScanIndexForward request <> Some true.
Proof.
  intros Hrequest.
  destruct (getInput_inversion _ Hrequest)
    as [indexMetadata [query [request' [_ [_ [Hprojection ->]]]]]].
  destruct (getInput_projection_keeps_options _ _ Hprojection)
    as [Htable [Hconsistent [Hlimit Hstart]]].
  destruct (getInput_projection_keeps _ _ Hprojection) as [_ [_ Hdirection]].
  destruct (getInput_options_passes self indexMetadata query request')
    as [-> [-> [-> ->]]].
  rewrite getInput_options_ScanIndexForward.
  rewrite Htable, Hconsistent, Hlimit, Hstart, Hdirection. simpl.
  split; [ reflexivity | ].
  split; [ destruct (consistent (input self)); reflexivity | ].
  split; [ destruct (limit (input self)); reflexivity | ].
  split; [ destruct (exclusiveStartKey (input self)); reflexivity | ].
  split; destruct (rangeOrder (input self)) as [ [ | ] | ];
    try reflexivity; discriminate.
Qed.

(** X8. The compiled request names the index it is meant for: no index
    name when automatic selection finds nothing or chooses the primary key,
    the name of the global or local secondary index when it chooses one, and
    exactly the given name when the caller names an index that exists. *)
Theorem getInput_names_index (self : MagicSearch) (request : Input) :
  getInput self = Ok request ->
  (index (input self) = None ->
   IndexName request =
   match findAvailableIndex self with
   | Some (IxGlobal index') => Some (gsi_name index')
   | _ => None
   end) /\
  (forall indexName, index (input self) = Some (IndexName_ indexName) ->
                     IndexName request = Some indexName).
Proof.
  intros Hrequest.
  destruct (getInput_inversion _ Hrequest)
    as [indexMetadata [query [request' [Hindex [_ [Hprojection ->]]]]]].
  destruct (getInput_projection_keeps _ _ Hprojection) as [_ [Hname _]].
  rewrite getInput_options_IndexName, Hname. simpl. split.
  - intros Hauto. unfold getInput_indexMetadata in Hindex. rewrite Hauto in Hindex.
    injection Hindex as <-.
    destruct (findAvailableIndex self) as [metadata | ] eqn:Hfound; [ | reflexivity ].
    destruct (findAvailableIndex_cases _ Hfound)
      as [[-> _] | [[index' [-> _]] | [index' [-> _]]]]; reflexivity.
  - intros indexName Hnamed.
    rewrite (getInput_indexMetadata_by_name self Hnamed) in Hindex.
    pose proof (findGlobalByName_cases indexName
                  (globalSecondaryIndexes (tableClass self)) None) as Hg.
    pose proof (findLocalByName_cases (pk_hash (primaryKey (tableClass self))) indexName
                  (localSecondaryIndexes (tableClass self)) None) as Hl.
    simpl in Hg, Hl.
    fold (findGlobalByName indexName (globalSecondaryIndexes (tableClass self))) in Hg.
    fold (findLocalByName (pk_hash (primaryKey (tableClass self))) indexName
            (localSecondaryIndexes (tableClass self))) in Hl.
    destruct Hg as [[Hfound _] | [i [_ [Hi Hfound]]]]; rewrite Hfound in Hindex.
    + destruct Hl as [[Hfound' _] | [i [_ [Hi Hfound']]]]; rewrite Hfound' in Hindex.
      * discriminate.
      * injection Hindex as <-. simpl. rewrite Hi. reflexivity.
    + injection Hindex as <-. simpl. rewrite Hi. reflexivity.
Qed.

(** X9. A projection expression given in the options wins over attribute
    names: with one, [attributes] calls change nothing in the compiled
    request, the request carries that expression and, unless the count was
    asked for, no Select.  With attribute names only, the request selects
    SPECIFIC_ATTRIBUTES (COUNT when the count was asked for). *)
Theorem projection_expression_wins (self : MagicSearch) :
  (forall expression names,
     projectionExpression (input self) = Some expression ->
     getInput (setAttributes names self) = getInput self)
  /\
  (forall expression request,
     projectionExpression (input self) = Some expression ->
     returnOnlyCount (input self) <> Some true ->
     getInput self = Ok request ->
     ProjectionExpression request = Some expression /\ Select request = None)
  /\
  (forall names request,
     projectionExpression (input self) = None ->
     attributes (input self) = Some names ->
     getInput self = Ok request ->
     Select request =
       Some (match returnOnlyCount (input self) with
             | Some true => COUNT
             | _ => SPECIFIC_ATTRIBUTES
             end)).
Proof.
  split; [ | split ].
  - intros expression names Hexpression.
    unfold getInput, getInput_projection, getInput_options.
    change (getInput_indexMetadata (setAttributes names self))
      with (getInput_indexMetadata self).
    simpl. rewrite Hexpression. reflexivity.
  - intros expression request Hexpression Hcount Hrequest.
    destruct (getInput_inversion _ Hrequest)
      as [indexMetadata [query [request' [_ [_ [Hprojection ->]]]]]].
    unfold getInput_projection in Hprojection. rewrite Hexpression in Hprojection.
    injection Hprojection as <-. unfold getInput_options.
    destruct (rangeOrder (input self)) as [ [ | ] | ];
      destruct (limit (input self));
      destruct (exclusiveStartKey (input self));
      destruct (consistent (input self));
      destruct indexMetadata as [ metadata | ];
      try destruct (indexNameOf metadata);
      destruct (returnOnlyCount (input self)) as [ [ | ] | ];
      destruct (qe_KeyConditionExpression query);
      try (exfalso; apply Hcount; reflexivity);
      split; reflexivity.
  - intros names request Hexpression Hnames Hrequest.
    destruct (getInput_inversion _ Hrequest)
      as [indexMetadata [query [request' [_ [_ [Hprojection ->]]]]]].
    unfold getInput_projection in Hprojection.
    rewrite Hexpression, Hnames in Hprojection.
    destruct (buildProjectionExpression _ _ _) as [result | | ]; try discriminate.
    injection Hprojection as <-. unfold getInput_options.
    destruct (rangeOrder (input self)) as [ [ | ] | ];
      destruct (limit (input self));
      destruct (exclusiveStartKey (input self));
      destruct (consistent (input self));
      destruct indexMetadata as [ metadata | ];
      try destruct (indexNameOf metadata);
      destruct (returnOnlyCount (input self)) as [ [ | ] | ];
      destruct (qe_KeyConditionExpression query);
      destruct (pe_ProjectionExpression result);
      reflexivity.
Qed.

(** X10. [getInput] throws on its own account only for a named index that
    the catalog does not hold; any other exception it throws comes out of
    the expression compiler or the projection builder. *)
Theorem getInput_throws_only (self : MagicSearch) (e : Error) :
  getInput self = Throw e ->
  (exists indexName,
     index (input self) = Some (IndexName_ indexName) /\
     e = QueryError (nonExistentIndexMessage (tableClass self) indexName) /\
     (forall i, In i (globalSecondaryIndexes (tableClass self)) ->
                gsi_name i <> indexName) /\
     (forall i, In i (localSecondaryIndexes (tableClass self)) ->
                lsi_name i <> indexName))
  \/
  (exists indexMetadata,
     getInput_indexMetadata self = Ok indexMetadata /\
     buildQueryExpression (tableClass self) (filters self) indexMetadata = Throw e)
  \/
  (exists names existing,
     projectionExpression (input self) = None /\
     attributes (input self) = Some names /\
     buildProjectionExpression (tableClass self) names existing = Throw e).
Proof.
  unfold getInput. intros Hthrow.
  destruct (getInput_indexMetadata self) as [indexMetadata | e' | ] eqn:Hindex;
    try discriminate.
  - destruct (buildQueryExpression _ _ _) as [query | e' | ] eqn:Hquery;
      try discriminate.
    + right. right. unfold getInput_projection in Hthrow.
      destruct (projectionExpression (input self)); [ discriminate | ].
      destruct (attributes (input self)) as [names | ]; [ | discriminate ].
      destruct (buildProjectionExpression _ _ _) as [result | e' | ] eqn:Hbuild;
        try discriminate.
      injection Hthrow as ->. exists names. eexists. repeat split. exact Hbuild.
    + injection Hthrow as ->. right. left. exists indexMetadata.
      split; [ reflexivity | exact Hquery ].
  - injection Hthrow as ->. left.
    unfold getInput_indexMetadata in Hindex.
    destruct (index (input self)) as [ [indexName | metadata] | ] eqn:Hexplicit;
      try discriminate.
    exists indexName. split; [ reflexivity | ].
    pose proof (findGlobalByName_cases indexName
                  (globalSecondaryIndexes (tableClass self)) None) as Hg.
    pose proof (findLocalByName_cases (pk_hash (primaryKey (tableClass self))) indexName
                  (localSecondaryIndexes (tableClass self)) None) as Hl.
    simpl in Hg, Hl.
    fold (findGlobalByName indexName (globalSecondaryIndexes (tableClass self))) in Hg.
    fold (findLocalByName (pk_hash (primaryKey (tableClass self))) indexName
            (localSecondaryIndexes (tableClass self))) in Hl.
    destruct Hg as [[Hfound Hnone] | [i [_ [_ Hfound]]]]; rewrite Hfound in Hindex;
      [ | discriminate ].
    destruct Hl as [[Hfound' Hnone'] | [i [_ [_ Hfound']]]]; rewrite Hfound' in Hindex;
      [ | discriminate ].
    injection Hindex as <-. repeat split; assumption.
Qed.

End Compilation.

Section Paging.

Context {collaborators : Collaborators}.








Lemma StopsAfter_of_below (n : Z) (pages : list DynamoOutput) :
  Exhausts pages ->
  forall count', staysBelow n count' pages -> StopsAfter n count' pages.
Proof.
  induction 1 as [ output Hlast | output rest Hmore _ IH ]; intros count' Hbelow.
  - apply StopsAfter_last. right. exact Hlast.
  - destruct Hbelow as [Hlt Hbelow].
    apply StopsAfter_more; [ exact Hlt | exact Hmore | apply IH, Hbelow ].
Qed.

(** X13. When the accumulated count stays below [n] on every page of a
    store that runs out, [minimum(n)] does what [all()] does: the same
    result, the same calls. *)
Theorem minimum_is_all_when_short (self : MagicSearch) (n : Z) (request : Input)
    (pages : list DynamoOutput) (st st' : Store) (l : list DynamoCall) :
  getInput self = Ok request ->
  rejectedOnScan request = false ->
  Serves st request pages st' ->
  Exhausts pages ->
  staysBelow n 0 pages ->
  forall fuel, (List.length pages <= fuel)%nat ->
    minimum fuel self n {| store := st; log := l |} =
    all fuel self {| store := st; log := l |}.
Proof.
  intros Hrequest Hok Hserves Hexhausts Hbelow fuel Hfuel.
  pose proof (@StopsAfter_of_below n pages Hexhausts 0 Hbelow) as Hstops.
  unfold minimum, all. rewrite Hrequest.
  pose proof (@minimum_loop_stops _ self n pages 0 Hstops fuel request [] None st st' l
                Hfuel eq_refl Hok Hserves) as Hminimum.
  pose proof (@all_loop_exhausts _ self pages Hexhausts fuel request [] None st st' l
                Hfuel eq_refl Hok Hserves) as Hall.
  simpl in Hminimum, Hall. rewrite Hminimum, Hall. reflexivity.
Qed.

(** X14. When the first page already holds [n] by its count, or carries no
    continuation token, [minimum(n)] makes the one call [exec()] makes and
    returns that page, merged on its own. *)
Theorem minimum_one_page (self : MagicSearch) (n : Z) (w w' : World) (p : QueryOutput) :
  exec self w = (Ok p, w') ->
  qo_count p >= n \/ qo_lastEvaluatedKey p = None ->
  forall fuel,
    minimum (S fuel) self n w = (Ok (fromSeveralOutputs (tableClass self) [p]), w').
Proof.
  unfold exec, minimum. intros Hexec Hstop fuel.
  destruct (getInput self) as [request | | ]; try discriminate.
  simpl.
  destruct (page self request w) as [[[p' request'] | e | ] w1]; try discriminate.
  injection Hexec as -> ->.
  assert (Hbreak : (0 + qo_count p >=? n) || negb (notNull (qo_lastEvaluatedKey p)) = true).
  { destruct Hstop as [Hcount | Htoken].
    - apply orb_true_iff. left. apply Z.geb_le. lia.
    - rewrite Htoken. apply orb_true_r. }
  match goal with
  | |- context [if ?c then _ else _] => replace c with true by (symmetry; exact Hbreak)
  end.
  reflexivity.
Qed.

Lemma all_loop_endless (self : MagicSearch) :
  (forall call st, exists output st',
      dynamo call st = (inr output, st') /\ LastEvaluatedKey output <> None) ->
  forall fuel request outputs previous w,
    morePages previous = true ->
    rejectedOnScan (carryKey previous request) = false ->
    exists w',
      all_loop fuel self request outputs previous w = (OutOfFuel, w') /\
      List.length (log w') = (List.length (log w) + fuel)%nat.
Proof.
  intros Hstore. induction fuel as [ | fuel IH ];
    intros request outputs previous w Hmore Hok; simpl; rewrite Hmore.
  - exists w. split; [ reflexivity | lia ].
  - rewrite (page_sent self _ w Hok).
    destruct (Hstore (clientCall (carryKey previous request)) (store w))
      as [output [st' [Hcall Htoken]]].
    rewrite Hcall.
    destruct (nextRequest_facts (carryKey previous request) output) as [_ [_ Hok']].
    edestruct (IH (sentRequest (carryKey previous request))) as [w' [Hloop Hlength]];
      [ | rewrite carryKey_after; exact Hok' | ].
    + simpl. destruct (LastEvaluatedKey output); [ reflexivity | contradiction ].
    + exists w'. split; [ exact Hloop | ].
      rewrite Hlength. simpl. rewrite length_app. simpl. lia.
Qed.

(** X15. Against a store that answers every call with a page that carries
    a continuation token, [all()] never returns: whatever the bound on the
    number of iterations, the loop is still running when the bound is
    reached, and it has made as many calls as the bound allows. *)
Theorem all_never_returns_on_endless_store (self : MagicSearch) (request : Input) :
  (forall call st, exists output st',
      dynamo call st = (inr output, st') /\ LastEvaluatedKey output <> None) ->
  getInput self = Ok request ->
  rejectedOnScan request = false ->
  forall fuel w,
    fst (all fuel self w) = OutOfFuel /\
    List.length (log (snd (all fuel self w))) = (List.length (log w) + fuel)%nat.
Proof.
  intros Hstore Hrequest Hok fuel w. unfold all. rewrite Hrequest.
  destruct (all_loop_endless self Hstore fuel request [] None w eq_refl Hok)
    as [w' [Hloop Hlength]].
  rewrite Hloop. split; [ reflexivity | exact Hlength ].
Qed.

End Paging.

(* ===================================================================== *)
(** * Properties of utils/is.ts *)
(* ===================================================================== *)

Lemma orElse_Returned (a b : bool) :
  orElse (Returned a) (Returned b) = Returned (a || b).
Proof. destruct a; reflexivity. Qed.

(** The test of [isDynamoAttributeValue] on the own properties of an
    object. *)
Lemma isDynamoAttributeValue_object (fields : JsObject JsValue) :
  let read key := match getOwn fields key with
                  | Some x => x
                  | None => JUndefined
                  end in
  isDynamoAttributeValue (JObj fields) =
  Returned
    (String.eqb (typeof (read "S")) "string" ||
     (String.eqb (typeof (read "N")) "string" ||
      (String.eqb (typeof (read "BOOL")) "boolean" ||
       (isArray (read "SS") ||
        (isArray (read "NS") ||
         (isArray (read "BS") ||
          (isArray (read "L") ||
           (negb (String.eqb (typeof (read "B")) "undefined") ||
            (negb (String.eqb (typeof (read "M")) "undefined") ||
             String.eqb (typeof (read "NULL")) "boolean"))))))))).
Proof.
  intros read. unfold isDynamoAttributeValue.
  change (String.eqb (typeof (JObj fields)) "object") with true.
  unfold typeofMemberIs, memberIsArray, memberIsDefined, member. cbv iota beta.
  rewrite !orElse_Returned. reflexivity.
Qed.

Lemma indexKey_not_typeKey (i : nat) (key : string) :
  In key typeKeys -> String.eqb (indexKey i) key = false.
Proof.
  unfold typeKeys, indexKey. intros Hin.
  repeat (destruct Hin as [<- | Hin]; [ destruct (Nat.to_uint i); reflexivity | ]).
  destruct Hin.
Qed.

Lemma getOwn_arrayEntries_typeKey (elements : list JsValue) (key : string) :
  In key typeKeys -> forall i, getOwn (arrayEntries i elements) key = None.
Proof.
  intros Hkey. induction elements as [ | x rest IH ]; intros i; simpl.
  - reflexivity.
  - rewrite (@indexKey_not_typeKey i key Hkey). apply IH.
Qed.

Lemma isDynamoAttributeValue_array (elements : list JsValue) :
  isDynamoAttributeValue (JArr elements) = Returned false.
Proof.
  unfold isDynamoAttributeValue.
  change (String.eqb (typeof (JArr elements)) "object") with true.
  unfold typeofMemberIs, memberIsArray, memberIsDefined, member. cbv iota beta.
  change (String.eqb "S" "length") with false.
  change (String.eqb "N" "length") with false.
  change (String.eqb "BOOL" "length") with false.
  change (String.eqb "SS" "length") with false.
  change (String.eqb "NS" "length") with false.
  change (String.eqb "BS" "length") with false.
  change (String.eqb "L" "length") with false.
  change (String.eqb "B" "length") with false.
  change (String.eqb "M" "length") with false.
  change (String.eqb "NULL" "length") with false.
  cbv iota.
  rewrite !getOwn_arrayEntries_typeKey by (unfold typeKeys; simpl; tauto).
  reflexivity.
Qed.

Lemma isDynamoAttributeValue_TypeError (v : JsValue) :
  isDynamoAttributeValue v = TypeError <-> v = JNull.
Proof.
  split.
  - destruct v as [ | | b | n | s | elements | fields ]; try discriminate.
    + reflexivity.
    + rewrite isDynamoAttributeValue_array. discriminate.
    + rewrite isDynamoAttributeValue_object. discriminate.
  - intros ->. reflexivity.
Qed.

(** X17. [isDynamoAttributeValue] answers false for [undefined] and for
    every boolean, number and string, and for every array; it throws a
    TypeError on [null], and on nothing else: [typeof null] is ['object'] and
    the first property read fails. *)
Theorem isDynamoAttributeValue_primitives :
  (forall v, typeof v <> "object" -> isDynamoAttributeValue v = Returned false) /\
  (forall elements, isDynamoAttributeValue (JArr elements) = Returned false) /\
  (forall v, isDynamoAttributeValue v = TypeError <-> v = JNull).
Proof.
  split; [ | split ].
  - intros v Hprimitive. destruct v; try reflexivity; exfalso; apply Hprimitive;
      reflexivity.
  - apply isDynamoAttributeValue_array.
  - apply isDynamoAttributeValue_TypeError.
Qed.

(** X18. An object is taken for an attribute value only if it has one of
    the ten type keys as an own property.  Under [S] and [N] only a string
    counts, under [BOOL] and [NULL] only a boolean, under [SS], [NS], [BS]
    and [L] only an array; under [B] and [M] any value other than
    [undefined] counts, [null] included. *)
Theorem isDynamoAttributeValue_type_keys (fields : JsObject JsValue) :
  (isDynamoAttributeValue (JObj fields) = Returned true ->
   exists key, In key typeKeys /\ hasOwn fields key = true)
  /\
  (forall key v, key = "B" \/ key = "M" ->
     getOwn fields key = Some v -> v <> JUndefined ->
     isDynamoAttributeValue (JObj fields) = Returned true)
  /\
  (forall key s, key = "S" \/ key = "N" ->
     getOwn fields key = Some (JStr s) ->
     isDynamoAttributeValue (JObj fields) = Returned true)
  /\
  (forall v, fields = [("S", v)] ->
     (isDynamoAttributeValue (JObj fields) = Returned true <-> exists s, v = JStr s)).
Proof.
  rewrite isDynamoAttributeValue_object. cbv zeta.
  split; [ | split; [ | split ] ].
  - intros H. injection H as H.
    assert (Hmark : forall key,
              In key typeKeys ->
              getOwn fields key = None \/
              exists key', In key' typeKeys /\ hasOwn fields key' = true).
    { intros key Hkey. destruct (getOwn fields key) eqn:Hget; [ | left; reflexivity ].
      right. exists key. split; [ exact Hkey | ].
      rewrite getOwn_hasOwn, Hget. reflexivity. }
    destruct (Hmark "S") as [HS | Hfound]; [ unfold typeKeys; simpl; tauto | | exact Hfound ].
    destruct (Hmark "N") as [HN | Hfound]; [ unfold typeKeys; simpl; tauto | | exact Hfound ].
    destruct (Hmark "BOOL") as [HBOOL | Hfound]; [ unfold typeKeys; simpl; tauto | | exact Hfound ].
    destruct (Hmark "SS") as [HSS | Hfound]; [ unfold typeKeys; simpl; tauto | | exact Hfound ].
    destruct (Hmark "NS") as [HNS | Hfound]; [ unfold typeKeys; simpl; tauto | | exact Hfound ].
    destruct (Hmark "BS") as [HBS | Hfound]; [ unfold typeKeys; simpl; tauto | | exact Hfound ].
    destruct (Hmark "L") as [HL | Hfound]; [ unfold typeKeys; simpl; tauto | | exact Hfound ].
    destruct (Hmark "B") as [HB | Hfound]; [ unfold typeKeys; simpl; tauto | | exact Hfound ].
    destruct (Hmark "M") as [HM | Hfound]; [ unfold typeKeys; simpl; tauto | | exact Hfound ].
    destruct (Hmark "NULL") as [HNULL | Hfound]; [ unfold typeKeys; simpl; tauto | | exact Hfound ].
    rewrite HS, HN, HBOOL, HSS, HNS, HBS, HL, HB, HM, HNULL in H. discriminate.
  - intros key v Hkey Hget Hdefined.
    assert (Htype : negb (String.eqb (typeof v) "undefined") = true).
    { destruct v; try reflexivity. contradiction. }
    destruct Hkey as [-> | ->]; rewrite Hget, Htype; rewrite ?orb_true_r; reflexivity.
  - intros key s Hkey Hget.
    destruct Hkey as [-> | ->]; rewrite Hget; simpl; rewrite ?orb_true_r; reflexivity.
  - intros v ->. simpl. split.
    + intros H. injection H as H. destruct v; try discriminate. eexists. reflexivity.
    + intros [s ->]. reflexivity.
Qed.

Lemma isDynamoAttributeMap_first (key : string) (v : JsValue)
    (rest : JsObject JsValue) :
  isDynamoAttributeMap (JObj ((key, v) :: rest)) =
  if String.eqb (typeof v) "object" then isDynamoAttributeValue v else Returned false.
Proof.
  unfold isDynamoAttributeMap, member. simpl. rewrite String.eqb_refl. reflexivity.
Qed.

Lemma isDynamoAttributeMap_first_element (x : JsValue) (rest : list JsValue) :
  isDynamoAttributeMap (JArr (x :: rest)) =
  if String.eqb (typeof x) "object" then isDynamoAttributeValue x else Returned false.
Proof. reflexivity. Qed.

(** X19. [isDynamoAttributeMap] looks at the first property only: an object
    is taken for an attribute map exactly when the value of its first
    property is taken for an attribute value, whatever the other properties
    hold, and likewise an array by its first element; an object or array
    without properties, and every value that is not an object, is not. *)
Theorem isDynamoAttributeMap_first_property :
  (forall key v rest,
     isDynamoAttributeMap (JObj ((key, v) :: rest)) =
     if String.eqb (typeof v) "object" then isDynamoAttributeValue v else Returned false)
  /\
  (forall key v rest rest',
     isDynamoAttributeMap (JObj ((key, v) :: rest)) =
     isDynamoAttributeMap (JObj ((key, v) :: rest')))
  /\
  (forall x rest,
     isDynamoAttributeMap (JArr (x :: rest)) =
     if String.eqb (typeof x) "object" then isDynamoAttributeValue x else Returned false)
  /\
  isDynamoAttributeMap (JObj []) = Returned false /\
  isDynamoAttributeMap (JArr []) = Returned false /\
  (forall v, typeof v <> "object" -> isDynamoAttributeMap v = Returned false).
Proof.
  split; [ apply isDynamoAttributeMap_first | ].
  split; [ intros; rewrite !isDynamoAttributeMap_first; reflexivity | ].
  split; [ apply isDynamoAttributeMap_first_element | ].
  split; [ reflexivity | ]. split; [ reflexivity | ].
  intros v Hprimitive. destruct v; try reflexivity; exfalso; apply Hprimitive;
    reflexivity.
Qed.

(** X20. [isDynamoAttributeMap] throws a TypeError exactly on [null] and on
    an object or array whose first property holds [null]; on every other
    value it returns. *)
Theorem isDynamoAttributeMap_throws (v : JsValue) :
  isDynamoAttributeMap v = TypeError <->
  v = JNull \/
  (exists key rest, v = JObj ((key, JNull) :: rest)) \/
  (exists rest, v = JArr (JNull :: rest)).
Proof.
  split.
  - destruct v as [ | | b | n | s | [ | x rest ] | [ | [key x] rest ] ];
      try discriminate.
    + left. reflexivity.
    + rewrite isDynamoAttributeMap_first_element.
      destruct (String.eqb (typeof x) "object"); [ | discriminate ].
      intros H. apply isDynamoAttributeValue_TypeError in H. subst x.
      right. right. exists rest. reflexivity.
    + rewrite isDynamoAttributeMap_first.
      destruct (String.eqb (typeof x) "object"); [ | discriminate ].
      intros H. apply isDynamoAttributeValue_TypeError in H. subst x.
      right. left. exists key, rest. reflexivity.
  - intros [-> | [[key [rest ->]] | [rest ->]]].
    + reflexivity.
    + rewrite isDynamoAttributeMap_first. reflexivity.
    + reflexivity.
Qed.

(* ===================================================================== *)
(** * The further properties on the sample table *)
(* ===================================================================== *)

Lemma chain_extends_filters_witness :
  exists self',
    chain [CallWhere ["email"] (JStr "a@b.com"); CallOr; CallLimit 5;
           CallGroup [CallFilter ["status"] (JStr "active")]] userIdSearch = Ok self' /\
    tableClass self' = tableClass userIdSearch /\
    exists added, filters self' = filters userIdSearch ++ added.
Proof.
  eexists. split; [ reflexivity | ].
  apply (@chain_extends_filters sampleCollaborators
           [CallWhere ["email"] (JStr "a@b.com"); CallOr; CallLimit 5;
            CallGroup [CallFilter ["status"] (JStr "active")]] userIdSearch).
  reflexivity.
Defined.

Lemma builder_calls_frame_witness :
  input (or (setLimit 5 userIdSearch)) = input (setLimit 5 userIdSearch) /\
  filters (setLimit 5 userIdSearch) = filters userIdSearch.
Proof.
  split.
  - apply (proj1 (@builder_calls_frame sampleCollaborators CallOr
                    (setLimit 5 userIdSearch) (or (setLimit 5 userIdSearch)) eq_refl)).
    reflexivity.
  - apply (proj2 (@builder_calls_frame sampleCollaborators (CallLimit 5)
                    userIdSearch (setLimit 5 userIdSearch) eq_refl)).
    reflexivity.
Defined.

Lemma attributes_accumulate_witness :
  properties ["email"; "status"] (setAttributes ["userId"] userIdSearch) =
  Ok (setAttributes ["email"; "status"] (setAttributes ["userId"] userIdSearch)).
Proof.
  destruct (@attributes_accumulate sampleCollaborators
              (setAttributes ["userId"] userIdSearch) ["email"; "status"] [])
    as [_ [_ [Hproperties _]]].
  apply Hproperties. reflexivity.
Defined.

Lemma findAvailableIndex_sound_witness :
  (exists hash group,
     hashOf (IxGlobal byEmail) = Some hash /\
     In (EFilters group) (filters emailSearch) /\
     keyEligible group hash = true /\
     (forall range, rangeOf (IxGlobal byEmail) = Some range ->
                    keyEligible group range = true)) /\
  findAvailableIndex (newMagicSearch sampleSchema None emptyInput) = None.
Proof.
  split.
  - apply (proj2 (proj1 (@findAvailableIndex_sound sampleCollaborators emailSearch)
                    (IxGlobal byEmail) eq_refl)).
    reflexivity.
  - apply (proj2 (@findAvailableIndex_sound sampleCollaborators
                    (newMagicSearch sampleSchema None emptyInput))).
    reflexivity.
Defined.

Lemma selection_survives_chain_witness :
  exists self',
    chain [CallOr; CallFilter ["status"] (JStr "active"); CallDescending] userIdSearch =
      Ok self' /\
    findAvailableIndex self' = Some (IxPrimaryKey (primaryKey sampleSchema)).
Proof.
  eexists. split; [ reflexivity | ].
  destruct (@selection_survives_chain sampleCollaborators
              [CallOr; CallFilter ["status"] (JStr "active"); CallDescending]
              userIdSearch _ eq_refl) as [_ [Hprimary _]].
  apply Hprimary. reflexivity.
Defined.

Lemma getInput_passes_options_witness :
  exists request,
    getInput (setLimit 5 (descending (startAt (Some [("id", JNum 10)]) statusSearch))) =
      Ok request /\
    TableName request = "users" /\
    ConsistentRead request = Some false /\
    Limit request = Some 5 /\
    ExclusiveStartKey request = Some [("id", JNum 10)] /\
    ScanIndexForward request = Some false /\
    ScanIndexForward request <> Some true.
Proof.
  eexists. split; [ reflexivity | ].
  apply (@getInput_passes_options sampleCollaborators
           (setLimit 5 (descending (startAt (Some [("id", JNum 10)]) statusSearch)))).
  reflexivity.
Defined.

Lemma getInput_names_index_witness :
  (exists request,
     getInput emailSearch = Ok request /\ IndexName request = Some "byEmail") /\
  (exists request,
     getInput (using_ (Some (IndexName_ "byCreated")) statusSearch) = Ok request /\
     IndexName request = Some "byCreated").
Proof.
  split.
  - eexists. split; [ reflexivity | ].
    apply (proj1 (@getInput_names_index sampleCollaborators emailSearch _ eq_refl)).
    reflexivity.
  - eexists. split; [ reflexivity | ].
    apply (proj2 (@getInput_names_index sampleCollaborators
                    (using_ (Some (IndexName_ "byCreated")) statusSearch) _ eq_refl)).
    reflexivity.
Defined.

(** A builder that was given a projection expression in its options. *)
Lemma projection_expression_wins_witness :
  let self :=
    newMagicSearch sampleSchema (Some [("status", JStr "active")])
      {| limit := None; exclusiveStartKey := None; attributes := None;
         projectionExpression := Some "#p0"; rangeOrder := None; consistent := None;
         returnOnlyCount := None; index := None |} in
  getInput (setAttributes ["email"] self) = getInput self /\
  (exists request,
     getInput self = Ok request /\
     ProjectionExpression request = Some "#p0" /\ Select request = None) /\
  (exists request,
     getInput (setAttributes ["email"] statusSearch) = Ok request /\
     Select request = Some SPECIFIC_ATTRIBUTES).
Proof.
  intros self. split; [ | split ].
  - apply (proj1 (@projection_expression_wins sampleCollaborators self) "#p0").
    reflexivity.
  - eexists. split; [ reflexivity | ].
    apply (proj1 (proj2 (@projection_expression_wins sampleCollaborators self)) "#p0");
      try reflexivity.
    discriminate.
  - eexists. split; [ reflexivity | ].
    apply (proj2 (proj2 (@projection_expression_wins sampleCollaborators
                           (setAttributes ["email"] statusSearch))) ["email"]);
      reflexivity.
Defined.

Lemma getInput_throws_only_witness :
  exists indexName,
    index (input (using_ (Some (IndexName_ "byDate")) userIdSearch)) =
      Some (IndexName_ indexName) /\
    (forall i, In i (globalSecondaryIndexes sampleSchema) -> gsi_name i <> indexName).
Proof.
  destruct (@getInput_throws_only sampleCollaborators
              (using_ (Some (IndexName_ "byDate")) userIdSearch)
              (QueryError "Attempted to perform users.search using non-existent index byDate")
              eq_refl)
    as [[indexName [Hindex [_ [Hglobal _]]]] | [[metadata [Hresolved _]] | Hbuilder]].
  - exists indexName. split; assumption.
  - discriminate Hresolved.
  - destruct Hbuilder as [names [existing [_ [Hnames _]]]]. discriminate Hnames.
Defined.



Lemma minimum_is_all_when_short_witness :
  minimum 3 statusSearch 100 sampleWorld = all 3 statusSearch sampleWorld.
Proof.
  apply (@minimum_is_all_when_short sampleCollaborators statusSearch 100 statusRequest
           [samplePage 0; samplePage 10; samplePage 20]
           (None : @Store sampleCollaborators) (None : @Store sampleCollaborators) []
           eq_refl eq_refl sample_pages_served sample_pages_exhaust).
  - repeat split.
  - apply le_n.
Defined.

Lemma minimum_one_page_witness :
  minimum 1 statusSearch 5 sampleWorld =
  (Ok (fromSeveralOutputs sampleSchema [fromDynamoOutput sampleSchema (samplePage 0) false]),
   {| store := None; log := [DynamoScan statusRequest] |}).
Proof.
  apply (@minimum_one_page sampleCollaborators statusSearch 5 sampleWorld
           {| store := (None : @Store sampleCollaborators);
              log := [DynamoScan statusRequest] |}
           (fromDynamoOutput sampleSchema (samplePage 0) false) eq_refl).
  left. discriminate.
Defined.

Lemma all_never_returns_on_endless_store_witness :
  fst (@all endlessCollaborators 7 statusSearch
         (@Build_World endlessCollaborators 0 [])) = OutOfFuel /\
  List.length (log (snd (@all endlessCollaborators 7 statusSearch
                           (@Build_World endlessCollaborators 0 [])))) = 7%nat.
Proof.
  apply (@all_never_returns_on_endless_store endlessCollaborators statusSearch
           statusRequest).
  - intros call st. eexists. eexists. split; [ reflexivity | discriminate ].
  - reflexivity.
  - reflexivity.
Defined.

Lemma isDynamoAttributeValue_primitives_witness :
  isDynamoAttributeValue (JStr "") = Returned false /\
  isDynamoAttributeValue JNull = TypeError.
Proof.
  destruct isDynamoAttributeValue_primitives as [Hprimitive [_ Hnull]].
  split.
  - apply Hprimitive. discriminate.
  - apply Hnull. reflexivity.
Defined.

Lemma isDynamoAttributeValue_type_keys_witness :
  (exists key, In key typeKeys /\ hasOwn [("N", JStr "1234")] key = true) /\
  isDynamoAttributeValue (JObj [("a", JBool true); ("B", JNull)]) = Returned true /\
  isDynamoAttributeValue (JObj [("S", JStr "test")]) = Returned true /\
  (isDynamoAttributeValue (JObj [("S", JNum 5)]) = Returned true <->
   exists s, JNum 5 = JStr s).
Proof.
  split; [ | split; [ | split ] ].
  - apply (proj1 (isDynamoAttributeValue_type_keys [("N", JStr "1234")])).
    reflexivity.
  - apply (proj1 (proj2 (isDynamoAttributeValue_type_keys
                           [("a", JBool true); ("B", JNull)])) "B" JNull).
    + left. reflexivity.
    + reflexivity.
    + discriminate.
  - apply (proj1 (proj2 (proj2 (isDynamoAttributeValue_type_keys
                                  [("S", JStr "test")]))) "S" "test").
    + left. reflexivity.
    + reflexivity.
  - apply (proj2 (proj2 (proj2 (isDynamoAttributeValue_type_keys
                                  [("S", JNum 5)]))) (JNum 5)).
    reflexivity.
Defined.

Lemma isDynamoAttributeMap_first_property_witness :
  isDynamoAttributeMap (JStr "") = Returned false /\
  isDynamoAttributeMap (JObj [("a", JObj [("S", JStr "test")]); ("b", JNum 1)]) =
  isDynamoAttributeMap (JObj [("a", JObj [("S", JStr "test")])]).
Proof.
  destruct isDynamoAttributeMap_first_property as [_ [Hrest [_ [_ [_ Hprimitive]]]]].
  split.
  - apply Hprimitive. discriminate.
  - apply Hrest.
Defined.

Lemma isDynamoAttributeMap_throws_witness :
  isDynamoAttributeMap (JObj [("a", JNull); ("b", JObj [("S", JStr "x")])]) = TypeError.
Proof.
  apply (proj2 (isDynamoAttributeMap_throws
                  (JObj [("a", JNull); ("b", JObj [("S", JStr "x")])]))).
  right. left. exists "a", [("b", JObj [("S", JStr "x")])]. reflexivity.
Defined.
